(** * Mermaid exporter: a shallow embedding of [main.ts]

    The development follows the export pipeline of the plugin
    (validate, extract, render, normalize, convert, persist) and the
    bookkeeping of export controls in the document tree.

    Conventions.  A JavaScript string is a [string] of 8-bit code units,
    read as the first 256 Unicode code points (Latin-1); [toLowerCase]
    and [trim] are the ECMAScript functions restricted to that range.
    [null] is [None].  A number is an IEEE 754 binary64 value.  Host services (the vault, the rendering engine,
    the browser download, the XML parser, the clock) are inputs of the
    model.  Part I holds the embedding, Part II the proofs. *)

From Stdlib Require Import String Ascii List Bool Arith ZArith Lia SpecFloat.
From stdpp Require Import base gmap sets.
Import ListNotations.

Local Open Scope string_scope.
Local Open Scope list_scope.

(** * Part I: the embedding *)

(** ** ECMAScript string primitives *)

Module JsString.

(** A string is falsy exactly when it is empty. *)
Definition truthy (s : string) : bool :=
  match s with EmptyString => false | String _ _ => true end.

(** [a || b] on strings. *)
Definition orElse (a b : string) : string := if truthy a then a else b.

(** [WhiteSpace] and [LineTerminator] code points below 256:
    TAB, LF, VT, FF, CR, SP and NBSP. *)
Definition isWhiteSpace (c : ascii) : bool :=
  let n := nat_of_ascii c in
  (((9 <=? n) && (n <=? 13)) || (n =? 32) || (n =? 160))%nat.

(** Simple lower-case mapping on Latin-1: A-Z, and U+00C0-U+00DE
    except the multiplication sign U+00D7. *)
Definition lowerChar (c : ascii) : ascii :=
  let n := nat_of_ascii c in
  if (((65 <=? n) && (n <=? 90))
      || ((192 <=? n) && (n <=? 222) && negb (n =? 215)))%nat
  then ascii_of_nat (n + 32) else c.

Fixpoint toLowerCase (s : string) : string :=
  match s with
  | EmptyString => EmptyString
  | String c r => String (lowerChar c) (toLowerCase r)
  end.

(** Dropping the leading, resp. trailing, run of characters in [P]. *)
Fixpoint dropStart (P : ascii -> bool) (s : string) : string :=
  match s with
  | EmptyString => EmptyString
  | String c r => if P c then dropStart P r else s
  end.

Fixpoint dropEnd (P : ascii -> bool) (s : string) : string :=
  match s with
  | EmptyString => EmptyString
  | String c r =>
      match dropEnd P r with
      | EmptyString => if P c then EmptyString else String c EmptyString
      | r' => String c r'
      end
  end.

Definition trimStart : string -> string := dropStart isWhiteSpace.
Definition trimEnd : string -> string := dropEnd isWhiteSpace.
Definition trim (s : string) : string := trimEnd (trimStart s).

(** [s.startsWith(p)] *)
Fixpoint startsWith (p s : string) : bool :=
  match p, s with
  | EmptyString, _ => true
  | String a p', String b s' => Ascii.eqb a b && startsWith p' s'
  | String _ _, EmptyString => false
  end.

(** [s.includes(k)]: [k] starts at some position of [s]. *)
Fixpoint includes (k s : string) : bool :=
  startsWith k s ||
  match s with
  | EmptyString => false
  | String _ r => includes k r
  end.

(** [s.endsWith(p)] *)
Fixpoint endsWith (p s : string) : bool :=
  String.eqb p s ||
  match s with
  | EmptyString => false
  | String _ r => endsWith p r
  end.

(** [s.substring(n)] *)
Fixpoint drop (n : nat) (s : string) : string :=
  match n, s with
  | O, _ => s
  | S n', String _ r => drop n' r
  | S _, EmptyString => EmptyString
  end.

(** [s.slice(0, -n)] *)
Definition dropLast (n : nat) (s : string) : string :=
  String.substring 0 (String.length s - n) s.

(** [s.split(c)] for a one-character separator. *)
Fixpoint splitOnFrom (sep : ascii) (cur s : string) : list string :=
  match s with
  | EmptyString => [cur]
  | String c r =>
      if Ascii.eqb c sep then cur :: splitOnFrom sep EmptyString r
      else splitOnFrom sep (cur ++ String c EmptyString) r
  end.

Definition splitOn (sep : ascii) (s : string) : list string :=
  splitOnFrom sep EmptyString s.

(** [s.split(/\s+/)]: fields separated by maximal runs of white space. *)
Fixpoint splitWsFrom (cur : string) (inRun : bool) (s : string) : list string :=
  match s with
  | EmptyString => [cur]
  | String c r =>
      if isWhiteSpace c then
        if inRun then splitWsFrom EmptyString true r
        else cur :: splitWsFrom EmptyString true r
      else splitWsFrom (cur ++ String c EmptyString) false r
  end.

Definition splitWs (s : string) : list string := splitWsFrom EmptyString false s.

(** [s.replace(/[...]/g, to)] for a character class and a replacement
    free of [$]. *)
Fixpoint replaceChars (P : ascii -> bool) (to : string) (s : string) : string :=
  match s with
  | EmptyString => EmptyString
  | String c r =>
      if P c then to ++ replaceChars P to r else String c (replaceChars P to r)
  end.

(** [GetSubstitution] for a pattern without capture groups: [$$] is a
    dollar sign, [$&] the matched text, [$`] the text before the match,
    [$'] the text after it; any other [$] stands for itself. *)
Fixpoint getSubstitution (matched before after replacement : string) : string :=
  match replacement with
  | EmptyString => EmptyString
  | String c r =>
      if Ascii.eqb c "$" then
        match r with
        | String d r' =>
            if Ascii.eqb d "$" then String "$" (getSubstitution matched before after r')
            else if Ascii.eqb d "&" then matched ++ getSubstitution matched before after r'
            else if Ascii.eqb d "`" then before ++ getSubstitution matched before after r'
            else if Ascii.eqb d "'" then after ++ getSubstitution matched before after r'
            else String c (getSubstitution matched before after r)
        | EmptyString => String c EmptyString
        end
      else String c (getSubstitution matched before after r)
  end.

(** [s.replace(/pat/g, replacement)] for a literal, non-empty pattern:
    matches are found left to right and do not overlap.  [before] is
    the text already scanned, [skip] the number of characters of the
    current match still to pass over. *)
Fixpoint replaceAllFrom (pat replacement before : string) (skip : nat) (s : string)
  : string :=
  match s with
  | EmptyString => EmptyString
  | String c r =>
      let before' := (before ++ String c EmptyString)%string in
      match skip with
      | S k => replaceAllFrom pat replacement before' k r
      | O =>
          if startsWith pat s then
            getSubstitution pat before (drop (String.length pat) s) replacement
            ++ replaceAllFrom pat replacement before' (String.length pat - 1) r
          else String c (replaceAllFrom pat replacement before' 0 r)
      end
  end.

Definition replaceAll (pat replacement s : string) : string :=
  replaceAllFrom pat replacement EmptyString 0 s.

Definition lf : string := String (ascii_of_nat 10) EmptyString.

End JsString.

Import JsString.

(** ** Settings (main.ts, MermaidExporterSettings and DEFAULT_SETTINGS) *)

Record MermaidExporterSettings := {
  exportQuality : string;
  defaultExportLocation : string;
  filenameFormat : string;
  exportFormat : string
}.

Definition DEFAULT_SETTINGS : MermaidExporterSettings :=
  {| exportQuality := "high";
     defaultExportLocation := EmptyString;
     filenameFormat := "{noteName}-{timestamp}";
     exportFormat := "svg" |}.

(** ** The validator (main.ts, validateMermaidCode) *)

Definition mermaidKeywords : list string :=
  [ "graph"; "flowchart"; "sequencediagram"; "classdiagram"; "statediagram";
    "erdiagram"; "gantt"; "pie"; "gitgraph"; "journey"; "requirement";
    "c4context"; "c4container"; "c4component"; "mindmap"; "timeline";
    "sankey-beta"; "quadrantchart" ].

Definition validateMermaidCode (code : string) : bool :=
  if negb (truthy code) || (String.length (trim code) =? 0)%nat then false
  else
    let trimmed := toLowerCase (trim code) in
    existsb (fun keyword => includes keyword trimmed) mermaidKeywords.

(** ** Vector markup

    The XML parser and serializer are host services.  Markup text is
    kept up to parsing: a text the parser accepts is identified with
    its document element, so that parsing a serialized element gives the
    element back; a text it rejects is kept with the root element of the
    error document the parser returns for it. *)

Record SvgElement := {
  attributes : gmap string string;
  innerMarkup : string
}.

Inductive Markup :=
| Unparsed (raw : string) (errorRoot : SvgElement)
| Serialized (root : SvgElement).

Definition getAttribute (name : string) (el : SvgElement) : option string :=
  attributes el !! name.

Definition setAttribute (name value : string) (el : SvgElement) : SvgElement :=
  {| attributes := <[name := value]> (attributes el);
     innerMarkup := innerMarkup el |}.

(** [parser.parseFromString(text, 'image/svg+xml').documentElement] *)
Definition documentElement (m : Markup) : SvgElement :=
  match m with
  | Unparsed _ errorRoot => errorRoot
  | Serialized root => root
  end.

(** [svgDoc.querySelector('parsererror')] is not null *)
Definition hasParserError (m : Markup) : bool :=
  match m with Unparsed _ _ => true | Serialized _ => false end.

(** [serializer.serializeToString(el)] *)
Definition serializeToString (el : SvgElement) : Markup := Serialized el.

(** [svg.trim().length === 0] *)
Definition isBlankMarkup (m : Markup) : bool :=
  match m with
  | Unparsed raw _ => (String.length (trim raw) =? 0)%nat
  | Serialized _ => false
  end.

(** An attribute value is truthy when it is present and not empty. *)
Definition attrTruthy (a : option string) : bool :=
  match a with Some s => truthy s | None => false end.

(** ** Numbers of the raster converter

    A JavaScript number is an IEEE 754 binary64 value: a [spec_float]
    of the standard library at precision 53 and maximal exponent 1024,
    with its signed zeros, its infinities and NaN.  Conversions and
    products round to nearest, ties to even. *)

Definition JsNumber : Type := spec_float.

Definition prec : Z := 53.
Definition emax : Z := 1024.

Definition NaN : JsNumber := S754_nan.
Definition Infinity (negative : bool) : JsNumber := S754_infinity negative.

(** The number of an integer below 2^53 in absolute value; in general
    the number nearest to it. *)
Definition integerNumber (n : Z) : JsNumber := binary_normalize prec emax n 0 false.

(** The number nearest to [p / q], for [0 <= p] and [0 < q].  The
    quotient is taken to 1080 binary places, which is below the last
    place of every binary64 value, and rounded from there by the
    position of the remainder against one half. *)
Definition ratioNumber (p q : Z) : JsNumber :=
  let scaled := (p * 2 ^ 1080)%Z in
  let remainder := (scaled mod q)%Z in
  let position :=
    if (remainder =? 0)%Z then loc_Exact
    else loc_Inexact (Z.compare (2 * remainder) q) in
  binary_round_aux prec emax false (scaled / q) (-1080) position.

Definition isDigit (c : ascii) : bool :=
  let n := nat_of_ascii c in ((48 <=? n) && (n <=? 57))%nat.

Definition digitValue (c : ascii) : Z := Z.of_nat (nat_of_ascii c - 48).

(** Reads a run of decimal digits: value so far, number of digits read,
    rest of the text. *)
Fixpoint readDigits (acc : Z) (count : nat) (s : string) : Z * nat * string :=
  match s with
  | EmptyString => (acc, count, s)
  | String c r =>
      if isDigit c then readDigits (10 * acc + digitValue c) (S count) r
      else (acc, count, s)
  end.

(** The number nearest to [m * 10^e], for [0 <= m]: the value of a
    decimal literal. *)
Definition scale10 (m e : Z) : JsNumber :=
  if (0 <=? e)%Z then ratioNumber (m * 10 ^ e) 1
  else ratioNumber m (10 ^ (- e)).

(** The exponent part of a decimal literal, if a complete one follows. *)
Definition readExponent (s : string) : Z :=
  match s with
  | String c r =>
      if Ascii.eqb c "e" || Ascii.eqb c "E" then
        let '(negative, digits) :=
          match r with
          | String d r' =>
              if Ascii.eqb d "-" then (true, r')
              else if Ascii.eqb d "+" then (false, r')
              else (false, r)
          | EmptyString => (false, r)
          end in
        let '(value, count, _) := readDigits 0 0 digits in
        match count with
        | O => 0%Z
        | S _ => if negative then (- value)%Z else value
        end
      else 0%Z
  | EmptyString => 0%Z
  end.

(** An unsigned [StrDecimalLiteral] prefix: [Infinity], or digits with
    an optional fraction and exponent; at least one digit is needed. *)
Definition readUnsigned (s : string) : JsNumber :=
  if startsWith "Infinity" s then Infinity false
  else
    let '(intPart, intCount, afterInt) := readDigits 0 0 s in
    let '(mantissa, digits, rest) :=
      match afterInt with
      | String c r =>
          if Ascii.eqb c "." then readDigits intPart intCount r
          else (intPart, intCount, afterInt)
      | EmptyString => (intPart, intCount, afterInt)
      end in
    match digits with
    | O => NaN
    | S _ =>
        scale10 mantissa (readExponent rest - Z.of_nat (digits - intCount))
    end.

(** [-x] *)
Definition negate (x : JsNumber) : JsNumber := SFopp x.

(** [parseFloat(s)] *)
Definition parseFloat (s : string) : JsNumber :=
  match trimStart s with
  | String c r =>
      if Ascii.eqb c "-" then negate (readUnsigned r)
      else if Ascii.eqb c "+" then readUnsigned r
      else readUnsigned (String c r)
  | EmptyString => NaN
  end.

(** [x * y] *)
Definition times (x y : JsNumber) : JsNumber := SFmul prec emax x y.

(** [Math.round(x)]: NaN, the infinities, the zeros and the integral
    numbers are returned as they are; a number in [-0.5, 0) gives -0,
    one in (0, 0.5) gives +0; otherwise the integer nearest to [x],
    ties going up.  A finite [x] is [m * 2^e], negated when [negative];
    with [0 <= e] it is integral. *)
Definition mathRound (x : JsNumber) : JsNumber :=
  match x with
  | S754_finite negative m e =>
      if (0 <=? e)%Z then x
      else
        let twice := (2 * cond_Zopp negative (Zpos m))%Z in
        let nearest := ((twice + 2 ^ (- e)) / 2 ^ (1 - e))%Z in
        if (nearest =? 0)%Z then S754_zero negative
        else integerNumber nearest
  | other => other
  end.

(** ** Effects: exceptions over a trace of observable events

    An asynchronous method of the plugin is a computation that may
    throw and that appends to the trace of events observed so far.  The
    host answers each call from the trace, so a host may keep state. *)

Inductive BlobData :=
| MarkupData (m : Markup)
| RasterData (bytes : string).

Record Blob := {
  blobData : BlobData;
  blobType : string
}.

(** A thrown value: an [Error] with its message, or anything else. *)
Inductive Thrown :=
| ErrorValue (message : string)
| OtherValue.

(** [error instanceof Error ? error.message : 'Unknown error'] *)
Definition messageOf (error : Thrown) : string :=
  match error with
  | ErrorValue message => message
  | OtherValue => "Unknown error"
  end.

Inductive Event :=
| NoticeShown (message : string) (timeout : Z)
| NoticeHidden
| ConsoleLog (message : string)
| ConsoleWarn (message : string)
| ConsoleError (message : string)
| StagingAttached
| StagingRemoved
| RenderInvoked (code : string)
| FolderCreated (path : string)
| FileWritten (path : string) (blob : Blob)
| DownloadTriggered (filename : string) (blob : Blob)
| ImageRequested (svgContent : Markup)
| CanvasSized (width height : JsNumber)
| ImageDrawn (width height : JsNumber)
| CanvasEncoded (mime : string) (quality : option JsNumber).

Inductive Outcome (A : Type) :=
| Returned (a : A)
| Threw (error : Thrown).

Arguments Returned {A} a.
Arguments Threw {A} error.

Definition Trace := list Event.

Record Host := {
  (* mermaid.render: the svg of the result, if it has one *)
  mermaidRender : Trace -> string -> Outcome (option Markup);
  (* blob.arrayBuffer() *)
  blobArrayBuffer : Trace -> Blob -> Outcome unit;
  (* vault.adapter.exists, vault.createFolder, vault.createBinary *)
  adapterExists : Trace -> string -> Outcome bool;
  createFolder : Trace -> string -> Outcome unit;
  createBinary : Trace -> string -> Blob -> Outcome unit;
  (* object URL, link creation and click *)
  browserDownload : Trace -> string -> Blob -> Outcome unit;
  (* img.onload (true) or img.onerror (false) *)
  imageLoads : Trace -> Markup -> bool;
  (* canvas.getContext('2d') is not null *)
  canvasContext : Trace -> bool;
  (* canvas.toBlob: the encoded bytes, or null *)
  canvasToBlob : Trace -> JsNumber -> JsNumber -> string -> option string
}.

Definition M (A : Type) : Type := Trace -> Outcome A * Trace.

Definition ret {A : Type} (a : A) : M A := fun trace => (Returned a, trace).

Definition throw {A : Type} (error : Thrown) : M A := fun trace => (Threw error, trace).

Definition bind {A B : Type} (m : M A) (k : A -> M B) : M B :=
  fun trace =>
    match m trace with
    | (Returned a, trace') => k a trace'
    | (Threw error, trace') => (Threw error, trace')
    end.

(** [try { m } catch (error) { handler }] *)
Definition tryCatch {A : Type} (m : M A) (handler : Thrown -> M A) : M A :=
  fun trace =>
    match m trace with
    | (Returned a, trace') => (Returned a, trace')
    | (Threw error, trace') => handler error trace'
    end.

Definition emit (e : Event) : M unit := fun trace => (Returned tt, trace ++ [e]).

(** A host call that may throw. *)
Definition call {A : Type} (service : Trace -> Outcome A) : M A :=
  fun trace => (service trace, trace).

(** A host call that answers. *)
Definition ask {A : Type} (service : Trace -> A) : M A :=
  fun trace => (Returned (service trace), trace).

Notation "'let*' x ':=' m 'in' k" := (bind m (fun x => k))
  (at level 10, x name, m at level 100, k at level 200, only parsing).
Notation "m ;; k" := (bind m (fun _ => k))
  (at level 100, k at level 200, right associativity, only parsing).

(** ** The source extractor (main.ts, extractMermaidCode)

    The extractor reads the document through DOM queries.  Their
    results on the diagram node are the fields of [ExtractContext]; the
    control flow on these results is the source's.  The only event is
    the console message of strategy 6. *)

(** The two text views of an element. *)
Record ElementText := {
  textContent : string;
  innerText : string
}.

(** [el.textContent || el.innerText] *)
Definition codeOf (el : ElementText) : string :=
  orElse (textContent el) (innerText el).

(** Strategy 5: the block container of the rendered vector element. *)
Record SvgContainer := {
  containerCode : option ElementText;
  editorViewCodes : option (list ElementText)
}.

(** Strategy 6: the host editor API.  [EditorContent captures] lists the
    first capture group of the successive matches of the block-delimiter
    pattern over the editor text. *)
Inductive EditorApi :=
| EditorThrows
| EditorAbsent
| EditorContent (captures : list string).

Record ExtractContext := {
  (* classList has cm-preview-code-block or cm-embed-block *)
  isPreviewBlock : bool;
  (* querySelector('code.language-mermaid, code[class*=mermaid]') *)
  nestedCode : option ElementText;
  (* tagged code elements of closest('.cm-editor, ...'), if there is one *)
  editorContainerCodes : option (list ElementText);
  dataCodeAttr : option string;
  dataMermaidCodeAttr : option string;
  dataSourceAttr : option string;
  (* closest('pre'), then its querySelector('code') *)
  preCode : option ElementText;
  (* tagName === 'CODE' || classList.contains('language-mermaid') *)
  isCodeElement : bool;
  ownText : ElementText;
  (* the rendered svg's closest block container, if both exist *)
  svgContainer : option SvgContainer;
  editorApi : EditorApi;
  (* every tagged code element of the document, with the nearness test *)
  documentCodes : list (ElementText * bool)
}.

(** [if (code && code.trim().length > 0) return code.trim()] *)
Definition nonBlank (code : string) : option string :=
  if truthy code && (0 <? String.length (trim code))%nat
  then Some (trim code) else None.

(** The loops of strategies 1, 5, 6 and 7: the first non-blank text
    that validates. *)
Definition nonBlankValid (code : string) : option string :=
  if truthy code && (0 <? String.length (trim code))%nat
     && validateMermaidCode (trim code)
  then Some (trim code) else None.

Fixpoint firstValid (codes : list ElementText) : option string :=
  match codes with
  | [] => None
  | el :: rest =>
      match nonBlankValid (codeOf el) with
      | Some c => Some c
      | None => firstValid rest
      end
  end.

(** [a || b] on attribute values: [null] and the empty string are falsy. *)
Definition attrOr (a b : option string) : option string :=
  match a with
  | Some s => if truthy s then a else b
  | None => b
  end.

Definition orTry {A : Type} (a b : option A) : option A :=
  match a with Some _ => a | None => b end.

Definition strategy1 (ctx : ExtractContext) : option string :=
  if isPreviewBlock ctx then
    orTry (match nestedCode ctx with
           | Some el => nonBlank (codeOf el)
           | None => None
           end)
   (orTry (match editorContainerCodes ctx with
           | Some codes => firstValid codes
           | None => None
           end)
          (match attrOr (dataCodeAttr ctx)
                        (attrOr (dataMermaidCodeAttr ctx) (dataSourceAttr ctx)) with
           | Some dataCode => nonBlank dataCode
           | None => None
           end))
  else None.

Definition strategy2 (ctx : ExtractContext) : option string :=
  match nestedCode ctx with
  | Some el => nonBlank (codeOf el)
  | None => None
  end.

(** The keywords of strategy 3, matched as they are written. *)
Definition preKeywords : list string :=
  [ "graph"; "flowchart"; "sequenceDiagram"; "classDiagram"; "stateDiagram";
    "erDiagram"; "gantt"; "pie"; "gitgraph"; "journey"; "requirement";
    "C4Context" ].

Definition acceptsPreCode (code : string) : bool :=
  truthy code && existsb (fun keyword => includes keyword code) preKeywords.

Definition strategy3 (ctx : ExtractContext) : option string :=
  match preCode ctx with
  | Some el =>
      let code := codeOf el in
      if acceptsPreCode code then Some (trim code) else None
  | None => None
  end.

Definition strategy4 (ctx : ExtractContext) : option string :=
  if isCodeElement ctx then nonBlank (codeOf (ownText ctx)) else None.

Definition strategy5 (ctx : ExtractContext) : option string :=
  match svgContainer ctx with
  | Some container =>
      orTry (match containerCode container with
             | Some el => nonBlank (codeOf el)
             | None => None
             end)
            (match editorViewCodes container with
             | Some codes => firstValid codes
             | None => None
             end)
  | None => None
  end.

Fixpoint firstValidCapture (captures : list string) : option string :=
  match captures with
  | [] => None
  | capture :: rest =>
      let code := trim capture in
      if truthy code && validateMermaidCode code then Some code
      else firstValidCapture rest
  end.

(** Strategy 6 reads the editor inside [try]; a failure of the API is
    logged and the search goes on. *)
Definition strategy6 (ctx : ExtractContext) : M (option string) :=
  tryCatch
    (match editorApi ctx with
     | EditorThrows => throw OtherValue
     | EditorAbsent => ret None
     | EditorContent captures => ret (firstValidCapture captures)
     end)
    (fun e =>
       emit (ConsoleLog "Mermaid Exporter: Could not access editor API:") ;;
       ret None).

Fixpoint strategy7From (codes : list (ElementText * bool)) : option string :=
  match codes with
  | [] => None
  | (el, near) :: rest =>
      match nonBlankValid (codeOf el) with
      | Some c => if near then Some c else strategy7From rest
      | None => strategy7From rest
      end
  end.

Definition strategy7 (ctx : ExtractContext) : option string :=
  strategy7From (documentCodes ctx).

(** Strategies 1 to 5 only read the document. *)
Definition strategies1to5 (ctx : ExtractContext) : option string :=
  orTry (strategy1 ctx)
 (orTry (strategy2 ctx)
 (orTry (strategy3 ctx)
 (orTry (strategy4 ctx) (strategy5 ctx)))).

Definition extractMermaidCode (ctx : ExtractContext) : M (option string) :=
  match strategies1to5 ctx with
  | Some code => ret (Some code)
  | None =>
      let* fromEditor := strategy6 ctx in
      match fromEditor with
      | Some code => ret (Some code)
      | None => ret (strategy7 ctx)
      end
  end.

(** ** The normalizer (main.ts, generateHighQualitySvg) *)

Definition viewBoxFrom (w h : string) : string :=
  ("0 0 " ++ w ++ " " ++ h)%string.

(** [if (!viewBox && w && h) el.setAttribute('viewBox', `0 0 ${w} ${h}`)] *)
Definition ensureViewBox (currentViewBox currentWidth currentHeight : option string)
  (el : SvgElement) : SvgElement :=
  match currentWidth, currentHeight with
  | Some w, Some h =>
      if negb (attrTruthy currentViewBox) && truthy w && truthy h
      then setAttribute "viewBox" (viewBoxFrom w h) el
      else el
  | _, _ => el
  end.

Definition ensureAttribute (name value : string) (el : SvgElement) : SvgElement :=
  if negb (attrTruthy (getAttribute name el)) then setAttribute name value el else el.

Definition normalizeElement (settings : MermaidExporterSettings) (svgElement : SvgElement)
  : SvgElement :=
  let currentWidth := getAttribute "width" svgElement in
  let currentHeight := getAttribute "height" svgElement in
  let viewBox := getAttribute "viewBox" svgElement in
  let el1 := ensureViewBox viewBox currentWidth currentHeight svgElement in
  let el2 :=
    if String.eqb (exportQuality settings) "maximum"
       || String.eqb (exportQuality settings) "high"
    then ensureViewBox (getAttribute "viewBox" el1) currentWidth currentHeight el1
    else if String.eqb (exportQuality settings) "medium"
    then ensureViewBox (getAttribute "viewBox" el1) currentWidth currentHeight el1
    else el1 in
  let el3 := ensureAttribute "xmlns" "http://www.w3.org/2000/svg" el2 in
  ensureAttribute "xmlns:xlink" "http://www.w3.org/1999/xlink" el3.

Definition generateHighQualitySvg (settings : MermaidExporterSettings)
  (svgContent : Markup) : M Markup :=
  if hasParserError svgContent then
    emit (ConsoleWarn "Mermaid Exporter: SVG parsing warning, using original content") ;;
    ret svgContent
  else ret (serializeToString (normalizeElement settings (documentElement svgContent))).

(** ** The raster converter's dimensions (main.ts, convertSvgToRaster and
    getQualityMultiplier) *)

(** The literals [1.0], [1.5], [2.0] and [3.0]. *)
Definition getQualityMultiplier (settings : MermaidExporterSettings) : JsNumber :=
  let quality := exportQuality settings in
  if String.eqb quality "low" then scale10 10 (-1)
  else if String.eqb quality "medium" then scale10 15 (-1)
  else if String.eqb quality "high" then scale10 20 (-1)
  else if String.eqb quality "maximum" then scale10 30 (-1)
  else scale10 20 (-1).

(** [el.getAttribute(name) || fallback] *)
Definition attrOrDefault (a : option string) (fallback : string) : string :=
  match a with
  | Some s => orElse s fallback
  | None => fallback
  end.

(** The width and height before scaling. *)
Definition intrinsicSize (svgElement : SvgElement) : JsNumber * JsNumber :=
  let viewBox := getAttribute "viewBox" svgElement in
  let width := parseFloat (attrOrDefault (getAttribute "width" svgElement) "800") in
  let height := parseFloat (attrOrDefault (getAttribute "height" svgElement) "600") in
  match viewBox with
  | Some v =>
      if truthy v then
        match splitWs v with
        | _ :: _ :: w :: h :: _ => (parseFloat w, parseFloat h)
        | _ => (width, height)
        end
      else (width, height)
  | None => (width, height)
  end.

(** The size of the canvas the image is drawn to. *)
Definition rasterSize (settings : MermaidExporterSettings) (svgContent : Markup)
  : JsNumber * JsNumber :=
  let '(width, height) := intrinsicSize (documentElement svgContent) in
  let qualityMultiplier := getQualityMultiplier settings in
  (mathRound (times width qualityMultiplier),
   mathRound (times height qualityMultiplier)).

(** ** File names (main.ts, generateFilename) *)

(** The clock: [now.toISOString()] and [now.toTimeString()]. *)
Record Clock := {
  isoString : string;
  timeString : string
}.

Definition isColonOrDot (c : ascii) : bool := Ascii.eqb c ":" || Ascii.eqb c ".".
Definition isColon (c : ascii) : bool := Ascii.eqb c ":".

Definition firstField (sep : ascii) (s : string) : string :=
  match splitOn sep s with
  | field :: _ => field
  | [] => EmptyString
  end.

Definition timestampOf (now : Clock) : string :=
  dropLast 5 (replaceChars isColonOrDot "-" (isoString now)).

Definition dateOf (now : Clock) : string := firstField "T" (isoString now).

Definition timeOf (now : Clock) : string :=
  replaceChars isColon "-" (firstField " " (timeString now)).

(** The template with its placeholders replaced, before the extension. *)
Definition substitutePlaceholders (template noteName : string) (now : Clock) : string :=
  let filename := replaceAll "{noteName}" noteName template in
  let filename := replaceAll "{timestamp}" (timestampOf now) filename in
  let filename := replaceAll "{date}" (dateOf now) filename in
  replaceAll "{time}" (timeOf now) filename.

Definition generateFilename (settings : MermaidExporterSettings)
  (activeFile : option string) (now : Clock) : string :=
  let noteName :=
    match activeFile with Some basename => basename | None => "mermaid-diagram" end in
  let template := orElse (filenameFormat settings) (filenameFormat DEFAULT_SETTINGS) in
  let filename := substitutePlaceholders template noteName now in
  let extension := orElse (exportFormat settings) "svg" in
  if endsWith ("." ++ extension) filename then filename
  else (filename ++ "." ++ extension)%string.

(** ** The persister (main.ts, saveToVault and downloadFile) *)

Definition isSlash (c : ascii) : bool := Ascii.eqb c "/".

(** [path.replace(/^\/+|\/+$/g, '')] *)
Definition stripSlashes (path : string) : string :=
  dropEnd isSlash (dropStart isSlash path).

Definition normalizePath (exportPath : string) : string :=
  let normalizedPath := stripSlashes exportPath in
  if truthy normalizedPath && negb (endsWith "/" normalizedPath)
  then (normalizedPath ++ "/")%string else normalizedPath.

Section Pipeline.

Variable host : Host.
Variable settings : MermaidExporterSettings.

(** The loop over the path segments after [createFolder] failed. *)
Fixpoint createParents (currentPath : string) (parts : list string) : M unit :=
  match parts with
  | [] => ret tt
  | part :: rest =>
      let currentPath' :=
        if truthy currentPath then (currentPath ++ "/" ++ part)%string else part in
      let* present := call (fun trace => adapterExists host trace currentPath') in
      (if present then ret tt
       else
         call (fun trace => createFolder host trace currentPath') ;;
         emit (FolderCreated currentPath')) ;;
      createParents currentPath' rest
  end.

Definition saveToVault (blob : Blob) (filename : string) : M unit :=
  let exportPath := trim (defaultExportLocation settings) in
  let normalizedPath := normalizePath exportPath in
  let fullPath := (normalizedPath ++ filename)%string in
  call (fun trace => blobArrayBuffer host trace blob) ;;
  let dirPath := normalizedPath in
  (if truthy dirPath then
     let* dirExists := call (fun trace => adapterExists host trace dirPath) in
     if dirExists then ret tt
     else
       tryCatch
         (call (fun trace => createFolder host trace dirPath) ;;
          emit (FolderCreated dirPath))
         (fun folderError =>
            createParents EmptyString
              (List.filter truthy (splitOn "/" dirPath)))
   else ret tt) ;;
  call (fun trace => createBinary host trace fullPath blob) ;;
  emit (FileWritten fullPath blob).

(** The browser download: an object URL and a click on a link. *)
Definition triggerDownload (blob : Blob) (filename : string) : M unit :=
  call (fun trace => browserDownload host trace filename blob) ;;
  emit (DownloadTriggered filename blob).

Definition vaultWarning : Event :=
  NoticeShown "Could not save to vault location, using browser download instead" 3000.

Definition downloadFile (content : Markup + Blob) (filename : string)
  (mimeType : option string) : M unit :=
  tryCatch
    (let blob :=
       match content with
       | inr blob => blob
       | inl text =>
           {| blobData := MarkupData text;
              blobType := attrOrDefault mimeType "application/octet-stream" |}
       end in
     let location := defaultExportLocation settings in
     let* saved :=
       if truthy location && truthy (trim location) then
         tryCatch
           (saveToVault blob filename ;; ret true)
           (fun vaultError =>
              emit (ConsoleWarn
                      "Mermaid Exporter: Failed to save to vault, falling back to browser download:") ;;
              emit vaultWarning ;;
              ret false)
       else ret false in
     if saved then ret tt else triggerDownload blob filename)
    (fun error =>
       emit (ConsoleError "Mermaid Exporter: Download error:") ;;
       throw (ErrorValue ("Failed to download file: " ++ messageOf error))).

(** ** The raster converter (main.ts, convertSvgToRaster) *)

Definition rasterMime (format : string) : string :=
  if String.eqb format "png" then "image/png" else "image/jpeg".

(** The literal [0.92] for [jpeg], [undefined] otherwise. *)
Definition rasterQuality (format : string) : option JsNumber :=
  if String.eqb format "jpeg" then Some (scale10 92 (-2)) else None.

Definition convertSvgToRaster (svgContent : Markup) (filename format : string) : M unit :=
  let '(width, height) := rasterSize settings svgContent in
  emit (ImageRequested svgContent) ;;
  let* loaded := ask (fun trace => imageLoads host trace svgContent) in
  if loaded then
    emit (CanvasSized width height) ;;
    let* context := ask (canvasContext host) in
    if context then
      emit (ImageDrawn width height) ;;
      emit (CanvasEncoded (rasterMime format) (rasterQuality format)) ;;
      let* encoded :=
        ask (fun trace => canvasToBlob host trace width height (rasterMime format)) in
      match encoded with
      | Some bytes =>
          downloadFile
            (inr {| blobData := RasterData bytes; blobType := rasterMime format |})
            filename (Some (rasterMime format))
      | None => throw (ErrorValue "Failed to convert canvas to blob")
      end
    else throw (ErrorValue "Could not get canvas context")
  else throw (ErrorValue "Failed to load SVG image").

(** ** The render orchestrator (main.ts, renderMermaidToSvg) *)

Definition renderMermaidToSvg (mermaidCode : string) : M (option Markup) :=
  tryCatch
    (emit StagingAttached ;;
     let* result :=
       tryCatch
         (emit (RenderInvoked mermaidCode) ;;
          call (fun trace => mermaidRender host trace mermaidCode))
         (fun renderError => emit StagingRemoved ;; throw renderError) in
     emit StagingRemoved ;;
     match result with
     | Some svg =>
         if isBlankMarkup svg then throw (ErrorValue "Rendered SVG is empty")
         else ret (Some svg)
     | None => throw (ErrorValue "Rendered SVG is empty")
     end)
    (fun error =>
       emit (ConsoleError "Mermaid Exporter: Rendering error:") ;;
       (match error with
        | ErrorValue _ => emit (ConsoleError "Error details:")
        | OtherValue => ret tt
        end) ;;
       ret None).

(** ** One export (main.ts, handleExportClick) *)

Definition svgMime : string := "image/svg+xml;charset=utf-8".

Definition markupTruthy (m : Markup) : bool :=
  match m with
  | Unparsed raw _ => truthy raw
  | Serialized _ => true
  end.

Definition extractionNotice : Event :=
  NoticeShown "Error: Could not find Mermaid diagram source code" 5000.
Definition validationNotice : Event :=
  NoticeShown "Error: Invalid Mermaid diagram code" 5000.
Definition renderNotice : Event :=
  NoticeShown "Error: Failed to render Mermaid diagram" 5000.
Definition successNotice (filename : string) : Event :=
  NoticeShown ("Successfully exported: " ++ filename) 3000.
Definition failureNotice (error : Thrown) : Event :=
  NoticeShown ("Export failed: " ++ messageOf error) 5000.

Definition deliver (highQualitySvg : Markup) (filename : string) : M unit :=
  let exportFormat := orElse (exportFormat settings) "svg" in
  if String.eqb exportFormat "svg" then
    downloadFile (inl highQualitySvg) filename (Some svgMime)
  else if String.eqb exportFormat "png" || String.eqb exportFormat "jpeg" then
    convertSvgToRaster highQualitySvg filename exportFormat
  else
    downloadFile (inl highQualitySvg) filename (Some svgMime).

Definition reportExtractionFailure : M unit :=
  emit NoticeHidden ;;
  emit extractionNotice ;;
  emit (ConsoleError "Mermaid Exporter: Could not extract Mermaid code from element:").

Definition reportValidationFailure : M unit :=
  emit NoticeHidden ;;
  emit validationNotice ;;
  emit (ConsoleError "Mermaid Exporter: Invalid Mermaid code:").

Definition reportRenderFailure : M unit :=
  emit NoticeHidden ;;
  emit renderNotice ;;
  emit (ConsoleError "Mermaid Exporter: Failed to render Mermaid diagram").

Definition reportSuccess (filename : string) : M unit :=
  emit NoticeHidden ;;
  emit (successNotice filename) ;;
  emit (ConsoleLog "Mermaid Exporter: Successfully exported diagram:").

(** The steps after validation: render, normalize, name, deliver. *)
Definition renderAndDeliver (mermaidCode : string) (activeFile : option string)
  (now : Clock) : M unit :=
  let* svgContent := renderMermaidToSvg mermaidCode in
  match svgContent with
  | Some svg =>
      if markupTruthy svg then
        let* highQualitySvg := generateHighQualitySvg settings svg in
        let filename := generateFilename settings activeFile now in
        deliver highQualitySvg filename ;;
        reportSuccess filename
      else reportRenderFailure
  | None => reportRenderFailure
  end.

Definition handleExportClick (ctx : ExtractContext) (activeFile : option string)
  (now : Clock) : M unit :=
  tryCatch
    (emit (NoticeShown "Exporting Mermaid diagram..." 0) ;;
     let* extracted := extractMermaidCode ctx in
     match extracted with
     | Some mermaidCode =>
         if negb (truthy mermaidCode) then reportExtractionFailure
         else if negb (validateMermaidCode mermaidCode) then reportValidationFailure
         else renderAndDeliver mermaidCode activeFile now
     | None => reportExtractionFailure
     end)
    (fun error =>
       emit (failureNotice error) ;;
       emit (ConsoleError "Mermaid Exporter: Export error:")).

End Pipeline.

(** ** The document tree

    An element or text node of the host document: an identity, a tag
    name in lower case ([#text] for a text node), a class list, its
    attributes and its child nodes in document order. *)

Record NodeProps := {
  nodeId : nat;
  tagName : string;
  classList : list string;
  nodeAttributes : gmap string string
}.

#[local] Unset Elimination Schemes.
Inductive Node :=
| MkNode (props : NodeProps) (childNodes : list Node).
#[local] Set Elimination Schemes.

Definition propsOf (n : Node) : NodeProps :=
  match n with MkNode props _ => props end.

Definition kidsOf (n : Node) : list Node :=
  match n with MkNode _ childNodes => childNodes end.

Definition idOf (n : Node) : nat := nodeId (propsOf n).

(** [el.classList.contains(c)] *)
Definition hasClass (c : string) (p : NodeProps) : bool :=
  existsb (String.eqb c) (classList p).

Definition hasTag (tag : string) (p : NodeProps) : bool :=
  String.eqb (tagName p) tag.

(** The attribute selectors [[name*=part]] and [[name=value]]. *)
Definition attrIncludes (name part : string) (p : NodeProps) : bool :=
  match nodeAttributes p !! name with
  | Some value => includes part value
  | None => false
  end.

Definition attrEquals (name value : string) (p : NodeProps) : bool :=
  match nodeAttributes p !! name with
  | Some v => String.eqb v value
  | None => false
  end.

(** [.mermaid-export-button] *)
Definition isExportButton (p : NodeProps) : bool :=
  hasClass "mermaid-export-button" p.

(** [.edit-block-button, button[aria-label*=Edit], button[title*=Edit],
    a[aria-label*=Edit], div[aria-label=Edit this block]] *)
Definition isEditControl (p : NodeProps) : bool :=
  hasClass "edit-block-button" p
  || (hasTag "button" p && attrIncludes "aria-label" "Edit" p)
  || (hasTag "button" p && attrIncludes "title" "Edit" p)
  || (hasTag "a" p && attrIncludes "aria-label" "Edit" p)
  || (hasTag "div" p && attrEquals "aria-label" "Edit this block" p).

(** [code.language-mermaid] *)
Definition isMermaidCode (p : NodeProps) : bool :=
  hasTag "code" p && hasClass "language-mermaid" p.

(** The first node of [kids], in document order, that matches [sel];
    [search] looks below a node. *)
Definition firstMatch (sel : NodeProps -> bool) (search : Node -> option Node)
  : list Node -> option Node :=
  fix go (kids : list Node) : option Node :=
    match kids with
    | [] => None
    | c :: rest =>
        if sel (propsOf c) then Some c
        else match search c with
             | Some found => Some found
             | None => go rest
             end
    end.

(** [n.querySelector(sel)]: the first descendant that matches. *)
Fixpoint querySelector (sel : NodeProps -> bool) (n : Node) : option Node :=
  match n with
  | MkNode _ kids => firstMatch sel (querySelector sel) kids
  end.

Definition allMatches (sel : NodeProps -> bool) (search : Node -> list Node)
  : list Node -> list Node :=
  fix go (kids : list Node) : list Node :=
    match kids with
    | [] => []
    | c :: rest =>
        (if sel (propsOf c) then [c] else []) ++ search c ++ go rest
    end.

(** [n.querySelectorAll(sel)]: the descendants that match, in document
    order. *)
Fixpoint querySelectorAll (sel : NodeProps -> bool) (n : Node) : list Node :=
  match n with
  | MkNode _ kids => allMatches sel (querySelectorAll sel) kids
  end.

(** [n.contains(other)]: [other] is [n] or a descendant of [n]. *)
Fixpoint contains (n : Node) (other : nat) : bool :=
  match n with
  | MkNode p kids => (nodeId p =? other)%nat || existsb (fun c => contains c other) kids
  end.

(** ** Attaching the export control (main.ts, addExportButton) *)

Definition plainProps (id : nat) (tag : string) : NodeProps :=
  {| nodeId := id; tagName := tag; classList := []; nodeAttributes := ∅ |}.

(** The button with its icon; white-space text of the icon markup is
    left out.  The nodes take the identities [fresh], ..., [fresh + 4]. *)
Definition exportButton (fresh : nat) : Node :=
  MkNode
    {| nodeId := fresh;
       tagName := "button";
       classList := ["mermaid-export-button"];
       nodeAttributes :=
         {[ "aria-label" := "Export Mermaid diagram as SVG";
            "title" := "Export as SVG";
            "data-mermaid-element" := "true" ]} |}
    [ MkNode (plainProps (fresh + 1) "svg")
        [ MkNode (plainProps (fresh + 2) "path") [];
          MkNode (plainProps (fresh + 3) "polyline") [];
          MkNode (plainProps (fresh + 4) "line") [] ] ].

(** Where [querySelector] finds its first match below the action bar:
    at a child of the bar, or deeper; with or without a next sibling. *)
Inductive Location :=
| DirectChild (index : nat) (hasNext : bool)
| Nested (hasNext : bool).

Definition hasNextSibling (rest : list Node) : bool :=
  match rest with [] => false | _ :: _ => true end.

Definition firstNested (sel : NodeProps -> bool) (search : Node -> option bool)
  : list Node -> option bool :=
  fix go (kids : list Node) : option bool :=
    match kids with
    | [] => None
    | c :: rest =>
        if sel (propsOf c) then Some (hasNextSibling rest)
        else match search c with
             | Some found => Some found
             | None => go rest
             end
    end.

(** Whether the first match below [n] has a next sibling. *)
Fixpoint nestedMatch (sel : NodeProps -> bool) (n : Node) : option bool :=
  match n with
  | MkNode _ kids => firstNested sel (nestedMatch sel) kids
  end.

Fixpoint locate (sel : NodeProps -> bool) (index : nat) (kids : list Node)
  : option Location :=
  match kids with
  | [] => None
  | c :: rest =>
      if sel (propsOf c) then Some (DirectChild index (hasNextSibling rest))
      else match nestedMatch sel c with
           | Some hasNext => Some (Nested hasNext)
           | None => locate sel (S index) rest
           end
  end.

(** [bar.insertBefore(x, bar.childNodes[index])] *)
Definition insertAt (index : nat) (x : Node) (kids : list Node) : list Node :=
  firstn index kids ++ x :: skipn index kids.

(** [None] when [insertBefore] throws: the next sibling of a nested
    edit control is not a child of the action bar. *)
Definition addExportButton (fresh : nat) (actionBar : Node) : option Node :=
  match querySelector isExportButton actionBar with
  | Some _ => Some actionBar
  | None =>
      let exportButton := exportButton fresh in
      match actionBar with
      | MkNode p kids =>
          match locate isEditControl 0 kids with
          | Some (DirectChild index true) =>
              Some (MkNode p (insertAt (S index) exportButton kids))
          | Some (DirectChild index false) => Some (MkNode p (kids ++ [exportButton]))
          | Some (Nested true) => None
          | Some (Nested false) => Some (MkNode p (kids ++ [exportButton]))
          | None => Some (MkNode p (exportButton :: kids))
          end
      end
  end.

(** ** The registry and its cleanup (main.ts, cleanupRemovedDiagrams and
    findAssociatedMermaidElement)

    The document is its [html] element with the [body] below it; [html]
    and [body] themselves are taken not to be export controls. *)

Record Document := {
  html : NodeProps;
  body : Node
}.

(** [document.documentElement] *)
Definition documentRoot (d : Document) : Node := MkNode (html d) [body d].

(** [document.body.contains(node)] *)
Definition bodyContains (d : Document) (node : nat) : bool := contains (body d) node.

Definition firstPath (target : nat) (parent : Node) (search : Node -> option (list Node))
  : list Node -> option (list Node) :=
  fix go (kids : list Node) : option (list Node) :=
    match kids with
    | [] => None
    | c :: rest =>
        if (idOf c =? target)%nat then Some [parent]
        else match search c with
             | Some path => Some (path ++ [parent])
             | None => go rest
             end
    end.

(** The chain of [parentElement]s of the node [target] below [n],
    nearest first. *)
Fixpoint ancestorsOf (target : nat) (n : Node) : option (list Node) :=
  match n with
  | MkNode _ kids => firstPath target n (ancestorsOf target) kids
  end.

(** [n.querySelector('.mermaid svg')] is not null: some [svg] below [n]
    has an ancestor of class [mermaid]; [under] tells whether an
    ancestor of [n] has that class. *)
Fixpoint hasMermaidSvg (under : bool) (n : Node) : bool :=
  match n with
  | MkNode p kids =>
      existsb
        (fun c =>
           (hasTag "svg" (propsOf c) && (under || hasClass "mermaid" p))
           || hasMermaidSvg (under || hasClass "mermaid" p) c)
        kids
  end.

Definition isSome {A : Type} (o : option A) : bool :=
  match o with Some _ => true | None => false end.

(** The test of the loop of [findAssociatedMermaidElement]. *)
Definition looksLikeDiagram (under : bool) (current : Node) : bool :=
  hasClass "mermaid" (propsOf current)
  || isSome (querySelector isMermaidCode current)
  || hasMermaidSvg under current.

Definition underMermaid (ancestors : list Node) : bool :=
  existsb (fun a => hasClass "mermaid" (propsOf a)) ancestors.

(** The loop over at most [steps] ancestors. *)
Fixpoint findAssociatedWithin (steps : nat) (ancestors : list Node) : option Node :=
  match steps, ancestors with
  | S k, current :: rest =>
      if looksLikeDiagram (underMermaid rest) current then Some current
      else findAssociatedWithin k rest
  | _, _ => None
  end.

Definition findAssociatedMermaidElement (ancestors : list Node) : option Node :=
  findAssociatedWithin 10 ancestors.

(** [node.remove()] for the node [target] below [n]. *)
Fixpoint removeNode (target : nat) (n : Node) : Node :=
  match n with
  | MkNode p kids =>
      MkNode p
        (List.filter (fun c => negb (idOf c =? target)%nat)
           (List.map (removeNode target) kids))
  end.

Definition removeFromBody (d : Document) (target : nat) : Document :=
  {| html := html d; body := removeNode target (body d) |}.

(** The associated element of a control is there and in the body. *)
Definition associationLive (d : Document) (button : nat) : bool :=
  match ancestorsOf button (documentRoot d) with
  | Some ancestors =>
      match findAssociatedMermaidElement ancestors with
      | Some element => bodyContains d (idOf element)
      | None => false
      end
  | None => false
  end.

(** One turn of the loop over the export controls.  A control that left
    the document with an enclosing control is detached: removing it
    does not change the document. *)
Definition cleanupButton (d : Document) (button : nat) : Document :=
  match ancestorsOf button (documentRoot d) with
  | Some _ => if associationLive d button then d else removeFromBody d button
  | None => d
  end.

Record PluginState := {
  processedDiagrams : gset nat;
  document : Document
}.

Definition cleanupRemovedDiagrams (st : PluginState) : PluginState :=
  let toRemove :=
    List.filter (fun element => negb (bodyContains (document st) element))
      (elements (processedDiagrams st)) in
  let registry :=
    fold_left (fun registry element => registry ∖ {[element]}) toRemove
      (processedDiagrams st) in
  let buttons :=
    List.map idOf (querySelectorAll isExportButton (body (document st))) in
  {| processedDiagrams := registry;
     document := fold_left cleanupButton buttons (document st) |}.

(** The identities of a node and of the nodes below it, in document
    order.  Identities are unique in a well-formed document. *)
Fixpoint nodeIds (n : Node) : list nat :=
  match n with
  | MkNode p kids => nodeId p :: flat_map nodeIds kids
  end.

Definition wellFormed (d : Document) : Prop :=
  List.NoDup (nodeIds (documentRoot d)).

(** ** Vocabulary of the statements *)

(** [emitsOnly Q m]: whatever [m] appends to the trace satisfies [Q]. *)
Definition emitsOnly {A : Type} (Q : Event -> Prop) (m : M A) : Prop :=
  forall trace, exists added, snd (m trace) = trace ++ added /\ Forall Q added.

(** The blob [downloadFile] persists. *)
Definition blobOf (content : Markup + Blob) (mimeType : option string) : Blob :=
  match content with
  | inr blob => blob
  | inl text =>
      {| blobData := MarkupData text;
         blobType := attrOrDefault mimeType "application/octet-stream" |}
  end.

(** The events of the persister for one blob. *)
Definition persistEvent (filename : string) (blob : Blob) (e : Event) : Prop :=
  match e with
  | FolderCreated _ | ConsoleWarn _ | ConsoleError _ => True
  | NoticeShown _ _ => e = vaultWarning
  | FileWritten _ b => b = blob
  | DownloadTriggered f b => f = filename /\ b = blob
  | _ => False
  end.

(** The events of the render orchestrator for one source text. *)
Definition renderEvent (code : string) (e : Event) : Prop :=
  match e with
  | StagingAttached | StagingRemoved | ConsoleError _ => True
  | RenderInvoked c => c = code
  | _ => False
  end.

(** Events of the raster converter proper. *)
Definition isRasterEvent (e : Event) : bool :=
  match e with
  | ImageRequested _ | CanvasSized _ _ | ImageDrawn _ _ | CanvasEncoded _ _ => true
  | _ => false
  end.

(** The blob an event hands over to the vault or to the browser. *)
Definition deliveredBlob (e : Event) : option Blob :=
  match e with
  | FileWritten _ b | DownloadTriggered _ b => Some b
  | _ => None
  end.

(** A render attempt is made only on text the validator accepts. *)
Definition rendersValidOnly (e : Event) : Prop :=
  forall code, e = RenderInvoked code -> validateMermaidCode code = true.

(** The first character of [s], if any, is outside [P]. *)
Definition headOutside (P : ascii -> bool) (s : string) : Prop :=
  match s with
  | EmptyString => True
  | String c _ => P c = false
  end.

(** A text whose last, resp. first and last, character is outside [P]. *)
Fixpoint lastOutside (P : ascii -> bool) (k : string) : Prop :=
  match k with
  | EmptyString => False
  | String c EmptyString => P c = false
  | String _ r => lastOutside P r
  end.

Definition firmEnds (P : ascii -> bool) (k : string) : Prop :=
  match k with
  | EmptyString => False
  | String c _ => P c = false /\ lastOutside P k
  end.

(** Neither the persister nor the raster converter invokes the engine. *)
Definition notRender (e : Event) : Prop :=
  match e with RenderInvoked _ => False | _ => True end.

(** The events [handleExportClick] appends itself or through the
    extractor, the orchestrator and the normalizer, the engine call and
    the delivery apart. *)
Definition reportEvent (e : Event) : Prop :=
  match e with
  | NoticeShown _ _ | NoticeHidden | ConsoleLog _ | ConsoleWarn _ | ConsoleError _
  | StagingAttached | StagingRemoved => True
  | _ => False
  end.

(** The trace of an export halted by the validator. *)
Definition validationHalt (trace : Trace) : Trace :=
  trace ++ [ NoticeShown "Exporting Mermaid diagram..." 0;
             NoticeHidden;
             validationNotice;
             ConsoleError "Mermaid Exporter: Invalid Mermaid code:" ].

Definition svgBlob (svg : Markup) : Blob :=
  {| blobData := MarkupData svg; blobType := svgMime |}.

(** An event of a delivery in the vector format: nothing of the raster
    converter, and every blob handed over is the vector blob. *)
Definition vectorOnly (svg : Markup) (e : Event) : Prop :=
  isRasterEvent e = false /\
  forall blob, deliveredBlob e = Some blob -> blob = svgBlob svg.

(** The same for a whole export, whatever the engine returned. *)
Definition vectorExport (e : Event) : Prop :=
  isRasterEvent e = false /\
  forall blob,
    deliveredBlob e = Some blob ->
    blobType blob = svgMime /\ exists svg, blobData blob = MarkupData svg.

(** The trace after the vault save failed: a console warning and the
    user-visible notice. *)
Definition vaultWarned (failed : Trace) : Trace :=
  failed ++
  [ ConsoleWarn
      "Mermaid Exporter: Failed to save to vault, falling back to browser download:";
    vaultWarning ].

Definition exportStarted (trace : Trace) : Trace :=
  trace ++ [NoticeShown "Exporting Mermaid diagram..." 0].

Definition exportSucceeded (filename : string) (delivered : Trace) : Trace :=
  delivered ++
  [ NoticeHidden;
    successNotice filename;
    ConsoleLog "Mermaid Exporter: Successfully exported diagram:" ].

Definition exportFailed (error : Thrown) (trace : Trace) : Trace :=
  trace ++ [failureNotice error; ConsoleError "Mermaid Exporter: Export error:"].

(** The trace of the raster converter up to the encoded canvas. *)
Definition rasterEncoded (settings : MermaidExporterSettings) (svg : Markup)
  (format : string) (trace : Trace) : Trace :=
  trace ++
  [ ImageRequested svg;
    CanvasSized (fst (rasterSize settings svg)) (snd (rasterSize settings svg));
    ImageDrawn (fst (rasterSize settings svg)) (snd (rasterSize settings svg));
    CanvasEncoded (rasterMime format) (rasterQuality format) ].

Definition rasterBlob (format bytes : string) : Blob :=
  {| blobData := RasterData bytes; blobType := rasterMime format |}.

(** The host lets the raster converter through: the image loads, the
    canvas has a context and the canvas encodes to [bytes]. *)
Definition rasterPasses (host : Host) (settings : MermaidExporterSettings)
  (svg : Markup) (format bytes : string) (trace : Trace) : Prop :=
  let width := fst (rasterSize settings svg) in
  let height := snd (rasterSize settings svg) in
  imageLoads host (trace ++ [ImageRequested svg]) svg = true /\
  canvasContext host (trace ++ [ImageRequested svg; CanvasSized width height]) = true /\
  canvasToBlob host (rasterEncoded settings svg format trace) width height
    (rasterMime format) = Some bytes.

(** The viewport after the first step: the one the element had, or the
    one made of its width and height. *)
Definition viewBoxOr (current : option string) (w h : string) : string :=
  match current with
  | Some v => if truthy v then v else viewBoxFrom w h
  | None => viewBoxFrom w h
  end.

Definition sizedSvg : SvgElement :=
  {| attributes := {[ "width" := "640"; "height" := "480" ]}; innerMarkup := "<g/>" |}.

(** A dimension read from text, scaled by the quality factor and
    rounded. *)
Definition scaledDimension (settings : MermaidExporterSettings) (text : string)
  : JsNumber :=
  mathRound (times (parseFloat text) (getQualityMultiplier settings)).

Definition templateSettings (template format : string) : MermaidExporterSettings :=
  {| exportQuality := "high";
     defaultExportLocation := EmptyString;
     filenameFormat := template;
     exportFormat := format |}.

(** The number of export controls below a node. *)
Definition exportControls (n : Node) : nat :=
  List.length (querySelectorAll isExportButton n).


Definition sampleEdit : Node :=
  MkNode {| nodeId := 2; tagName := "div"; classList := ["edit-block-button"];
            nodeAttributes := {[ "aria-label" := "Edit this block" ]} |} [].

Definition sampleBar : Node :=
  MkNode (plainProps 1 "div") [MkNode (plainProps 3 "#text") []; sampleEdit].

Definition strictIds (n : Node) : list nat := flat_map nodeIds (kidsOf n).

(** What the loop over the controls keeps true of the current document
    [cur], compared with the document [pre] the pass started from. *)
Definition prunedFrom (pre cur : Document) : Prop :=
  wellFormed cur /\
  idOf (body cur) = idOf (body pre) /\
  (forall x, associationLive cur x = true -> associationLive pre x = true) /\
  (forall x, bodyContains cur x = true -> bodyContains pre x = true).

(** ** Sample inputs *)

Definition emptyText : ElementText :=
  {| textContent := EmptyString; innerText := EmptyString |}.

(** A diagram node inside a [pre] whose code child reads [code]. *)
Definition preContext (code : string) : ExtractContext :=
  {| isPreviewBlock := false;
     nestedCode := None;
     editorContainerCodes := None;
     dataCodeAttr := None;
     dataMermaidCodeAttr := None;
     dataSourceAttr := None;
     preCode := Some {| textContent := code; innerText := code |};
     isCodeElement := false;
     ownText := emptyText;
     svgContainer := None;
     editorApi := EditorAbsent;
     documentCodes := [] |}.

(** A diagram node with a tagged code element reading [code]. *)
Definition taggedContext (code : string) : ExtractContext :=
  {| isPreviewBlock := false;
     nestedCode := Some {| textContent := code; innerText := code |};
     editorContainerCodes := None;
     dataCodeAttr := None;
     dataMermaidCodeAttr := None;
     dataSourceAttr := None;
     preCode := None;
     isCodeElement := false;
     ownText := emptyText;
     svgContainer := None;
     editorApi := EditorAbsent;
     documentCodes := [] |}.

Definition sampleClock : Clock :=
  {| isoString := "2024-03-01T12:34:56.789Z";
     timeString := "12:34:56 GMT+0000 (Coordinated Universal Time)" |}.

Definition sampleSvg : SvgElement :=
  {| attributes := {[ "viewBox" := "0 0 400 300" ]}; innerMarkup := "<g/>" |}.

(** A host whose vault and browser can be made to fail. *)
Definition sampleHost (vaultWorks browserWorks : bool) : Host :=
  {| mermaidRender := fun _ _ => Returned (Some (Serialized sampleSvg));
     blobArrayBuffer := fun _ _ => Returned tt;
     adapterExists := fun _ _ => Returned true;
     createFolder := fun _ _ => Returned tt;
     createBinary := fun _ _ _ =>
       if vaultWorks then Returned tt else Threw (ErrorValue "write failed");
     browserDownload := fun _ _ _ =>
       if browserWorks then Returned tt else Threw (ErrorValue "download blocked");
     imageLoads := fun _ _ => true;
     canvasContext := fun _ => true;
     canvasToBlob := fun _ _ _ _ => Some "bytes" |}.

Definition sampleSettings (location format : string) : MermaidExporterSettings :=
  {| exportQuality := "maximum";
     defaultExportLocation := location;
     filenameFormat := "{noteName}-{date}";
     exportFormat := format |}.

Definition sampleOrphan : Node :=
  MkNode {| nodeId := 6; tagName := "button"; classList := ["mermaid-export-button"];
            nodeAttributes := ∅ |} [].

(** A document whose only export control has no diagram around it, and
    a registry holding a detached node (3) and a node of the body (5). *)
Definition sampleState : PluginState :=
  {| processedDiagrams := {[ 3%nat; 5%nat ]};
     document :=
       {| html := plainProps 0 "html";
          body := MkNode (plainProps 1 "body")
                    [MkNode (plainProps 5 "div") [sampleOrphan]] |} |}.


(** ** Further vocabulary *)

(** The sources the extractor reads without validating: the node's own
    tagged code element, a data attribute of a preview block, the
    node's own text, the code element of the rendered vector's
    container. *)
Definition unvalidatedSource (ctx : ExtractContext) (code : string) : Prop :=
  (exists el, nestedCode ctx = Some el /\ code = trim (codeOf el))
  \/ (isPreviewBlock ctx = true /\
      exists dataCode,
        attrOr (dataCodeAttr ctx)
          (attrOr (dataMermaidCodeAttr ctx) (dataSourceAttr ctx)) = Some dataCode /\
        code = trim dataCode)
  \/ (isCodeElement ctx = true /\ code = trim (codeOf (ownText ctx)))
  \/ (exists container el,
        svgContainer ctx = Some container /\
        containerCode container = Some el /\ code = trim (codeOf el)).

(** The trace of one run of the render orchestrator. *)
Definition renderTrace (code : string) (trace : Trace) : Trace :=
  trace ++ [StagingAttached; RenderInvoked code; StagingRemoved].

(** What the orchestrator logs for a caught value: the error, and its
    details when it is an [Error]. *)
Definition renderErrorLogged (error : Thrown) (trace : Trace) : Trace :=
  trace ++
  ConsoleError "Mermaid Exporter: Rendering error:"
  :: match error with
     | ErrorValue _ => [ConsoleError "Error details:"]
     | OtherValue => []
     end.

(** The value the orchestrator catches when the engine did not give
    markup that is not blank: the engine's own, or its own [Error]. *)
Definition renderFailure (engine : Outcome (option Markup)) : Thrown :=
  match engine with
  | Threw error => error
  | Returned _ => ErrorValue "Rendered SVG is empty"
  end.

(** The value of a run of the extractor, and its console message. *)
Definition extractedCode (ctx : ExtractContext) : option string :=
  orTry (strategies1to5 ctx)
    (orTry (match editorApi ctx with
            | EditorContent captures => firstValidCapture captures
            | EditorThrows | EditorAbsent => None
            end)
           (strategy7 ctx)).

Definition editorLog (ctx : ExtractContext) : list Event :=
  match strategies1to5 ctx, editorApi ctx with
  | None, EditorThrows => [ConsoleLog "Mermaid Exporter: Could not access editor API:"]
  | _, _ => []
  end.

(** The markup a run of the normalizer returns, and its console
    message. *)
Definition normalizedMarkup (settings : MermaidExporterSettings) (svgContent : Markup)
  : Markup :=
  if hasParserError svgContent then svgContent
  else serializeToString (normalizeElement settings (documentElement svgContent)).


(** The creation of a folder. *)
Definition folderEvent (e : Event) : Prop :=
  match e with
  | FolderCreated _ => True
  | _ => False
  end.

(** The folder paths [createParents] walks through: each segment joined
    to the path so far. *)
Fixpoint cumulativePaths (currentPath : string) (parts : list string) : list string :=
  match parts with
  | [] => []
  | part :: rest =>
      let currentPath' :=
        if truthy currentPath then (currentPath ++ "/" ++ part)%string else part in
      currentPath' :: cumulativePaths currentPath' rest
  end.

(** The paths of [paths] that the vault does not have. *)
Definition missingFolders (present : string -> bool) (paths : list string)
  : list string :=
  List.filter (fun path => negb (present path)) paths.

(** A vault that makes folders one level at a time, seen from the run
    of [saveToVault] that starts at [trace]: the folder [dirPath] is not
    there and [createFolder] fails on it; when the loop reaches a path
    of [segments], the vault tells whether it has that path, as
    [present] says, and creates it if it has not. *)
Definition levelwiseVault (host : Host) (present : string -> bool)
  (dirPath : string) (segments : list string) (trace : Trace) : Prop :=
  adapterExists host trace dirPath = Returned false /\
  (exists error, createFolder host trace dirPath = Threw error) /\
  (forall k path,
     nth_error segments k = Some path ->
     let reached :=
       trace ++ List.map FolderCreated (missingFolders present (firstn k segments)) in
     adapterExists host reached path = Returned (present path) /\
     (present path = false -> createFolder host reached path = Returned tt)).

(** The notices that report how an export ended. *)
Definition outcomeNotice (e : Event) : Prop :=
  e = extractionNotice \/ e = validationNotice \/ e = renderNotice
  \/ (exists filename, e = successNotice filename)
  \/ (exists error, e = failureNotice error).

(** A computation that reports one outcome: when it returns it has
    appended exactly one outcome notice, and when it throws it has
    appended none. *)
Definition oneOutcome (m : M unit) : Prop :=
  forall trace,
    exists before,
      Forall (fun e => ~ outcomeNotice e) before /\
      match m trace with
      | (Returned _, final) =>
          exists outcome after,
            final = trace ++ before ++ outcome :: after /\
            outcomeNotice outcome /\
            Forall (fun e => ~ outcomeNotice e) after
      | (Threw _, final) => final = trace ++ before
      end.

(** A vault without folders that accepts every creation and write. *)
Definition emptyVaultHost : Host :=
  {| mermaidRender := fun _ _ => Returned (Some (Serialized sampleSvg));
     blobArrayBuffer := fun _ _ => Returned tt;
     adapterExists := fun _ _ => Returned false;
     createFolder := fun _ _ => Returned tt;
     createBinary := fun _ _ _ => Returned tt;
     browserDownload := fun _ _ _ => Returned tt;
     imageLoads := fun _ _ => true;
     canvasContext := fun _ => true;
     canvasToBlob := fun _ _ _ _ => Some "bytes" |}.

(** ** Unloading (main.ts, onunload)

    Every export control is removed from the document and the registry
    is cleared; the observer is outside the model. *)
Definition onunload (st : PluginState) : PluginState :=
  let buttons :=
    List.map idOf (querySelectorAll isExportButton (body (document st))) in
  {| processedDiagrams := ∅;
     document := fold_left removeFromBody buttons (document st) |}.


Definition sampleLiveButton : Node :=
  MkNode {| nodeId := 4; tagName := "button"; classList := ["mermaid-export-button"];
            nodeAttributes := ∅ |} [].

(** A document whose export control sits beside its diagram source. *)
Definition sampleLiveState : PluginState :=
  {| processedDiagrams := {[ 3%nat ]};
     document :=
       {| html := plainProps 0 "html";
          body := MkNode (plainProps 1 "body")
                    [MkNode (plainProps 2 "pre")
                       [MkNode {| nodeId := 3; tagName := "code";
                                  classList := ["language-mermaid"];
                                  nodeAttributes := ∅ |} [];
                        sampleLiveButton]] |} |}.

(** [s] has no character [c]. *)
Fixpoint freeOf (c : ascii) (s : string) : bool :=
  match s with
  | EmptyString => true
  | String d r => negb (Ascii.eqb d c) && freeOf c r
  end.

(** A note name or a clock text that means itself as a replacement
    pattern and holds no placeholder. *)
Definition plainText (s : string) : Prop :=
  freeOf "$" s = true /\ freeOf "{" s = true.

(** A host whose images never load. *)
Definition imagelessHost : Host :=
  {| mermaidRender := mermaidRender emptyVaultHost;
     blobArrayBuffer := blobArrayBuffer emptyVaultHost;
     adapterExists := adapterExists emptyVaultHost;
     createFolder := createFolder emptyVaultHost;
     createBinary := createBinary emptyVaultHost;
     browserDownload := browserDownload emptyVaultHost;
     imageLoads := fun _ _ => false;
     canvasContext := canvasContext emptyVaultHost;
     canvasToBlob := canvasToBlob emptyVaultHost |}.

(** Settings at a quality tier. *)
Definition sampleSettingsAt (quality : string) : MermaidExporterSettings :=
  {| exportQuality := quality;
     defaultExportLocation := EmptyString;
     filenameFormat := EmptyString;
     exportFormat := "png" |}.

(** [x] is a node with the identity [b] strictly below [n], or lies
    below such a node. *)
Fixpoint insideOf (b : nat) (n : Node) (x : nat) : bool :=
  match n with
  | MkNode _ kids =>
      existsb (fun c => ((idOf c =? b)%nat && contains c x) || insideOf b c x) kids
  end.

(** [x] is an export control of the body or lies inside one. *)
Definition insideControl (d : Document) (x : nat) : bool :=
  existsb (fun button => insideOf (idOf button) (body d) x)
    (querySelectorAll isExportButton (body d)).

(** The document of [sampleState] with its export control registered. *)
Definition sampleControlRegistered : PluginState :=
  {| processedDiagrams := {[ 6%nat ]}; document := document sampleState |}.




(** [path] was created in [trace]. *)
Definition folderCreated (trace : Trace) (path : string) : bool :=
  existsb (fun e => match e with
                    | FolderCreated created => String.eqb created path
                    | _ => false
                    end) trace.

(** The folder above [path]: its segments but the last, joined again. *)
Definition parentFolder (path : string) : string :=
  fold_left (fun joined part =>
               if truthy joined then (joined ++ "/" ++ part)%string else part)
    (removelast (List.filter truthy (splitOn "/" path))) EmptyString.

(** An empty vault that keeps the folders created in it and creates a
    folder only at the top or below a folder it has. *)
Definition levelwiseHost : Host :=
  {| mermaidRender := mermaidRender emptyVaultHost;
     blobArrayBuffer := blobArrayBuffer emptyVaultHost;
     adapterExists := fun trace path => Returned (folderCreated trace path);
     createFolder := fun trace path =>
       if negb (truthy (parentFolder path)) || folderCreated trace (parentFolder path)
       then Returned tt
       else Threw (ErrorValue "Parent folder does not exist");
     createBinary := createBinary emptyVaultHost;
     browserDownload := browserDownload emptyVaultHost;
     imageLoads := imageLoads emptyVaultHost;
     canvasContext := canvasContext emptyVaultHost;
     canvasToBlob := canvasToBlob emptyVaultHost |}.

(** * Part II: the proofs *)

(** ** Facts about the string primitives *)

Section StringFacts.

Lemma truthy_true_iff (s : string) : truthy s = true <-> s <> EmptyString.
Proof. destruct s; simpl; split; congruence. Qed.

Lemma length_zero_iff (s : string) :
  (String.length s =? 0)%nat = true <-> s = EmptyString.
Proof. destruct s; simpl; split; congruence. Qed.

Lemma startsWith_refl (s : string) : startsWith s s = true.
Proof. induction s as [|c s IH]; simpl; [reflexivity|]. now rewrite Ascii.eqb_refl. Qed.

Lemma startsWith_app (p s : string) : startsWith p (p ++ s) = true.
Proof. induction p as [|c p IH]; simpl; [reflexivity|]. now rewrite Ascii.eqb_refl. Qed.

Lemma startsWith_cons (a b : ascii) (p s : string) :
  startsWith (String a p) (String b s) = true <-> a = b /\ startsWith p s = true.
Proof.
  simpl. rewrite andb_true_iff. now rewrite Ascii.eqb_eq.
Qed.

Lemma includes_cons (k : string) (c : ascii) (s : string) :
  includes k (String c s) = startsWith k (String c s) || includes k s.
Proof. reflexivity. Qed.

Lemma includes_empty (k : string) : includes k EmptyString = startsWith k EmptyString.
Proof. simpl. now rewrite orb_false_r. Qed.

(** [includes] says that the text is some prefix, then [k], then a rest. *)
Lemma startsWith_split (p s : string) :
  startsWith p s = true <-> exists rest, s = (p ++ rest)%string.
Proof.
  revert s. induction p as [|a p IH]; intros s.
  - simpl. split; [intros _; now exists s | reflexivity].
  - destruct s as [|b s].
    + simpl. split; [discriminate | intros [rest H]; discriminate].
    + rewrite startsWith_cons, IH. split.
      * intros [-> [rest ->]]. now exists rest.
      * intros [rest H]. simpl in H. injection H as -> ->. split; [reflexivity | now exists rest].
Qed.

Lemma includes_split (k s : string) :
  includes k s = true <-> exists before after, s = (before ++ k ++ after)%string.
Proof.
  induction s as [|c s IH].
  - rewrite includes_empty, startsWith_split. split.
    + intros [rest H]. now exists EmptyString, rest.
    + intros [before [after H]]. destruct before; simpl in H; [now exists after | discriminate].
  - rewrite includes_cons, orb_true_iff, startsWith_split, IH. split.
    + intros [[rest H] | [before [after H]]].
      * now exists EmptyString, rest.
      * exists (String c before), after. simpl. now rewrite H.
    + intros [before [after H]]. destruct before as [|b before]; simpl in H.
      * left. now exists after.
      * right. injection H as -> ->. now exists before, after.
Qed.

Lemma toLowerCase_app (a b : string) :
  toLowerCase (a ++ b) = (toLowerCase a ++ toLowerCase b)%string.
Proof. induction a as [|c a IH]; simpl; [reflexivity | now rewrite IH]. Qed.

Lemma includes_toLowerCase (k s : string) :
  includes k s = true -> includes (toLowerCase k) (toLowerCase s) = true.
Proof.
  rewrite !includes_split. intros [before [after ->]].
  exists (toLowerCase before), (toLowerCase after).
  now rewrite !toLowerCase_app.
Qed.

(** Lower-casing neither creates nor removes white space. *)
Lemma isWhiteSpace_lowerChar (c : ascii) : isWhiteSpace (lowerChar c) = isWhiteSpace c.
Proof.
  destruct c as [[] [] [] [] [] [] [] []]; vm_compute; reflexivity.
Qed.

Lemma toLowerCase_empty_iff (s : string) :
  toLowerCase s = EmptyString <-> s = EmptyString.
Proof. destruct s; simpl; split; congruence. Qed.

Lemma dropStart_toLowerCase (s : string) :
  dropStart isWhiteSpace (toLowerCase s) = toLowerCase (dropStart isWhiteSpace s).
Proof.
  induction s as [|c s IH]; simpl; [reflexivity|].
  rewrite isWhiteSpace_lowerChar. now destruct (isWhiteSpace c).
Qed.

Lemma dropEnd_toLowerCase (s : string) :
  dropEnd isWhiteSpace (toLowerCase s) = toLowerCase (dropEnd isWhiteSpace s).
Proof.
  induction s as [|c s IH]; simpl; [reflexivity|].
  rewrite IH, isWhiteSpace_lowerChar.
  destruct (dropEnd isWhiteSpace s); simpl; [now destruct (isWhiteSpace c) | reflexivity].
Qed.

Lemma trim_toLowerCase (s : string) : toLowerCase (trim s) = trim (toLowerCase s).
Proof.
  unfold trim, trimEnd, trimStart.
  now rewrite dropStart_toLowerCase, dropEnd_toLowerCase.
Qed.

Variable P : ascii -> bool.

Lemma dropStart_headOutside (s : string) : headOutside P (dropStart P s).
Proof.
  induction s as [|c s IH]; simpl; [exact I|].
  destruct (P c) eqn:E; [exact IH | exact E].
Qed.

Lemma dropStart_fixed (s : string) : headOutside P s -> dropStart P s = s.
Proof. destruct s as [|c s]; simpl; [reflexivity | now intros ->]. Qed.

Lemma dropEnd_headOutside (s : string) : headOutside P s -> headOutside P (dropEnd P s).
Proof.
  destruct s as [|c s]; simpl; [trivial|]. intros H.
  destruct (dropEnd P s); [rewrite H|]; exact H.
Qed.

Lemma dropEnd_idempotent (s : string) : dropEnd P (dropEnd P s) = dropEnd P s.
Proof.
  induction s as [|c s IH]; simpl; [reflexivity|].
  destruct (dropEnd P s) as [|d r] eqn:E.
  - destruct (P c) eqn:Ec; simpl; [reflexivity | now rewrite Ec].
  - change (dropEnd P (String c (String d r)) = String c (String d r)).
    simpl. simpl in IH. rewrite IH. reflexivity.
Qed.

Lemma strip_idempotent (s : string) :
  dropEnd P (dropStart P (dropEnd P (dropStart P s))) = dropEnd P (dropStart P s).
Proof.
  rewrite (dropStart_fixed (dropEnd P (dropStart P s))).
  - apply dropEnd_idempotent.
  - apply dropEnd_headOutside, dropStart_headOutside.
Qed.

Lemma startsWith_dropEnd (k s : string) :
  lastOutside P k -> startsWith k s = true -> startsWith k (dropEnd P s) = true.
Proof.
  revert s. induction k as [|a k IH]; intros s Hk H; [destruct Hk|].
  destruct s as [|b s]; [discriminate|].
  apply startsWith_cons in H as [-> H]. simpl.
  destruct k as [|a' k].
  - simpl in Hk. destruct (dropEnd P s); [rewrite Hk|]; simpl; now rewrite Ascii.eqb_refl.
  - specialize (IH s Hk H). destruct (dropEnd P s) as [|d r]; [discriminate|].
    simpl. rewrite Ascii.eqb_refl. exact IH.
Qed.

Lemma includes_dropEnd (k s : string) :
  lastOutside P k -> includes k s = true -> includes k (dropEnd P s) = true.
Proof.
  intros Hk. induction s as [|c s IH]; intros H.
  - rewrite includes_empty in H. destruct k; [destruct Hk | discriminate].
  - rewrite includes_cons in H. apply orb_true_iff in H as [H | H].
    + apply (startsWith_dropEnd _ _ Hk) in H.
      destruct (dropEnd P (String c s)); simpl in *; now rewrite H.
    + specialize (IH H). simpl.
      destruct (dropEnd P s) as [|d r] eqn:E.
      * rewrite includes_empty in IH. destruct k; [destruct Hk | discriminate].
      * rewrite includes_cons, IH. apply orb_true_r.
Qed.

Lemma includes_dropStart (k s : string) :
  firmEnds P k -> includes k s = true -> includes k (dropStart P s) = true.
Proof.
  intros Hk. induction s as [|c s IH]; intros H; [exact H|].
  simpl. destruct (P c) eqn:Ec; [|exact H].
  apply IH. rewrite includes_cons in H. apply orb_true_iff in H as [H | H]; [|exact H].
  destruct k as [|a k]; [destruct Hk|]. destruct Hk as [Ha _].
  apply startsWith_cons in H as [-> _]. congruence.
Qed.

Lemma includes_strip (k s : string) :
  firmEnds P k -> includes k s = true -> includes k (dropEnd P (dropStart P s)) = true.
Proof.
  intros Hk H. apply includes_dropEnd.
  - destruct k; [destruct Hk | apply Hk].
  - now apply includes_dropStart.
Qed.

End StringFacts.

Lemma trim_idempotent (s : string) : trim (trim s) = trim s.
Proof. apply strip_idempotent. Qed.

Lemma trim_empty : trim EmptyString = EmptyString.
Proof. reflexivity. Qed.

(** ** The validator *)

Lemma no_keyword_in_empty :
  existsb (fun keyword => includes keyword EmptyString) mermaidKeywords = false.
Proof. reflexivity. Qed.

Lemma validateMermaidCode_iff (code : string) :
  validateMermaidCode code = true <->
  exists keyword,
    In keyword mermaidKeywords /\ includes keyword (toLowerCase (trim code)) = true.
Proof.
  unfold validateMermaidCode.
  destruct (negb (truthy code) || (String.length (trim code) =? 0)%nat) eqn:Hblank.
  - assert (Hempty : trim code = EmptyString).
    { apply orb_true_iff in Hblank as [H | H].
      - destruct code; [reflexivity | discriminate].
      - now apply length_zero_iff. }
    rewrite Hempty. simpl toLowerCase. split; [discriminate|].
    intros [keyword [Hin Hinc]].
    assert (Hex : existsb (fun k => includes k EmptyString) mermaidKeywords = true).
    { apply existsb_exists. now exists keyword. }
    rewrite no_keyword_in_empty in Hex. discriminate.
  - cbv zeta. apply existsb_exists.
Qed.

(** C1.  The validator trims and lower-cases its input (in either
    order) and accepts it exactly when the result contains one of the
    keywords of [mermaidKeywords]; it accepts [flowchart TD / A-->B] and
    rejects [just some prose] and the empty text. *)
Theorem validator_accepts_iff_keyword :
  (forall code,
     validateMermaidCode code = true <->
     exists keyword,
       In keyword mermaidKeywords /\
       includes keyword (toLowerCase (trim code)) = true)
  /\ (forall code, toLowerCase (trim code) = trim (toLowerCase code))
  /\ validateMermaidCode ("flowchart TD" ++ lf ++ "A-->B") = true
  /\ validateMermaidCode "just some prose" = false
  /\ validateMermaidCode EmptyString = false.
Proof.
  split; [exact validateMermaidCode_iff|].
  split; [exact trim_toLowerCase|].
  repeat split; reflexivity.
Qed.

(** ** Strategy 3 of the extractor *)

Lemma in_of_existsb (x : string) (l : list string) :
  existsb (String.eqb x) l = true -> In x l.
Proof.
  intros H. apply existsb_exists in H as [y [Hin Heq]].
  apply String.eqb_eq in Heq. now subst.
Qed.

(** Every keyword of strategy 3 begins and ends outside white space, and
    its lower-case form is a keyword of the validator. *)
Lemma preKeywords_firm :
  Forall (fun keyword =>
            firmEnds isWhiteSpace keyword /\ In (toLowerCase keyword) mermaidKeywords)
         preKeywords.
Proof.
  unfold preKeywords.
  repeat (constructor;
          [split; [split; vm_compute; reflexivity
                  | apply in_of_existsb; vm_compute; reflexivity]|]).
  constructor.
Qed.

Lemma acceptsPreCode_keyword (code : string) :
  acceptsPreCode code = true ->
  exists keyword, In keyword preKeywords /\ includes keyword code = true.
Proof.
  unfold acceptsPreCode. intros H. apply andb_true_iff in H as [_ H].
  now apply existsb_exists in H.
Qed.

Lemma acceptsPreCode_lower_keyword (code : string) :
  acceptsPreCode code = true ->
  exists keyword,
    In keyword mermaidKeywords /\
    includes keyword (toLowerCase (trim code)) = true.
Proof.
  intros H. apply acceptsPreCode_keyword in H as [keyword [Hin Hinc]].
  pose proof preKeywords_firm as Hall. rewrite List.Forall_forall in Hall.
  destruct (Hall keyword Hin) as [Hfirm Hlower].
  exists (toLowerCase keyword). split; [exact Hlower|].
  apply includes_toLowerCase. unfold trim, trimEnd, trimStart.
  now apply includes_strip.
Qed.

Lemma acceptsPreCode_valid (code : string) :
  acceptsPreCode code = true -> validateMermaidCode code = true.
Proof.
  intros H. apply validateMermaidCode_iff. now apply acceptsPreCode_lower_keyword.
Qed.

Lemma validateMermaidCode_trim (code : string) :
  validateMermaidCode (trim code) = validateMermaidCode code.
Proof.
  apply eq_true_iff_eq. rewrite !validateMermaidCode_iff. now rewrite trim_idempotent.
Qed.

Lemma append_cons (c : ascii) (a b : string) :
  (String c a ++ b)%string = String c (a ++ b).
Proof. reflexivity. Qed.

Lemma append_empty_l (b : string) : (EmptyString ++ b)%string = b.
Proof. reflexivity. Qed.

Lemma append_assoc (a b c : string) :
  ((a ++ b) ++ c)%string = (a ++ (b ++ c))%string.
Proof.
  induction a as [|x a IH]; [reflexivity|].
  rewrite !append_cons. now rewrite IH.
Qed.

Lemma dropStart_suffix (P : ascii -> bool) (s : string) :
  exists a, s = (a ++ dropStart P s)%string.
Proof.
  induction s as [|c s [a IH]].
  - now exists EmptyString.
  - cbn [dropStart]. destruct (P c).
    + exists (String c a). rewrite append_cons. congruence.
    + now exists EmptyString.
Qed.

Lemma dropEnd_prefix (P : ascii -> bool) (s : string) :
  exists b, s = (dropEnd P s ++ b)%string.
Proof.
  induction s as [|c s [b IH]].
  - now exists EmptyString.
  - cbn [dropEnd]. destruct (dropEnd P s) as [|d r] eqn:E.
    + rewrite append_empty_l in IH. destruct (P c).
      * now exists (String c s).
      * exists b. rewrite append_cons, append_empty_l. congruence.
    + exists b. rewrite append_cons. congruence.
Qed.

Lemma includes_trim_lower (keyword code : string) :
  includes keyword (toLowerCase (trim code)) = true ->
  includes keyword (toLowerCase code) = true.
Proof.
  unfold trim, trimEnd, trimStart. rewrite !includes_split.
  intros [before [after H]].
  destruct (dropStart_suffix isWhiteSpace code) as [a Ha].
  destruct (dropEnd_prefix isWhiteSpace (dropStart isWhiteSpace code)) as [b Hb].
  exists (toLowerCase a ++ before)%string, (after ++ toLowerCase b)%string.
  rewrite Ha at 1. rewrite Hb at 1.
  rewrite !toLowerCase_app, H.
  now rewrite !append_assoc.
Qed.

Lemma strategy3_some (ctx : ExtractContext) (code : string) :
  strategy3 ctx = Some code ->
  exists el,
    preCode ctx = Some el /\ acceptsPreCode (codeOf el) = true /\
    code = trim (codeOf el).
Proof.
  unfold strategy3. destruct (preCode ctx) as [el|]; [|discriminate].
  destruct (acceptsPreCode (codeOf el)) eqn:Hacc; [|discriminate].
  intros [= <-]. now exists el.
Qed.

(** C9.  Strategy 3 accepts a candidate text only if it contains a
    recognized diagram keyword.  The text holds one of the keywords
    strategy 3 looks for, each of which is a keyword of the validator's
    vocabulary up to letter case; read as the validator reads its
    vocabulary, on the lower-cased text, the text holds a keyword of
    that vocabulary, and it and the returned text pass the validator. *)
Theorem strategy3_accepts_only_keyworded (ctx : ExtractContext) (code : string) :
  strategy3 ctx = Some code ->
  exists el,
    preCode ctx = Some el /\ code = trim (codeOf el) /\
    (exists keyword, In keyword preKeywords /\ includes keyword (codeOf el) = true) /\
    (exists keyword,
       In keyword mermaidKeywords /\
       includes keyword (toLowerCase (codeOf el)) = true) /\
    validateMermaidCode (codeOf el) = true /\
    validateMermaidCode code = true.
Proof.
  intros H. apply strategy3_some in H as [el [Hpre [Hacc ->]]].
  exists el. split; [exact Hpre|]. split; [reflexivity|].
  split; [now apply acceptsPreCode_keyword|].
  split.
  - destruct (acceptsPreCode_lower_keyword _ Hacc) as [keyword [Hin Hinc]].
    exists keyword. split; [exact Hin | now apply includes_trim_lower].
  - split; [now apply acceptsPreCode_valid|].
    rewrite validateMermaidCode_trim. now apply acceptsPreCode_valid.
Qed.

Lemma strategy3_accepts_only_keyworded_witness :
  exists el,
    preCode (preContext "sequenceDiagram") = Some el /\
    "sequenceDiagram" = trim (codeOf el) /\
    (exists keyword, In keyword preKeywords /\ includes keyword (codeOf el) = true) /\
    (exists keyword,
       In keyword mermaidKeywords /\
       includes keyword (toLowerCase (codeOf el)) = true) /\
    validateMermaidCode (codeOf el) = true /\
    validateMermaidCode "sequenceDiagram" = true.
Proof.
  apply (strategy3_accepts_only_keyworded (preContext "sequenceDiagram")).
  reflexivity.
Defined.

(** ** The extractor never returns an empty text *)

Lemma nonBlank_truthy (code c : string) : nonBlank code = Some c -> truthy c = true.
Proof.
  unfold nonBlank.
  destruct (truthy code && (0 <? String.length (trim code))%nat) eqn:H; [|discriminate].
  intros [= <-]. apply andb_true_iff in H as [_ H].
  destruct (trim code); [discriminate | reflexivity].
Qed.

Lemma nonBlankValid_truthy (code c : string) :
  nonBlankValid code = Some c -> truthy c = true /\ validateMermaidCode c = true.
Proof.
  unfold nonBlankValid.
  destruct (truthy code && (0 <? String.length (trim code))%nat
            && validateMermaidCode (trim code)) eqn:H; [|discriminate].
  intros [= <-]. apply andb_true_iff in H as [H Hv]. apply andb_true_iff in H as [_ H].
  split; [|exact Hv]. destruct (trim code); [discriminate | reflexivity].
Qed.

Lemma firstValid_truthy (codes : list ElementText) (c : string) :
  firstValid codes = Some c -> truthy c = true.
Proof.
  induction codes as [|el rest IH]; simpl; [discriminate|].
  destruct (nonBlankValid (codeOf el)) eqn:H; [|exact IH].
  intros [= <-]. now apply nonBlankValid_truthy in H.
Qed.

Lemma firstValidCapture_truthy (captures : list string) (c : string) :
  firstValidCapture captures = Some c -> truthy c = true.
Proof.
  induction captures as [|capture rest IH]; simpl; [discriminate|].
  destruct (truthy (trim capture) && validateMermaidCode (trim capture)) eqn:H; [|exact IH].
  intros [= <-]. now apply andb_true_iff in H.
Qed.

Lemma strategy7From_truthy (codes : list (ElementText * bool)) (c : string) :
  strategy7From codes = Some c -> truthy c = true.
Proof.
  induction codes as [|[el near] rest IH]; simpl; [discriminate|].
  destruct (nonBlankValid (codeOf el)) eqn:H; [|exact IH].
  destruct near; [|exact IH].
  intros [= <-]. now apply nonBlankValid_truthy in H.
Qed.

Lemma strategy3_truthy (ctx : ExtractContext) (c : string) :
  strategy3 ctx = Some c -> truthy c = true.
Proof.
  intros H. apply strategy3_some in H as [el [_ [Hacc ->]]].
  apply acceptsPreCode_lower_keyword in Hacc as [keyword [Hin Hinc]].
  destruct (trim (codeOf el)) eqn:E; [|reflexivity].
  assert (Hex : existsb (fun k => includes k EmptyString) mermaidKeywords = true).
  { apply existsb_exists. now exists keyword. }
  rewrite no_keyword_in_empty in Hex. discriminate.
Qed.

Lemma orTry_some {A : Type} (a b : option A) (x : A) :
  orTry a b = Some x -> a = Some x \/ b = Some x.
Proof. destruct a; simpl; auto. Qed.

Lemma nonBlank_trim (code c : string) : nonBlank code = Some c -> c = trim code.
Proof.
  unfold nonBlank. destruct (truthy code && _); [|discriminate]. now intros [= <-].
Qed.

Lemma nonBlankValid_trim (code c : string) :
  nonBlankValid code = Some c -> c = trim code.
Proof.
  unfold nonBlankValid. destruct (truthy code && _ && _); [|discriminate].
  now intros [= <-].
Qed.

Lemma firstValid_valid (codes : list ElementText) (c : string) :
  firstValid codes = Some c ->
  validateMermaidCode c = true /\ exists raw, c = trim raw.
Proof.
  induction codes as [|el rest IH]; simpl; [discriminate|].
  destruct (nonBlankValid (codeOf el)) eqn:H; [|exact IH].
  intros [= <-]. split; [now apply nonBlankValid_truthy in H|].
  exists (codeOf el). now apply nonBlankValid_trim.
Qed.

Lemma firstValidCapture_valid (captures : list string) (c : string) :
  firstValidCapture captures = Some c ->
  validateMermaidCode c = true /\ exists raw, c = trim raw.
Proof.
  induction captures as [|capture rest IH]; simpl; [discriminate|].
  destruct (truthy (trim capture) && validateMermaidCode (trim capture)) eqn:H;
    [|exact IH].
  intros [= <-]. apply andb_true_iff in H as [_ H]. split; [exact H | now exists capture].
Qed.

Lemma strategy7From_valid (codes : list (ElementText * bool)) (c : string) :
  strategy7From codes = Some c ->
  validateMermaidCode c = true /\ exists raw, c = trim raw.
Proof.
  induction codes as [|[el near] rest IH]; simpl; [discriminate|].
  destruct (nonBlankValid (codeOf el)) eqn:H; [|exact IH].
  destruct near; [|exact IH].
  intros [= <-]. split; [now apply nonBlankValid_truthy in H|].
  exists (codeOf el). now apply nonBlankValid_trim.
Qed.

(** Where a text that the validator rejects can come from. *)
Lemma strategies1to5_source (ctx : ExtractContext) (code : string) :
  strategies1to5 ctx = Some code ->
  (validateMermaidCode code = true /\ exists raw, code = trim raw)
  \/ unvalidatedSource ctx code.
Proof.
  unfold strategies1to5, unvalidatedSource. intros H.
  repeat (apply orTry_some in H as [H | H]).
  - unfold strategy1 in H. destruct (isPreviewBlock ctx) eqn:Hp; [|discriminate].
    repeat (apply orTry_some in H as [H | H]).
    + destruct (nestedCode ctx) as [el|]; [|discriminate].
      right. left. exists el. split; [reflexivity | now apply nonBlank_trim].
    + destruct (editorContainerCodes ctx); [|discriminate].
      left. exact (firstValid_valid _ _ H).
    + destruct (attrOr _ _) as [dataCode|] eqn:Hd; [|discriminate].
      right. right. left. split; [reflexivity|].
      exists dataCode. split; [reflexivity | now apply nonBlank_trim].
  - unfold strategy2 in H. destruct (nestedCode ctx) as [el|]; [|discriminate].
    right. left. exists el. split; [reflexivity | now apply nonBlank_trim].
  - left. apply strategy3_some in H as [el [_ [Hacc ->]]].
    split; [|now exists (codeOf el)].
    rewrite validateMermaidCode_trim. now apply acceptsPreCode_valid.
  - unfold strategy4 in H. destruct (isCodeElement ctx) eqn:Hc; [|discriminate].
    right. right. right. left. split; [reflexivity | now apply nonBlank_trim].
  - unfold strategy5 in H. destruct (svgContainer ctx) as [container|]; [|discriminate].
    apply orTry_some in H as [H | H].
    + destruct (containerCode container) as [el|] eqn:Hel; [|discriminate].
      right. right. right. right. exists container, el.
      repeat split; [exact Hel | now apply nonBlank_trim].
    + destruct (editorViewCodes container); [|discriminate].
      left. exact (firstValid_valid _ _ H).
Qed.

Lemma extractedCode_source (ctx : ExtractContext) (code : string) :
  extractedCode ctx = Some code ->
  (validateMermaidCode code = true /\ exists raw, code = trim raw)
  \/ (strategies1to5 ctx = Some code /\ unvalidatedSource ctx code).
Proof.
  unfold extractedCode. intros H.
  apply orTry_some in H as [H | H].
  - destruct (strategies1to5_source _ _ H); [now left | now right].
  - left. apply orTry_some in H as [H | H].
    + destruct (editorApi ctx); try discriminate.
      exact (firstValidCapture_valid _ _ H).
    + exact (strategy7From_valid _ _ H).
Qed.

Lemma extractedCode_truthy (ctx : ExtractContext) (c : string) :
  extractedCode ctx = Some c -> truthy c = true.
Proof.
  unfold extractedCode, strategies1to5. intros H.
  repeat (apply orTry_some in H as [H | H]).
  - unfold strategy1 in H. destruct (isPreviewBlock ctx); [|discriminate].
    repeat (apply orTry_some in H as [H | H]).
    + destruct (nestedCode ctx); [now apply nonBlank_truthy in H | discriminate].
    + destruct (editorContainerCodes ctx); [now apply firstValid_truthy in H | discriminate].
    + destruct (attrOr _ _); [now apply nonBlank_truthy in H | discriminate].
  - unfold strategy2 in H.
    destruct (nestedCode ctx); [now apply nonBlank_truthy in H | discriminate].
  - now apply strategy3_truthy in H.
  - unfold strategy4 in H.
    destruct (isCodeElement ctx); [now apply nonBlank_truthy in H | discriminate].
  - unfold strategy5 in H. destruct (svgContainer ctx) as [container|]; [|discriminate].
    apply orTry_some in H as [H | H].
    + destruct (containerCode container); [now apply nonBlank_truthy in H | discriminate].
    + destruct (editorViewCodes container); [now apply firstValid_truthy in H | discriminate].
  - destruct (editorApi ctx); try discriminate. now apply firstValidCapture_truthy in H.
  - now apply strategy7From_truthy in H.
Qed.

(** A run of the extractor: its value, and its console message when the
    editor API failed. *)
Lemma extractMermaidCode_run (ctx : ExtractContext) (trace : Trace) :
  extractMermaidCode ctx trace = (Returned (extractedCode ctx), trace ++ editorLog ctx).
Proof.
  unfold extractMermaidCode, extractedCode, editorLog.
  destruct (strategies1to5 ctx) as [code|]; cbn [orTry].
  - cbv [ret]. now rewrite app_nil_r.
  - unfold strategy6. cbv beta iota delta [bind tryCatch throw ret emit].
    destruct (editorApi ctx) as [| |captures].
    + destruct (strategy7 ctx); reflexivity.
    + rewrite app_nil_r. destruct (strategy7 ctx); reflexivity.
    + rewrite app_nil_r. destruct (firstValidCapture captures); cbn [orTry];
        [reflexivity | destruct (strategy7 ctx); reflexivity].
Qed.

Lemma extractMermaidCode_value (ctx : ExtractContext) (trace : Trace)
  (found : option string) :
  fst (extractMermaidCode ctx trace) = Returned found <-> extractedCode ctx = found.
Proof.
  rewrite extractMermaidCode_run. cbn [fst]. split; [now intros [= ->] | now intros ->].
Qed.

(** A text the validator rejects was found without a console message. *)
Lemma extractMermaidCode_rejected (ctx : ExtractContext) (trace : Trace) (code : string) :
  fst (extractMermaidCode ctx trace) = Returned (Some code) ->
  validateMermaidCode code = false ->
  extractMermaidCode ctx trace = (Returned (Some code), trace).
Proof.
  intros H Hinvalid. apply extractMermaidCode_value in H.
  rewrite extractMermaidCode_run, H.
  apply extractedCode_source in H as [[Hvalid _] | [H _]]; [congruence|].
  unfold editorLog. rewrite H. now rewrite app_nil_r.
Qed.

(** ** Reasoning about traces *)

Section TraceFacts.

Context {A : Type}.

Lemma emitsOnly_weaken (Q Q' : Event -> Prop) (m : M A) :
  (forall e, Q e -> Q' e) -> emitsOnly Q m -> emitsOnly Q' m.
Proof.
  intros Himp H trace. destruct (H trace) as [added [Heq Hall]].
  exists added. split; [exact Heq|]. eapply Forall_impl; eauto.
Qed.

Lemma emitsOnly_ret (Q : Event -> Prop) (a : A) : emitsOnly Q (ret a).
Proof. intros trace. exists []. simpl. now rewrite app_nil_r. Qed.

Lemma emitsOnly_throw (Q : Event -> Prop) (error : Thrown) :
  emitsOnly Q (throw (A := A) error).
Proof. intros trace. exists []. simpl. now rewrite app_nil_r. Qed.

Lemma emitsOnly_call (Q : Event -> Prop) (service : Trace -> Outcome A) :
  emitsOnly Q (call service).
Proof. intros trace. exists []. simpl. now rewrite app_nil_r. Qed.

Lemma emitsOnly_ask (Q : Event -> Prop) (service : Trace -> A) :
  emitsOnly Q (ask service).
Proof. intros trace. exists []. simpl. now rewrite app_nil_r. Qed.

Lemma emitsOnly_tryCatch (Q : Event -> Prop) (m : M A) (handler : Thrown -> M A) :
  emitsOnly Q m -> (forall error, emitsOnly Q (handler error)) ->
  emitsOnly Q (tryCatch m handler).
Proof.
  intros Hm Hh trace. unfold tryCatch.
  destruct (Hm trace) as [added [Heq Hall]].
  destruct (m trace) as [[a | error] trace']; simpl in Heq; subst trace'.
  - now exists added.
  - destruct (Hh error (trace ++ added)) as [added' [Heq' Hall']].
    exists (added ++ added'). rewrite Heq', app_assoc. split; [reflexivity|].
    now apply Forall_app.
Qed.

End TraceFacts.

Lemma emitsOnly_emit (Q : Event -> Prop) (e : Event) : Q e -> emitsOnly Q (emit e).
Proof. intros H trace. exists [e]. simpl. split; [reflexivity | now constructor]. Qed.

Lemma emitsOnly_bind {A B : Type} (Q : Event -> Prop) (m : M A) (k : A -> M B) :
  emitsOnly Q m -> (forall a, emitsOnly Q (k a)) -> emitsOnly Q (bind m k).
Proof.
  intros Hm Hk trace. unfold bind.
  destruct (Hm trace) as [added [Heq Hall]].
  destruct (m trace) as [[a | error] trace']; simpl in Heq; subst trace'.
  - destruct (Hk a (trace ++ added)) as [added' [Heq' Hall']].
    exists (added ++ added'). rewrite Heq', app_assoc. split; [reflexivity|].
    now apply Forall_app.
  - now exists added.
Qed.

(** Running a computation step by step. *)
Lemma bind_returned {A B : Type} (m : M A) (k : A -> M B) (trace trace' : Trace) (a : A) :
  m trace = (Returned a, trace') -> bind m k trace = k a trace'.
Proof. unfold bind. now intros ->. Qed.

Lemma bind_threw {A B : Type} (m : M A) (k : A -> M B) (trace trace' : Trace)
  (error : Thrown) :
  m trace = (Threw error, trace') -> bind m k trace = (Threw error, trace').
Proof. unfold bind. now intros ->. Qed.

Lemma tryCatch_returned {A : Type} (m : M A) (handler : Thrown -> M A)
  (trace trace' : Trace) (a : A) :
  m trace = (Returned a, trace') -> tryCatch m handler trace = (Returned a, trace').
Proof. unfold tryCatch. now intros ->. Qed.

Lemma tryCatch_threw {A : Type} (m : M A) (handler : Thrown -> M A)
  (trace trace' : Trace) (error : Thrown) :
  m trace = (Threw error, trace') -> tryCatch m handler trace = handler error trace'.
Proof. unfold tryCatch. now intros ->. Qed.

Ltac emits_step :=
  lazymatch goal with
  | |- emitsOnly _ (ret _) => apply emitsOnly_ret
  | |- emitsOnly _ (throw _) => apply emitsOnly_throw
  | |- emitsOnly _ (call _) => apply emitsOnly_call
  | |- emitsOnly _ (ask _) => apply emitsOnly_ask
  | |- emitsOnly _ (emit _) => apply emitsOnly_emit
  | |- emitsOnly _ (bind _ _) => apply emitsOnly_bind; [|intros ?]
  | |- emitsOnly _ (tryCatch _ _) => apply emitsOnly_tryCatch; [|intros ?]
  | |- emitsOnly _ (if ?b then _ else _) => destruct b
  | |- emitsOnly _ (match ?x with Some _ => _ | None => _ end) => destruct x
  | |- emitsOnly _ (match ?x with ErrorValue _ => _ | OtherValue => _ end) => destruct x
  end.

Lemma extractMermaidCode_emits (ctx : ExtractContext) :
  emitsOnly reportEvent (extractMermaidCode ctx).
Proof.
  unfold extractMermaidCode, strategy6. repeat emits_step; try exact I.
  destruct (editorApi ctx); repeat emits_step.
Qed.

Lemma generateHighQualitySvg_emits (settings : MermaidExporterSettings) (svg : Markup) :
  emitsOnly reportEvent (generateHighQualitySvg settings svg).
Proof. unfold generateHighQualitySvg. repeat emits_step. exact I. Qed.


(** ** What each step of the pipeline may append *)

Section PipelineTraces.

Variable host : Host.
Variable settings : MermaidExporterSettings.

Lemma createParents_emits (filename : string) (blob : Blob)
  (parts : list string) (currentPath : string) :
  emitsOnly (persistEvent filename blob) (createParents host currentPath parts).
Proof.
  revert currentPath. induction parts as [|part rest IH]; intros currentPath;
    cbn [createParents].
  - apply emitsOnly_ret.
  - repeat emits_step; try exact I. apply IH.
Qed.

Lemma saveToVault_emits (blob : Blob) (filename : string) :
  emitsOnly (persistEvent filename blob) (saveToVault host settings blob filename).
Proof.
  unfold saveToVault. repeat emits_step; try reflexivity; try exact I.
  apply createParents_emits.
Qed.

Lemma downloadFile_emits (content : Markup + Blob) (filename : string)
  (mimeType : option string) :
  emitsOnly (persistEvent filename (blobOf content mimeType))
            (downloadFile host settings content filename mimeType).
Proof.
  unfold downloadFile. fold (blobOf content mimeType).
  repeat emits_step; try exact I; try reflexivity.
  - apply saveToVault_emits.
  - unfold triggerDownload. repeat emits_step. now split.
Qed.

Lemma renderMermaidToSvg_emits (code : string) :
  emitsOnly (renderEvent code) (renderMermaidToSvg host code).
Proof.
  unfold renderMermaidToSvg. repeat emits_step; try exact I; reflexivity.
Qed.

Lemma persistEvent_notRender (filename : string) (blob : Blob) (e : Event) :
  persistEvent filename blob e -> notRender e.
Proof. destruct e; simpl; tauto. Qed.

Lemma downloadFile_notRender (content : Markup + Blob) (filename : string)
  (mimeType : option string) :
  emitsOnly notRender (downloadFile host settings content filename mimeType).
Proof.
  eapply emitsOnly_weaken; [|apply downloadFile_emits].
  apply persistEvent_notRender.
Qed.

Lemma convertSvgToRaster_notRender (svgContent : Markup) (filename format : string) :
  emitsOnly notRender (convertSvgToRaster host settings svgContent filename format).
Proof.
  unfold convertSvgToRaster. destruct (rasterSize settings svgContent) as [width height].
  repeat emits_step; try exact I. apply downloadFile_notRender.
Qed.

Lemma deliver_notRender (svg : Markup) (filename : string) :
  emitsOnly notRender (deliver host settings svg filename).
Proof.
  unfold deliver. repeat emits_step;
    first [apply downloadFile_notRender | apply convertSvgToRaster_notRender].
Qed.

Section ExportEvents.

Variable Q : Event -> Prop.
Hypothesis Q_report : forall e, reportEvent e -> Q e.
Hypothesis Q_render :
  forall code, validateMermaidCode code = true -> Q (RenderInvoked code).
Hypothesis Q_deliver :
  forall svg filename, emitsOnly Q (deliver host settings svg filename).

Lemma renderAndDeliver_emits (code : string) (activeFile : option string)
  (now : Clock) :
  validateMermaidCode code = true ->
  emitsOnly Q (renderAndDeliver host settings code activeFile now).
Proof.
  intros Hvalid. unfold renderAndDeliver, reportRenderFailure, reportSuccess.
  apply emitsOnly_bind; [|intros svgContent].
  - eapply emitsOnly_weaken; [|apply renderMermaidToSvg_emits].
    intros e He. destruct e; simpl in He; try destruct He;
      try (apply Q_report; exact I).
    now apply Q_render.
  - repeat emits_step; try (apply Q_report; exact I); try apply Q_deliver.
    eapply emitsOnly_weaken; [exact Q_report | apply generateHighQualitySvg_emits].
Qed.

Lemma handleExportClick_emits (ctx : ExtractContext)
  (activeFile : option string) (now : Clock) :
  emitsOnly Q (handleExportClick host settings ctx activeFile now).
Proof.
  unfold handleExportClick, reportExtractionFailure, reportValidationFailure.
  apply emitsOnly_tryCatch;
    [|intros error; repeat emits_step; apply Q_report; exact I].
  apply emitsOnly_bind; [apply emitsOnly_emit; apply Q_report; exact I | intros _].
  apply emitsOnly_bind;
    [eapply emitsOnly_weaken; [exact Q_report | apply extractMermaidCode_emits]|].
  intros [code|]; [|repeat emits_step; apply Q_report; exact I].
  destruct (negb (truthy code)); [repeat emits_step; apply Q_report; exact I|].
  destruct (validateMermaidCode code) eqn:Hvalid; simpl.
  - now apply renderAndDeliver_emits.
  - repeat emits_step; apply Q_report; exact I.
Qed.

End ExportEvents.

Lemma handleExportClick_rendersValidOnly (ctx : ExtractContext)
  (activeFile : option string) (now : Clock) :
  emitsOnly rendersValidOnly (handleExportClick host settings ctx activeFile now).
Proof.
  apply handleExportClick_emits.
  - intros e He code ->. destruct He.
  - intros code Hvalid code' [= <-]. exact Hvalid.
  - intros svg filename. eapply emitsOnly_weaken; [|apply deliver_notRender].
    intros e He code' ->. destruct He.
Qed.

Lemma handleExportClick_invalid (ctx : ExtractContext) (activeFile : option string)
  (now : Clock) (code : string) (trace : Trace) :
  fst (extractMermaidCode ctx (exportStarted trace)) = Returned (Some code) ->
  validateMermaidCode code = false ->
  handleExportClick host settings ctx activeFile now trace
  = (Returned tt, validationHalt trace).
Proof.
  intros Hextract Hvalid.
  pose proof (extractMermaidCode_rejected _ _ _ Hextract Hvalid) as Hrun.
  apply extractMermaidCode_value, extractedCode_truthy in Hextract.
  unfold exportStarted in Hrun.
  unfold handleExportClick, tryCatch. unfold bind at 1. unfold emit at 1.
  unfold bind at 1. rewrite Hrun, Hextract, Hvalid. cbn [negb].
  unfold reportValidationFailure, validationHalt.
  cbv beta iota delta [bind emit]. now rewrite <- !app_assoc.
Qed.

End PipelineTraces.

(** C2.  An export invokes the engine only on text the validator
    accepts; when the recovered text is rejected by the validator, as
    [not a diagram] is, the export stops after the validation notice
    and no render attempt is in its trace. *)
Theorem render_never_invoked_on_invalid_text (host : Host)
  (settings : MermaidExporterSettings) (activeFile : option string) (now : Clock) :
  (forall ctx,
     emitsOnly rendersValidOnly (handleExportClick host settings ctx activeFile now))
  /\ (forall ctx code trace,
        fst (extractMermaidCode ctx (exportStarted trace)) = Returned (Some code) ->
        validateMermaidCode code = false ->
        handleExportClick host settings ctx activeFile now trace
        = (Returned tt, validationHalt trace))
  /\ (forall trace,
        handleExportClick host settings (taggedContext "not a diagram")
          activeFile now trace
        = (Returned tt, validationHalt trace))
  /\ (forall trace code,
        In (RenderInvoked code) (validationHalt trace) ->
        In (RenderInvoked code) trace).
Proof.
  split; [intros ctx; apply handleExportClick_rendersValidOnly|].
  split; [intros ctx code trace; apply handleExportClick_invalid|].
  split.
  - intros trace. now apply handleExportClick_invalid with (code := "not a diagram").
  - intros trace code H. unfold validationHalt in H.
    apply in_app_or in H as [H | H]; [exact H|].
    simpl in H. unfold validationNotice in H.
    repeat (destruct H as [H | H]; [discriminate|]). destruct H.
Qed.

Lemma render_never_invoked_on_invalid_text_witness :
  handleExportClick (sampleHost true true) (sampleSettings EmptyString "svg")
    (preContext "graph") None sampleClock []
  <> (Returned tt, validationHalt [])
  /\ handleExportClick (sampleHost true true) (sampleSettings EmptyString "svg")
       (taggedContext "plain words") None sampleClock []
     = (Returned tt, validationHalt []).
Proof.
  split; [vm_compute; discriminate|].
  apply (render_never_invoked_on_invalid_text (sampleHost true true)
           (sampleSettings EmptyString "svg") None sampleClock);
    reflexivity.
Defined.

(** ** Delivery in the vector format *)

Lemma deliver_vector (host : Host) (settings : MermaidExporterSettings)
  (svg : Markup) (filename : string) :
  exportFormat settings <> "png" ->
  exportFormat settings <> "jpeg" ->
  deliver host settings svg filename
  = downloadFile host settings (inl svg) filename (Some svgMime).
Proof.
  intros Hpng Hjpeg. unfold deliver.
  destruct (String.eqb (orElse (exportFormat settings) "svg") "svg"); [reflexivity|].
  assert (Hraster :
    String.eqb (orElse (exportFormat settings) "svg") "png"
    || String.eqb (orElse (exportFormat settings) "svg") "jpeg" = false).
  { unfold orElse. destruct (exportFormat settings) as [|c r] eqn:E; [reflexivity|].
    cbn [truthy]. apply orb_false_iff. split; apply String.eqb_neq; assumption. }
  now rewrite Hraster.
Qed.

Lemma persistEvent_vectorOnly (svg : Markup) (filename : string) (e : Event) :
  persistEvent filename (svgBlob svg) e -> vectorOnly svg e.
Proof.
  destruct e; simpl; intros H; try contradiction; split; try reflexivity;
    intros blob' [=]; intuition congruence.
Qed.

Lemma vectorOnly_vectorExport (svg : Markup) (e : Event) :
  vectorOnly svg e -> vectorExport e.
Proof.
  intros [Hraster Hblob]. split; [exact Hraster|].
  intros blob H. rewrite (Hblob blob H). split; [reflexivity | now exists svg].
Qed.

Lemma deliver_vectorOnly (host : Host) (settings : MermaidExporterSettings)
  (svg : Markup) (filename : string) :
  exportFormat settings <> "png" ->
  exportFormat settings <> "jpeg" ->
  emitsOnly (vectorOnly svg) (deliver host settings svg filename).
Proof.
  intros Hpng Hjpeg. rewrite deliver_vector by assumption.
  eapply emitsOnly_weaken; [|apply downloadFile_emits].
  apply persistEvent_vectorOnly.
Qed.

(** C10.  When the configured format is neither [png] nor [jpeg]
    (unrecognized formats included), delivery is the download of the
    normalized vector markup under the SVG media type: the export
    appends no event of the raster converter, and every blob written to
    the vault or handed to the browser is that vector blob. *)
Theorem other_formats_deliver_svg (host : Host) (settings : MermaidExporterSettings) :
  exportFormat settings <> "png" ->
  exportFormat settings <> "jpeg" ->
  startsWith "image/svg+xml" svgMime = true
  /\ (forall svg filename,
        deliver host settings svg filename
        = downloadFile host settings (inl svg) filename (Some svgMime))
  /\ (forall svg filename,
        emitsOnly (vectorOnly svg) (deliver host settings svg filename))
  /\ (forall ctx activeFile now,
        emitsOnly vectorExport (handleExportClick host settings ctx activeFile now)).
Proof.
  intros Hpng Hjpeg. split; [reflexivity|].
  split; [intros; now apply deliver_vector|].
  split; [intros; now apply deliver_vectorOnly|].
  intros ctx activeFile now. apply handleExportClick_emits.
  - intros e He. destruct e; try destruct He; split; try reflexivity;
      intros blob [=].
  - intros code _. split; [reflexivity | intros blob [=]].
  - intros svg filename. eapply emitsOnly_weaken; [|now apply deliver_vectorOnly].
    apply vectorOnly_vectorExport.
Qed.

Lemma other_formats_deliver_svg_witness :
  snd (handleExportClick (sampleHost true true) (sampleSettings EmptyString "bmp")
         (taggedContext "graph TD") (Some "Design") sampleClock [])
  = [ NoticeShown "Exporting Mermaid diagram..." 0;
      StagingAttached;
      RenderInvoked "graph TD";
      StagingRemoved;
      DownloadTriggered "Design-2024-03-01.bmp"
        (svgBlob (normalizedMarkup (sampleSettings EmptyString "bmp")
                    (Serialized sampleSvg)));
      NoticeHidden;
      successNotice "Design-2024-03-01.bmp";
      ConsoleLog "Mermaid Exporter: Successfully exported diagram:" ]
  /\ emitsOnly vectorExport
       (handleExportClick (sampleHost true true) (sampleSettings EmptyString "bmp")
          (taggedContext "graph TD") (Some "Design") sampleClock).
Proof.
  split; [vm_compute; reflexivity|].
  apply (other_formats_deliver_svg (sampleHost true true)
           (sampleSettings EmptyString "bmp")); simpl; discriminate.
Defined.

(** ** The persister's fallback *)

Lemma trim_truthy_location (location : string) :
  truthy (trim location) = true -> truthy location && truthy (trim location) = true.
Proof. destruct location; [discriminate | now intros ->]. Qed.

Section Fallback.

Variable host : Host.
Variable settings : MermaidExporterSettings.
Hypothesis folderConfigured : truthy (trim (defaultExportLocation settings)) = true.

Lemma downloadFile_vault_failed (content : Markup + Blob) (filename : string)
  (mimeType : option string) (trace failed : Trace) (error : Thrown) :
  saveToVault host settings (blobOf content mimeType) filename trace
  = (Threw error, failed) ->
  downloadFile host settings content filename mimeType trace
  = match browserDownload host (vaultWarned failed) filename (blobOf content mimeType) with
    | Returned _ =>
        (Returned tt,
         vaultWarned failed ++ [DownloadTriggered filename (blobOf content mimeType)])
    | Threw e =>
        (Threw (ErrorValue ("Failed to download file: " ++ messageOf e)),
         vaultWarned failed ++ [ConsoleError "Mermaid Exporter: Download error:"])
    end.
Proof.
  intros Hsave. unfold downloadFile. fold (blobOf content mimeType).
  rewrite (trim_truthy_location _ folderConfigured).
  unfold tryCatch at 1. unfold bind at 1. unfold tryCatch at 1. unfold bind at 1.
  rewrite Hsave.
  cbv beta iota delta [bind emit ret triggerDownload call throw vaultWarned].
  rewrite <- !app_assoc. cbn [app].
  destruct (browserDownload host _ filename (blobOf content mimeType)) as [[]|e];
    rewrite <- ?app_assoc; reflexivity.
Qed.

Lemma downloadFile_vault_saved (content : Markup + Blob) (filename : string)
  (mimeType : option string) (trace saved : Trace) :
  saveToVault host settings (blobOf content mimeType) filename trace
  = (Returned tt, saved) ->
  downloadFile host settings content filename mimeType trace = (Returned tt, saved).
Proof.
  intros Hsave. unfold downloadFile. fold (blobOf content mimeType).
  rewrite (trim_truthy_location _ folderConfigured).
  unfold tryCatch at 1. unfold bind at 1. unfold tryCatch at 1. unfold bind at 1.
  rewrite Hsave. reflexivity.
Qed.

End Fallback.

(** An export whose text validates and renders ends as its delivery
    ends: with the success notice, or with the failure notice. *)
Lemma handleExportClick_delivery (host : Host) (settings : MermaidExporterSettings)
  (ctx : ExtractContext) (activeFile : option string) (now : Clock)
  (trace extracted rendered normalized : Trace) (code : string)
  (svg highQualitySvg : Markup) :
  extractMermaidCode ctx (exportStarted trace) = (Returned (Some code), extracted) ->
  validateMermaidCode code = true ->
  renderMermaidToSvg host code extracted = (Returned (Some svg), rendered) ->
  markupTruthy svg = true ->
  generateHighQualitySvg settings svg rendered = (Returned highQualitySvg, normalized) ->
  handleExportClick host settings ctx activeFile now trace
  = match deliver host settings highQualitySvg
            (generateFilename settings activeFile now) normalized with
    | (Returned _, delivered) =>
        (Returned tt, exportSucceeded (generateFilename settings activeFile now) delivered)
    | (Threw error, failed) => (Returned tt, exportFailed error failed)
    end.
Proof.
  intros Hextract Hvalid Hrender Htruthy Hnormal.
  assert (Hcode : truthy code = true).
  { apply (extractedCode_truthy ctx). apply (extractMermaidCode_value ctx (exportStarted trace)).
    now rewrite Hextract. }
  unfold handleExportClick, tryCatch. unfold bind at 1. unfold emit at 1.
  unfold exportStarted in Hextract. unfold bind at 1.
  rewrite Hextract, Hcode, Hvalid. cbn [negb].
  unfold renderAndDeliver. unfold bind at 1.
  rewrite Hrender, Htruthy. unfold bind at 1. rewrite Hnormal.
  unfold bind at 1.
  destruct (deliver host settings _ _ normalized) as [[[]|error] delivered].
  - unfold reportSuccess, bind, emit, exportSucceeded.
    now rewrite <- !app_assoc.
  - unfold bind, emit, exportFailed. now rewrite <- !app_assoc.
Qed.

Lemma convertSvgToRaster_download (host : Host) (settings : MermaidExporterSettings)
  (svg : Markup) (filename format bytes : string) (trace : Trace) :
  rasterPasses host settings svg format bytes trace ->
  convertSvgToRaster host settings svg filename format trace
  = downloadFile host settings (inr (rasterBlob format bytes)) filename
      (Some (rasterMime format)) (rasterEncoded settings svg format trace).
Proof.
  unfold rasterPasses, rasterEncoded, convertSvgToRaster.
  destruct (rasterSize settings svg) as [width height]. cbn [fst snd].
  intros [Hload [Hcontext Hblob]].
  cbv beta iota delta [bind emit ask].
  rewrite Hload. rewrite <- !app_assoc. cbn [app].
  rewrite Hcontext. rewrite <- !app_assoc. cbn [app].
  rewrite Hblob. reflexivity.
Qed.

Lemma deliver_raster (host : Host) (settings : MermaidExporterSettings)
  (svg : Markup) (filename : string) :
  exportFormat settings = "png" \/ exportFormat settings = "jpeg" ->
  deliver host settings svg filename
  = convertSvgToRaster host settings svg filename (exportFormat settings).
Proof.
  intros [H | H]; unfold deliver; rewrite H; reflexivity.
Qed.

(** C5, as stated, fails when the browser download fails as well: the
    warning is shown, and the export ends with the failure notice. *)
Lemma vault_and_browser_failure_fails_export :
  handleExportClick (sampleHost false false) (sampleSettings "Exports" "svg")
    (taggedContext "graph TD") (Some "Design") sampleClock []
  = (Returned tt,
     [ NoticeShown "Exporting Mermaid diagram..." 0;
       StagingAttached;
       RenderInvoked "graph TD";
       StagingRemoved;
       ConsoleWarn
         "Mermaid Exporter: Failed to save to vault, falling back to browser download:";
       vaultWarning;
       ConsoleError "Mermaid Exporter: Download error:";
       failureNotice (ErrorValue "Failed to download file: download blocked");
       ConsoleError "Mermaid Exporter: Export error:" ]).
Proof. vm_compute. reflexivity. Qed.

(** C5, amended.  With a destination folder configured (not blank),
    a failed vault save is never raised: the persister logs a warning,
    shows the notice and goes on to the browser download, whose outcome
    is the outcome of the persister.  An export whose vault save fails
    ends with the success notice when that download does not fail, and
    with the [Export failed] notice when it fails too, in the vector
    format and in the raster formats alike. *)
Theorem vault_failure_falls_back_to_download (host : Host)
  (settings : MermaidExporterSettings) :
  truthy (trim (defaultExportLocation settings)) = true ->
  (forall content filename mimeType trace failed error,
     saveToVault host settings (blobOf content mimeType) filename trace
     = (Threw error, failed) ->
     downloadFile host settings content filename mimeType trace
     = match browserDownload host (vaultWarned failed) filename
               (blobOf content mimeType) with
       | Returned _ =>
           (Returned tt,
            vaultWarned failed
            ++ [DownloadTriggered filename (blobOf content mimeType)])
       | Threw e =>
           (Threw (ErrorValue ("Failed to download file: " ++ messageOf e)),
            vaultWarned failed ++ [ConsoleError "Mermaid Exporter: Download error:"])
       end)
  /\ (forall ctx activeFile now trace extracted rendered normalized failed
             code svg highQualitySvg error,
        extractMermaidCode ctx (exportStarted trace) = (Returned (Some code), extracted) ->
        validateMermaidCode code = true ->
        renderMermaidToSvg host code extracted = (Returned (Some svg), rendered) ->
        markupTruthy svg = true ->
        generateHighQualitySvg settings svg rendered
        = (Returned highQualitySvg, normalized) ->
        exportFormat settings <> "png" ->
        exportFormat settings <> "jpeg" ->
        let filename := generateFilename settings activeFile now in
        saveToVault host settings (svgBlob highQualitySvg) filename normalized
        = (Threw error, failed) ->
        handleExportClick host settings ctx activeFile now trace
        = match browserDownload host (vaultWarned failed) filename
                  (svgBlob highQualitySvg) with
          | Returned _ =>
              (Returned tt,
               exportSucceeded filename
                 (vaultWarned failed
                  ++ [DownloadTriggered filename (svgBlob highQualitySvg)]))
          | Threw e =>
              (Returned tt,
               exportFailed (ErrorValue ("Failed to download file: " ++ messageOf e))
                 (vaultWarned failed
                  ++ [ConsoleError "Mermaid Exporter: Download error:"]))
          end)
  /\ (forall ctx activeFile now trace extracted rendered normalized failed
             code svg highQualitySvg error bytes,
        extractMermaidCode ctx (exportStarted trace) = (Returned (Some code), extracted) ->
        validateMermaidCode code = true ->
        renderMermaidToSvg host code extracted = (Returned (Some svg), rendered) ->
        markupTruthy svg = true ->
        generateHighQualitySvg settings svg rendered
        = (Returned highQualitySvg, normalized) ->
        exportFormat settings = "png" \/ exportFormat settings = "jpeg" ->
        let filename := generateFilename settings activeFile now in
        let format := exportFormat settings in
        rasterPasses host settings highQualitySvg format bytes normalized ->
        saveToVault host settings (rasterBlob format bytes) filename
          (rasterEncoded settings highQualitySvg format normalized)
        = (Threw error, failed) ->
        handleExportClick host settings ctx activeFile now trace
        = match browserDownload host (vaultWarned failed) filename
                  (rasterBlob format bytes) with
          | Returned _ =>
              (Returned tt,
               exportSucceeded filename
                 (vaultWarned failed
                  ++ [DownloadTriggered filename (rasterBlob format bytes)]))
          | Threw e =>
              (Returned tt,
               exportFailed (ErrorValue ("Failed to download file: " ++ messageOf e))
                 (vaultWarned failed
                  ++ [ConsoleError "Mermaid Exporter: Download error:"]))
          end).
Proof.
  intros Hfolder. split; [|split].
  - intros. eapply downloadFile_vault_failed; eassumption.
  - intros ctx activeFile now trace extracted rendered normalized failed
      code svg highQualitySvg error
      Hextract Hvalid Hrender Htruthy Hnormal Hpng Hjpeg filename Hsave.
    rewrite (handleExportClick_delivery _ _ _ _ _ _ _ _ _ _ _ _
               Hextract Hvalid Hrender Htruthy Hnormal).
    rewrite deliver_vector by assumption.
    fold filename.
    rewrite (downloadFile_vault_failed host settings Hfolder
               (inl highQualitySvg) filename (Some svgMime) normalized failed error Hsave).
    change (blobOf (inl highQualitySvg) (Some svgMime)) with (svgBlob highQualitySvg).
    now destruct (browserDownload host _ filename (svgBlob highQualitySvg)) as [[]|e].
  - intros ctx activeFile now trace extracted rendered normalized failed
      code svg highQualitySvg error bytes
      Hextract Hvalid Hrender Htruthy Hnormal Hformat filename format Hraster Hsave.
    rewrite (handleExportClick_delivery _ _ _ _ _ _ _ _ _ _ _ _
               Hextract Hvalid Hrender Htruthy Hnormal).
    rewrite deliver_raster by assumption.
    fold filename format.
    rewrite (convertSvgToRaster_download _ _ _ _ _ _ _ Hraster).
    rewrite (downloadFile_vault_failed host settings Hfolder
               (inr (rasterBlob format bytes)) filename (Some (rasterMime format))
               _ failed error Hsave).
    change (blobOf (inr (rasterBlob format bytes)) (Some (rasterMime format)))
      with (rasterBlob format bytes).
    now destruct (browserDownload host _ filename (rasterBlob format bytes)) as [[]|e].
Qed.

Lemma vault_failure_falls_back_to_download_witness :
  handleExportClick (sampleHost false true) (sampleSettings "Exports" "png")
    (taggedContext "graph TD") (Some "Design") sampleClock []
  = (Returned tt,
     exportSucceeded "Design-2024-03-01.png"
       (vaultWarned
          (rasterEncoded (sampleSettings "Exports" "png")
             (normalizedMarkup (sampleSettings "Exports" "png") (Serialized sampleSvg))
             "png"
             [ NoticeShown "Exporting Mermaid diagram..." 0;
               StagingAttached; RenderInvoked "graph TD"; StagingRemoved ])
        ++ [DownloadTriggered "Design-2024-03-01.png" (rasterBlob "png" "bytes")])).
Proof.
  refine (proj2 (proj2 (vault_failure_falls_back_to_download (sampleHost false true)
            (sampleSettings "Exports" "png") _))
            (taggedContext "graph TD") (Some "Design") sampleClock []
            _ _ _ _ "graph TD" (Serialized sampleSvg) _ (ErrorValue "write failed") "bytes"
            _ _ _ _ _ _ _ _);
    try reflexivity.
  - left. reflexivity.
  - repeat split; reflexivity.
Defined.

(** ** The normalizer *)

Lemma getAttribute_set_same (name value : string) (el : SvgElement) :
  getAttribute name (setAttribute name value el) = Some value.
Proof. unfold getAttribute, setAttribute. simpl. apply lookup_insert_eq. Qed.

Lemma getAttribute_set_other (name other value : string) (el : SvgElement) :
  other <> name ->
  getAttribute name (setAttribute other value el) = getAttribute name el.
Proof. intros H. unfold getAttribute, setAttribute. simpl. now apply lookup_insert_ne. Qed.

Lemma getAttribute_ensureAttribute_other (name other value : string) (el : SvgElement) :
  other <> name ->
  getAttribute name (ensureAttribute other value el) = getAttribute name el.
Proof.
  intros H. unfold ensureAttribute.
  destruct (negb (attrTruthy (getAttribute other el))); [|reflexivity].
  now apply getAttribute_set_other.
Qed.

Lemma viewBoxFrom_truthy (w h : string) : truthy (viewBoxFrom w h) = true.
Proof. reflexivity. Qed.

Lemma viewBoxOr_truthy (current : option string) (w h : string) :
  truthy (viewBoxOr current w h) = true.
Proof.
  destruct current as [v|]; simpl; [|reflexivity].
  destruct (truthy v) eqn:E; [exact E | reflexivity].
Qed.

Lemma ensureViewBox_sized (w h : string) (el : SvgElement) :
  truthy w = true -> truthy h = true ->
  getAttribute "viewBox" (ensureViewBox (getAttribute "viewBox" el) (Some w) (Some h) el)
  = Some (viewBoxOr (getAttribute "viewBox" el) w h).
Proof.
  intros Hw Hh. unfold ensureViewBox, viewBoxOr. rewrite Hw, Hh.
  destruct (getAttribute "viewBox" el) as [v|] eqn:E; simpl.
  - destruct (truthy v); simpl; [exact E | apply getAttribute_set_same].
  - apply getAttribute_set_same.
Qed.

Lemma ensureViewBox_present (current w h : option string) (el : SvgElement) :
  attrTruthy current = true -> ensureViewBox current w h el = el.
Proof.
  intros H. unfold ensureViewBox. rewrite H.
  destruct w, h; reflexivity.
Qed.

Lemma normalizeElement_viewBox (settings : MermaidExporterSettings)
  (el : SvgElement) (w h : string) :
  getAttribute "width" el = Some w -> truthy w = true ->
  getAttribute "height" el = Some h -> truthy h = true ->
  getAttribute "viewBox" (normalizeElement settings el)
  = Some (viewBoxOr (getAttribute "viewBox" el) w h).
Proof.
  intros Hw Hwt Hh Hht. unfold normalizeElement. rewrite Hw, Hh.
  rewrite !getAttribute_ensureAttribute_other by discriminate.
  pose proof (ensureViewBox_sized w h el Hwt Hht) as H1.
  assert (H2 :
    ensureViewBox
      (getAttribute "viewBox"
         (ensureViewBox (getAttribute "viewBox" el) (Some w) (Some h) el))
      (Some w) (Some h)
      (ensureViewBox (getAttribute "viewBox" el) (Some w) (Some h) el)
    = ensureViewBox (getAttribute "viewBox" el) (Some w) (Some h) el).
  { apply ensureViewBox_present. rewrite H1. apply viewBoxOr_truthy. }
  destruct (String.eqb (exportQuality settings) "maximum"
            || String.eqb (exportQuality settings) "high");
    [now rewrite H2|].
  destruct (String.eqb (exportQuality settings) "medium"); [now rewrite H2 | exact H1].
Qed.

(** C4.  When the markup parses and its root carries a width and a
    height (attributes present with a non-empty value), the normalizer
    returns, without a console message, markup that parses again and
    whose root has a non-empty viewport: the one it had, or
    [0 0 width height]. *)
Theorem normalized_markup_has_viewBox (settings : MermaidExporterSettings)
  (svgContent : Markup) (w h : string) (trace : Trace) :
  hasParserError svgContent = false ->
  getAttribute "width" (documentElement svgContent) = Some w -> truthy w = true ->
  getAttribute "height" (documentElement svgContent) = Some h -> truthy h = true ->
  exists normalized,
    generateHighQualitySvg settings svgContent trace = (Returned normalized, trace) /\
    hasParserError normalized = false /\
    getAttribute "viewBox" (documentElement normalized)
    = Some (viewBoxOr (getAttribute "viewBox" (documentElement svgContent)) w h) /\
    attrTruthy (getAttribute "viewBox" (documentElement normalized)) = true.
Proof.
  intros Hparse Hw Hwt Hh Hht.
  exists (serializeToString (normalizeElement settings (documentElement svgContent))).
  unfold generateHighQualitySvg. rewrite Hparse.
  cbn [serializeToString hasParserError documentElement].
  split; [reflexivity|]. split; [reflexivity|].
  rewrite (normalizeElement_viewBox settings _ w h Hw Hwt Hh Hht).
  split; [reflexivity|]. cbn [attrTruthy]. apply viewBoxOr_truthy.
Qed.

Lemma normalized_markup_has_viewBox_witness :
  exists normalized,
    generateHighQualitySvg DEFAULT_SETTINGS (Serialized sizedSvg) []
    = (Returned normalized, []) /\
    hasParserError normalized = false /\
    getAttribute "viewBox" (documentElement normalized) = Some "0 0 640 480" /\
    attrTruthy (getAttribute "viewBox" (documentElement normalized)) = true.
Proof.
  apply (normalized_markup_has_viewBox DEFAULT_SETTINGS (Serialized sizedSvg)
           "640" "480" []); reflexivity.
Defined.

(** ** The raster converter's dimensions *)

Lemma rasterSize_intrinsic (settings : MermaidExporterSettings) (svgContent : Markup) :
  rasterSize settings svgContent
  = (mathRound (times (fst (intrinsicSize (documentElement svgContent)))
                  (getQualityMultiplier settings)),
     mathRound (times (snd (intrinsicSize (documentElement svgContent)))
                  (getQualityMultiplier settings))).
Proof.
  unfold rasterSize. now destruct (intrinsicSize (documentElement svgContent)).
Qed.

Lemma intrinsicSize_viewBox (el : SvgElement) (v a b w h : string) (rest : list string) :
  getAttribute "viewBox" el = Some v ->
  truthy v = true ->
  splitWs v = a :: b :: w :: h :: rest ->
  intrinsicSize el = (parseFloat w, parseFloat h).
Proof. intros Hv Ht Hs. unfold intrinsicSize. now rewrite Hv, Ht, Hs. Qed.

Lemma intrinsicSize_attributes (el : SvgElement) :
  attrTruthy (getAttribute "viewBox" el) = false \/
  (exists v, getAttribute "viewBox" el = Some v /\ (List.length (splitWs v) < 4)%nat) ->
  intrinsicSize el
  = (parseFloat (attrOrDefault (getAttribute "width" el) "800"),
     parseFloat (attrOrDefault (getAttribute "height" el) "600")).
Proof.
  unfold intrinsicSize. intros [H | [v [Hv Hlen]]].
  - destruct (getAttribute "viewBox" el) as [v|]; [|reflexivity].
    simpl in H. now rewrite H.
  - rewrite Hv. destruct (truthy v); [|reflexivity].
    destruct (splitWs v) as [|a [|b [|w [|h rest]]]]; try reflexivity.
    simpl in Hlen. lia.
Qed.

(** C3, as stated, fails: a viewport attribute that is present but
    does not split on white space into four fields is passed over, and
    the size follows the width attribute. *)
Lemma viewBox_present_but_size_from_attributes :
  rasterSize (sampleSettings EmptyString "png")
    (Serialized
       {| attributes :=
            {[ "viewBox" := "0,0,400,300"; "width" := "100"; "height" := "50" ]};
          innerMarkup := EmptyString |})
  = (integerNumber 300, integerNumber 150)
  /\ rasterSize (sampleSettings EmptyString "png")
       (Serialized
          {| attributes :=
               {[ "viewBox" := "0,0,400,300"; "width" := "200"; "height" := "50" ]};
             innerMarkup := EmptyString |})
     = (integerNumber 600, integerNumber 150).
Proof. split; vm_compute; reflexivity. Qed.

(** C3, amended.  The size before scaling comes from the third and
    fourth white-space separated fields of the viewport attribute when
    that attribute is not empty and has at least four such fields;
    otherwise from the width and height attributes, each replaced by 800
    resp. 600 when missing or empty.  Both are read by [parseFloat],
    multiplied by the factor of the quality tier (1, 1.5, 2, 3; 2 for an
    unknown tier) and rounded by [Math.round], all in binary64.  Tier
    [maximum] on viewport [0 0 400 300] gives 1200 by 900; tier [medium]
    on [0 0 333 111] gives 500 by 167, the halves going up; tier [low]
    on [0 0 0.49999999999999999 1.4999999999999999] gives 1 by 2, the
    fields being read as 0.5 and 1.5; a width of [1e308] at tier
    [maximum] gives an infinite size. *)
Theorem raster_size_from_viewBox_or_attributes (settings : MermaidExporterSettings)
  (svgContent : Markup) :
  let el := documentElement svgContent in
  (forall v a b w h rest,
     getAttribute "viewBox" el = Some v ->
     truthy v = true ->
     splitWs v = a :: b :: w :: h :: rest ->
     rasterSize settings svgContent
     = (scaledDimension settings w, scaledDimension settings h))
  /\ (attrTruthy (getAttribute "viewBox" el) = false \/
      (exists v,
         getAttribute "viewBox" el = Some v /\ (List.length (splitWs v) < 4)%nat) ->
      rasterSize settings svgContent
      = (scaledDimension settings (attrOrDefault (getAttribute "width" el) "800"),
         scaledDimension settings (attrOrDefault (getAttribute "height" el) "600")))
  /\ (exportQuality settings = "maximum" ->
      getAttribute "viewBox" el = Some "0 0 400 300" ->
      rasterSize settings svgContent = (integerNumber 1200, integerNumber 900))
  /\ (exportQuality settings = "medium" ->
      getAttribute "viewBox" el = Some "0 0 333 111" ->
      rasterSize settings svgContent = (integerNumber 500, integerNumber 167))
  /\ (exportQuality settings = "low" ->
      getAttribute "viewBox" el = Some "0 0 0.49999999999999999 1.4999999999999999" ->
      rasterSize settings svgContent = (integerNumber 1, integerNumber 2))
  /\ (exportQuality settings = "maximum" ->
      getAttribute "viewBox" el = Some "0 0 1e308 1e-7" ->
      rasterSize settings svgContent = (Infinity false, S754_zero false))
  /\ (getQualityMultiplier settings
      = if String.eqb (exportQuality settings) "low" then integerNumber 1
        else if String.eqb (exportQuality settings) "medium" then scale10 15 (-1)
        else if String.eqb (exportQuality settings) "maximum" then integerNumber 3
        else integerNumber 2).
Proof.
  intros el.
  assert (Hfixed : forall quality v w h size,
    splitWs v = ["0"; "0"; w; h] ->
    truthy v = true ->
    (mathRound (times (parseFloat w) (getQualityMultiplier (sampleSettingsAt quality))),
     mathRound (times (parseFloat h) (getQualityMultiplier (sampleSettingsAt quality))))
    = size ->
    exportQuality settings = quality ->
    getAttribute "viewBox" el = Some v ->
    rasterSize settings svgContent = size).
  { intros quality v w h size Hs Ht Hsize Hq Hv. rewrite rasterSize_intrinsic. fold el.
    rewrite (intrinsicSize_viewBox el v "0" "0" w h [] Hv Ht Hs). cbn [fst snd].
    rewrite <- Hsize. unfold getQualityMultiplier. rewrite Hq. reflexivity. }
  split; [|split; [|split; [|split; [|split; [|split]]]]].
  - intros v a b w h rest Hv Ht Hs. rewrite rasterSize_intrinsic.
    fold el. now rewrite (intrinsicSize_viewBox el v a b w h rest Hv Ht Hs).
  - intros H. rewrite rasterSize_intrinsic. fold el.
    now rewrite (intrinsicSize_attributes el H).
  - apply (Hfixed "maximum" "0 0 400 300" "400" "300"); vm_compute; reflexivity.
  - apply (Hfixed "medium" "0 0 333 111" "333" "111"); vm_compute; reflexivity.
  - apply (Hfixed "low" "0 0 0.49999999999999999 1.4999999999999999"
             "0.49999999999999999" "1.4999999999999999"); vm_compute; reflexivity.
  - apply (Hfixed "maximum" "0 0 1e308 1e-7" "1e308" "1e-7"); vm_compute; reflexivity.
  - unfold getQualityMultiplier.
    destruct (String.eqb (exportQuality settings) "low"); [vm_compute; reflexivity|].
    destruct (String.eqb (exportQuality settings) "medium"); [reflexivity|].
    destruct (String.eqb (exportQuality settings) "high") eqn:Hhigh.
    + apply String.eqb_eq in Hhigh. rewrite Hhigh. vm_compute. reflexivity.
    + destruct (String.eqb (exportQuality settings) "maximum");
        vm_compute; reflexivity.
Qed.

Lemma raster_size_from_viewBox_or_attributes_witness :
  rasterSize (sampleSettings EmptyString "png") (Serialized sampleSvg)
  = (integerNumber 1200, integerNumber 900).
Proof.
  apply (raster_size_from_viewBox_or_attributes (sampleSettings EmptyString "png")
           (Serialized sampleSvg)); reflexivity.
Defined.

(** ** File names *)

(** C6.  The example of the claim holds, but the note name is passed to
    [String.prototype.replace] as a replacement pattern: in a note
    called [Cost $$] the two dollar signs stand for one, and in a note
    called [R$&D] the [$&] stands for the placeholder itself, so the
    file name does not carry the note name. *)
Theorem generateFilename_note_name_as_pattern :
  generateFilename (templateSettings "{noteName}-{date}" "svg") (Some "Design")
    sampleClock = "Design-2024-03-01.svg"
  /\ generateFilename (templateSettings "{noteName}-{date}" "svg") (Some "Cost $$")
       sampleClock = "Cost $-2024-03-01.svg"
  /\ generateFilename (templateSettings "{noteName}" "svg") (Some "R$&D")
       sampleClock = "R{noteName}D.svg".
Proof. repeat split; vm_compute; reflexivity. Qed.

(** ** Induction on document trees *)

Lemma Node_induction (P : Node -> Prop) :
  (forall p kids, List.Forall P kids -> P (MkNode p kids)) -> forall n, P n.
Proof.
  intros H. fix IH 1. intros [p kids]. apply H.
  induction kids as [|c kids IHkids]; constructor; [apply IH | exact IHkids].
Qed.

(** ** Queries *)

Lemma allMatches_app (sel : NodeProps -> bool) (search : Node -> list Node)
  (l1 l2 : list Node) :
  allMatches sel search (l1 ++ l2)
  = allMatches sel search l1 ++ allMatches sel search l2.
Proof.
  induction l1 as [|c l1 IH]; [reflexivity|].
  cbn [allMatches app]. fold (allMatches sel search). rewrite IH.
  now rewrite <- !app_assoc.
Qed.

Lemma firstMatch_none (sel : NodeProps -> bool)
  (search : Node -> option Node) (searchAll : Node -> list Node) (kids : list Node) :
  List.Forall (fun c => search c = None <-> searchAll c = []) kids ->
  firstMatch sel search kids = None <-> allMatches sel searchAll kids = [].
Proof.
  induction 1 as [|c kids Hc _ IH]; [simpl; tauto|].
  cbn [firstMatch allMatches]. fold (firstMatch sel search) (allMatches sel searchAll).
  destruct (sel (propsOf c)); [split; discriminate|].
  destruct (search c) as [found|] eqn:E.
  - split; [discriminate|]. intros H. apply app_eq_nil in H as [_ H].
    apply app_eq_nil in H as [H _]. apply Hc in H. discriminate.
  - rewrite (proj1 Hc eq_refl). exact IH.
Qed.

Lemma querySelector_none (sel : NodeProps -> bool) (n : Node) :
  querySelector sel n = None <-> querySelectorAll sel n = [].
Proof.
  induction n as [p kids IH] using Node_induction.
  cbn [querySelector querySelectorAll]. now apply firstMatch_none.
Qed.

Lemma firstMatch_child (sel : NodeProps -> bool) (search : Node -> option Node)
  (kids : list Node) (c : Node) :
  In c kids -> sel (propsOf c) = true -> firstMatch sel search kids <> None.
Proof.
  induction kids as [|k kids IH]; intros Hin Hsel; [destruct Hin|].
  cbn [firstMatch]. fold (firstMatch sel search).
  destruct (sel (propsOf k)) eqn:Ek; [discriminate|].
  destruct Hin as [-> | Hin]; [congruence|].
  destruct (search k); [discriminate | now apply IH].
Qed.

Lemma insertAt_allMatches (sel : NodeProps -> bool) (search : Node -> list Node)
  (index : nat) (x : Node) (kids : list Node) :
  List.length (allMatches sel search (insertAt index x kids))
  = (List.length (allMatches sel search kids)
     + List.length (allMatches sel search [x]))%nat.
Proof.
  unfold insertAt.
  rewrite <- (firstn_skipn index kids) at 3.
  change (x :: skipn index kids) with ([x] ++ skipn index kids).
  rewrite !allMatches_app, !length_app. lia.
Qed.

Lemma exportButton_matches (fresh : nat) :
  allMatches isExportButton (querySelectorAll isExportButton) [exportButton fresh]
  = [exportButton fresh].
Proof. reflexivity. Qed.

(** [locate] finds what [querySelector] finds. *)
Lemma nestedMatch_none (sel : NodeProps -> bool) (n : Node) :
  nestedMatch sel n = None <-> querySelector sel n = None.
Proof.
  induction n as [p kids IH] using Node_induction.
  cbn [nestedMatch querySelector].
  induction IH as [|c kids Hc _ IHkids]; [simpl; tauto|].
  cbn [firstNested firstMatch].
  fold (firstNested sel (nestedMatch sel)) (firstMatch sel (querySelector sel)).
  destruct (sel (propsOf c)); [split; discriminate|].
  destruct (nestedMatch sel c) eqn:E1, (querySelector sel c) eqn:E2;
    try (split; discriminate); try exact IHkids.
  - destruct Hc as [_ Hc]. specialize (Hc eq_refl). discriminate.
  - destruct Hc as [Hc _]. specialize (Hc eq_refl). discriminate.
Qed.

Lemma locate_none (sel : NodeProps -> bool) (index : nat) (kids : list Node) :
  locate sel index kids = None <-> firstMatch sel (querySelector sel) kids = None.
Proof.
  revert index. induction kids as [|c kids IH]; intros index; [simpl; tauto|].
  cbn [locate firstMatch]. fold (firstMatch sel (querySelector sel)).
  destruct (sel (propsOf c)); [split; discriminate|].
  pose proof (nestedMatch_none sel c) as Hc.
  destruct (nestedMatch sel c) eqn:E1, (querySelector sel c) eqn:E2;
    try (split; discriminate); try apply IH.
  - destruct Hc as [_ Hc]. specialize (Hc eq_refl). discriminate.
  - destruct Hc as [Hc _]. specialize (Hc eq_refl). discriminate.
Qed.

Lemma locate_direct (sel : NodeProps -> bool) (base index : nat) (hasNext : bool)
  (kids : list Node) :
  locate sel base kids = Some (DirectChild index hasNext) ->
  exists e,
    (base <= index)%nat /\
    nth_error kids (index - base) = Some e /\
    sel (propsOf e) = true /\
    firstMatch sel (querySelector sel) kids = Some e /\
    hasNext = hasNextSibling (skipn (S (index - base)) kids).
Proof.
  revert base. induction kids as [|c kids IH]; intros base; [discriminate|].
  cbn [locate firstMatch]. fold (firstMatch sel (querySelector sel)).
  destruct (sel (propsOf c)) eqn:Ec.
  - intros [= <- <-]. exists c. rewrite Nat.sub_diag. repeat split; auto.
  - pose proof (nestedMatch_none sel c) as Hc.
    destruct (nestedMatch sel c) eqn:E1; [discriminate|].
    rewrite (proj1 Hc eq_refl). intros H.
    destruct (IH _ H) as [e [Hle [Hnth [Hsel [Hfirst Hnext]]]]].
    exists e. replace (index - base)%nat with (S (index - S base)) by lia.
    repeat split; auto. lia.
Qed.

(** ** Attaching the export control *)

Lemma addExportButton_present (fresh : nat) (bar : Node) :
  querySelector isExportButton bar <> None -> addExportButton fresh bar = Some bar.
Proof.
  unfold addExportButton. destruct (querySelector isExportButton bar); congruence.
Qed.

Lemma addExportButton_absent (fresh : nat) (p : NodeProps) (kids : list Node) (bar' : Node) :
  querySelector isExportButton (MkNode p kids) = None ->
  addExportButton fresh (MkNode p kids) = Some bar' ->
  exists before after,
    kids = before ++ after /\
    bar' = MkNode p (before ++ exportButton fresh :: after).
Proof.
  intros Hnone. unfold addExportButton. rewrite Hnone.
  destruct (locate isEditControl 0 kids) as [[index [|] | [|]]|]; intros [= <-].
  - exists (firstn (S index) kids), (skipn (S index) kids).
    now rewrite firstn_skipn.
  - exists kids, []. now rewrite app_nil_r.
  - exists kids, []. now rewrite app_nil_r.
  - now exists [], kids.
Qed.

Lemma exportControls_inserted (fresh : nat) (p : NodeProps) (before after : list Node) :
  exportControls (MkNode p (before ++ exportButton fresh :: after))
  = S (exportControls (MkNode p (before ++ after))).
Proof.
  unfold exportControls. cbn [querySelectorAll].
  change (exportButton fresh :: after) with ([exportButton fresh] ++ after).
  rewrite !allMatches_app, !length_app, exportButton_matches. simpl. lia.
Qed.

Lemma querySelector_inserted (fresh : nat) (p : NodeProps) (before after : list Node) :
  querySelector isExportButton (MkNode p (before ++ exportButton fresh :: after)) <> None.
Proof.
  cbn [querySelector]. apply firstMatch_child with (c := exportButton fresh).
  - apply in_or_app. right. now left.
  - reflexivity.
Qed.


(** Where the code does what is asked.  Attaching is idempotent: on an
    anchor that already contains an export control the call changes
    nothing, and after a call that inserted one every further call
    changes nothing; an anchor without a control holds exactly one
    afterwards.  The control is inserted right after the edit control
    when the first edit control in document order is a child of the
    anchor, and at the start of the anchor when there is no edit
    control. *)
Lemma addExportButton_idempotent_and_placed (fresh : nat) (bar bar' : Node) :
  addExportButton fresh bar = Some bar' ->
  (forall fresh', addExportButton fresh' bar' = Some bar')
  /\ (querySelector isExportButton bar <> None -> bar' = bar)
  /\ (exportControls bar' = Nat.max 1 (exportControls bar))
  /\ (querySelector isExportButton bar = None ->
      forall index hasNext,
        locate isEditControl 0 (kidsOf bar) = Some (DirectChild index hasNext) ->
        exists edit,
          querySelector isEditControl bar = Some edit /\
          nth_error (kidsOf bar) index = Some edit /\
          kidsOf bar'
          = firstn index (kidsOf bar) ++ edit :: exportButton fresh
            :: skipn (S index) (kidsOf bar))
  /\ (querySelector isExportButton bar = None ->
      querySelector isEditControl bar = None ->
      kidsOf bar' = exportButton fresh :: kidsOf bar).
Proof.
  intros Hadd. destruct bar as [p kids].
  destruct (querySelector isExportButton (MkNode p kids)) as [found|] eqn:Hq.
  - (* a control is already there *)
    assert (Hsame : bar' = MkNode p kids).
    { rewrite addExportButton_present in Hadd by congruence. congruence. }
    subst bar'. repeat split; try congruence.
    + intros fresh'. apply addExportButton_present. congruence.
    + unfold exportControls.
      destruct (querySelectorAll isExportButton (MkNode p kids)) eqn:E.
      * apply querySelector_none in E. congruence.
      * simpl. lia.
  - destruct (addExportButton_absent _ _ _ _ Hq Hadd) as [before [after [Hkids ->]]].
    split; [|split; [|split; [|split]]].
    + intros fresh'. apply addExportButton_present, querySelector_inserted.
    + congruence.
    + rewrite exportControls_inserted, <- Hkids.
      apply querySelector_none in Hq. unfold exportControls. rewrite Hq. reflexivity.
    + intros _ index hasNext Hloc. cbn [kidsOf] in *.
      destruct (locate_direct _ _ _ _ _ Hloc) as [edit [_ [Hnth [_ [Hfirst Hnext]]]]].
      rewrite Nat.sub_0_r in Hnth, Hnext.
      exists edit. split; [exact Hfirst|]. split; [exact Hnth|].
      unfold addExportButton in Hadd. rewrite Hq, Hloc in Hadd.
      assert (Hsplit : kids = firstn index kids ++ edit :: skipn (S index) kids).
      { rewrite <- (firstn_skipn index kids) at 1. f_equal.
        clear -Hnth. revert index Hnth.
        induction kids as [|k kids IH]; intros [|index] Hnth; try discriminate.
        - now injection Hnth as ->.
        - simpl. now apply IH. }
      assert (Hfirstn : firstn (S index) kids = firstn index kids ++ [edit]).
      { clear -Hnth. revert index Hnth.
        induction kids as [|k kids IH]; intros [|index] Hnth; try discriminate.
        - now injection Hnth as ->.
        - simpl. f_equal. now apply IH. }
      destruct hasNext.
      * injection Hadd as Hadd.
        rewrite <- Hadd. unfold insertAt. rewrite Hfirstn.
        now rewrite <- app_assoc.
      * injection Hadd as Hadd.
        rewrite <- Hadd.
        assert (Hlast : skipn (S index) kids = []).
        { destruct (skipn (S index) kids); [reflexivity | discriminate]. }
        rewrite Hlast in *. rewrite Hsplit at 1. now rewrite <- app_assoc.
    + intros _ Hedit. cbn [kidsOf]. cbn [querySelector] in Hedit.
      apply locate_none with (index := 0%nat) in Hedit.
      unfold addExportButton in Hadd. rewrite Hq, Hedit in Hadd. congruence.
Qed.

Lemma addExportButton_idempotent_and_placed_witness :
  (forall fresh',
     addExportButton fresh'
       (MkNode (plainProps 1 "div")
          [MkNode (plainProps 3 "#text") []; sampleEdit; exportButton 10])
     = Some (MkNode (plainProps 1 "div")
               [MkNode (plainProps 3 "#text") []; sampleEdit; exportButton 10]))
  /\ exportControls
       (MkNode (plainProps 1 "div")
          [MkNode (plainProps 3 "#text") []; sampleEdit; exportButton 10]) = 1%nat.
Proof.
  destruct (addExportButton_idempotent_and_placed 10 sampleBar
              (MkNode (plainProps 1 "div")
                 [MkNode (plainProps 3 "#text") []; sampleEdit; exportButton 10])
              eq_refl) as [Hidem [_ [Hcount _]]].
  split; [exact Hidem | exact Hcount].
Defined.

(** ** Identities, containment and removal *)

Lemma contains_nodeIds (n : Node) (x : nat) :
  contains n x = true <-> In x (nodeIds n).
Proof.
  induction n as [p kids IH] using Node_induction.
  cbn [contains nodeIds In]. rewrite orb_true_iff, Nat.eqb_eq.
  rewrite List.existsb_exists, List.in_flat_map.
  split.
  - intros [H | [c [Hin Hc]]]; [now left | right].
    exists c. split; [exact Hin|].
    rewrite List.Forall_forall in IH. now apply IH.
  - intros [H | [c [Hin Hc]]]; [now left | right].
    exists c. split; [exact Hin|].
    rewrite List.Forall_forall in IH. now apply IH.
Qed.

Lemma idOf_removeNode (b : nat) (n : Node) : idOf (removeNode b n) = idOf n.
Proof. now destruct n. Qed.

Lemma propsOf_removeNode (b : nat) (n : Node) : propsOf (removeNode b n) = propsOf n.
Proof. now destruct n. Qed.

Lemma kidsOf_removeNode (b : nat) (n : Node) :
  kidsOf (removeNode b n)
  = List.filter (fun c => negb (idOf c =? b)%nat) (List.map (removeNode b) (kidsOf n)).
Proof. now destruct n. Qed.

(** A child of a pruned node is the pruned form of a child. *)
Lemma in_pruned_kids (b : nat) (kids : list Node) (c' : Node) :
  In c' (List.filter (fun c => negb (idOf c =? b)%nat) (List.map (removeNode b) kids)) ->
  exists c, In c kids /\ c' = removeNode b c /\ idOf c <> b.
Proof.
  intros H. apply filter_In in H as [H Hid]. apply in_map_iff in H as [c [<- Hin]].
  exists c. repeat split; [exact Hin|].
  rewrite idOf_removeNode in Hid. apply negb_true_iff, Nat.eqb_neq in Hid. exact Hid.
Qed.

Lemma nodeIds_removeNode (b : nat) (n : Node) (x : nat) :
  In x (nodeIds (removeNode b n)) -> In x (nodeIds n).
Proof.
  induction n as [p kids IH] using Node_induction.
  cbn [removeNode nodeIds]. intros [H | H]; [now left | right].
  apply List.in_flat_map in H as [c' [Hin Hx]].
  apply in_pruned_kids in Hin as [c [Hin [-> _]]].
  apply List.in_flat_map. exists c. split; [exact Hin|].
  rewrite List.Forall_forall in IH. now apply IH.
Qed.

Lemma contains_removeNode (b : nat) (n : Node) (x : nat) :
  contains (removeNode b n) x = true -> contains n x = true.
Proof. rewrite !contains_nodeIds. apply nodeIds_removeNode. Qed.

(** The removed node is gone, whatever the tree, unless it is the root. *)
Lemma removeNode_gone (b : nat) (n : Node) :
  idOf n <> b -> ~ In b (nodeIds (removeNode b n)).
Proof.
  induction n as [p kids IH] using Node_induction.
  intros Hroot. unfold idOf in Hroot. cbn in Hroot.
  cbn [removeNode nodeIds]. intros [H | H]; [congruence|].
  apply List.in_flat_map in H as [c' [Hin Hx]].
  apply in_pruned_kids in Hin as [c [Hin [-> Hid]]].
  rewrite List.Forall_forall in IH. now apply (IH c Hin Hid).
Qed.

(** Pruning keeps identities unique. *)
Lemma nodeIds_removeNode_sublist (b : nat) (n : Node) :
  nodeIds (removeNode b n) `sublist_of` nodeIds n.
Proof.
  induction n as [p kids IH] using Node_induction.
  cbn [removeNode nodeIds]. apply sublist_skip.
  induction IH as [|c kids Hc _ IHkids]; [constructor|].
  cbn [List.map List.filter flat_map].
  destruct (negb (idOf (removeNode b c) =? b)%nat).
  - cbn [flat_map]. now apply sublist_app.
  - now apply sublist_inserts_l.
Qed.

Lemma NoDup_removeNode (b : nat) (n : Node) :
  List.NoDup (nodeIds n) -> List.NoDup (nodeIds (removeNode b n)).
Proof.
  rewrite <- !NoDup_ListNoDup. intros H.
  eapply sublist_NoDup; [exact H | apply nodeIds_removeNode_sublist].
Qed.

(** ** Ancestor chains *)

Lemma nodeIds_strict (n : Node) : nodeIds n = idOf n :: strictIds n.
Proof. now destruct n. Qed.

Lemma strictIds_child (n c : Node) (x : nat) :
  In c (kidsOf n) -> In x (nodeIds c) -> In x (strictIds n).
Proof. intros Hc Hx. apply List.in_flat_map. now exists c. Qed.

Lemma firstPath_inv (x : nat) (parent : Node) (search : Node -> option (list Node))
  (kids : list Node) (anc : list Node) :
  firstPath x parent search kids = Some anc ->
  exists c,
    In c kids /\
    ((idOf c = x /\ anc = [parent]) \/
     (exists path, search c = Some path /\ anc = path ++ [parent])).
Proof.
  induction kids as [|c kids IH]; [discriminate|].
  cbn [firstPath]. fold (firstPath x parent search).
  destruct (idOf c =? x)%nat eqn:E.
  - intros [= <-]. apply Nat.eqb_eq in E. exists c. split; [now left | now left].
  - destruct (search c) as [path|] eqn:Es.
    + intros [= <-]. exists c. split; [now left | right; now exists path].
    + intros H. destruct (IH H) as [c' [Hin Hc']]. exists c'. split; [now right | exact Hc'].
Qed.

(** The chain ends with the root, and the nodes before it lie below the
    root, as does the node itself. *)
Lemma ancestorsOf_shape (x : nat) (n : Node) (anc : list Node) :
  ancestorsOf x n = Some anc ->
  exists inner,
    anc = inner ++ [n] /\
    In x (strictIds n) /\
    forall a, In a inner -> In (idOf a) (strictIds n).
Proof.
  revert anc. induction n as [p kids IH] using Node_induction. intros anc H.
  cbn [ancestorsOf] in H. apply firstPath_inv in H as [c [Hin [[Hid ->] | [path [Hc ->]]]]].
  - exists []. split; [reflexivity|]. split; [|intros a []].
    apply strictIds_child with (c := c); [exact Hin|].
    rewrite nodeIds_strict. now left.
  - rewrite List.Forall_forall in IH.
    destruct (IH c Hin path Hc) as [inner [-> [Hx Hinner]]].
    exists (inner ++ [c]). split; [now rewrite <- app_assoc|].
    split.
    + apply strictIds_child with (c := c); [exact Hin|].
      rewrite nodeIds_strict. now right.
    + intros a Ha. apply strictIds_child with (c := c); [exact Hin|].
      rewrite nodeIds_strict. apply in_app_or in Ha as [Ha | [<- | []]].
      * right. now apply Hinner.
      * now left.
Qed.

Lemma ancestorsOf_found (x : nat) (n : Node) :
  In x (strictIds n) -> ancestorsOf x n <> None.
Proof.
  induction n as [p kids IH] using Node_induction.
  unfold strictIds. cbn [kidsOf ancestorsOf].
  generalize (MkNode p kids) as parent. intros parent.
  induction IH as [|c kids Hc _ IHkids]; [intros []|].
  cbn [flat_map firstPath]. fold (firstPath x parent (ancestorsOf x)).
  intros Hx. destruct (idOf c =? x)%nat eqn:E; [discriminate|].
  destruct (ancestorsOf x c) eqn:Ec; [discriminate|].
  apply IHkids. apply in_app_or in Hx as [Hx | Hx]; [|exact Hx].
  rewrite nodeIds_strict in Hx. destruct Hx as [Hx | Hx].
  - apply Nat.eqb_neq in E. congruence.
  - now apply Hc in Hx.
Qed.

(** The chain of a node that survives a removal is the pruned chain. *)
Lemma firstPath_pruned (b x : nat) (parent parent' : Node) (kids : list Node)
  (anc' : list Node) :
  List.Forall
    (fun c =>
       forall anc', List.NoDup (nodeIds c) ->
         ancestorsOf x (removeNode b c) = Some anc' ->
         exists anc, ancestorsOf x c = Some anc /\ anc' = List.map (removeNode b) anc)
    kids ->
  List.NoDup (flat_map nodeIds kids) ->
  firstPath x parent' (ancestorsOf x)
    (List.filter (fun c => negb (idOf c =? b)%nat) (List.map (removeNode b) kids))
  = Some anc' ->
  exists anc,
    firstPath x parent (ancestorsOf x) kids = Some anc /\
    ((anc = [parent] /\ anc' = [parent']) \/
     (exists path, anc = path ++ [parent] /\
                   anc' = List.map (removeNode b) path ++ [parent'])).
Proof.
  intros IH. induction IH as [|c kids Hc _ IHkids]; intros Hnd; [discriminate|].
  cbn [flat_map] in Hnd.
  assert (Hndc : List.NoDup (nodeIds c)) by (now apply NoDup_app_remove_r in Hnd).
  assert (Hndr : List.NoDup (flat_map nodeIds kids))
    by (now apply NoDup_app_remove_l in Hnd).
  assert (Hdisj : forall y, In y (nodeIds c) -> ~ In y (flat_map nodeIds kids)).
  { intros y Hy Hy'. rewrite <- NoDup_ListNoDup in Hnd.
    apply NoDup_app in Hnd as [_ [Hnd _]].
    apply (Hnd y); now apply list_elem_of_In. }
  assert (Hskip :
    firstPath x parent' (ancestorsOf x)
      (List.filter (fun c => negb (idOf c =? b)%nat) (List.map (removeNode b) kids))
    = Some anc' ->
    (idOf c =? x)%nat = false /\ ancestorsOf x c = None).
  { intros H. apply firstPath_inv in H as [c' [Hin Hc']].
    apply in_pruned_kids in Hin as [c0 [Hin0 [-> _]]].
    assert (Hx : In x (flat_map nodeIds kids)).
    { apply List.in_flat_map. exists c0. split; [exact Hin0|].
      destruct Hc' as [[Hid _] | [path [Hpath _]]].
      - rewrite idOf_removeNode in Hid. rewrite nodeIds_strict. now left.
      - apply ancestorsOf_shape in Hpath as [_ [_ [Hx _]]].
        apply nodeIds_removeNode with (b := b).
        rewrite nodeIds_strict. now right. }
    split.
    - apply Nat.eqb_neq. intros E. apply (Hdisj x); [|exact Hx].
      rewrite nodeIds_strict. now left.
    - destruct (ancestorsOf x c) as [path|] eqn:E; [|reflexivity].
      apply ancestorsOf_shape in E as [_ [_ [Hxc _]]].
      exfalso. apply (Hdisj x); [|exact Hx]. rewrite nodeIds_strict. now right. }
  cbn [List.map List.filter firstPath]. fold (firstPath x parent (ancestorsOf x)).
  rewrite idOf_removeNode.
  destruct (idOf c =? b)%nat eqn:Eb; cbn [negb].
  - intros H. destruct (Hskip H) as [-> ->]. now apply IHkids.
  - cbn [firstPath]. fold (firstPath x parent' (ancestorsOf x)).
    rewrite idOf_removeNode.
    destruct (idOf c =? x)%nat eqn:Ex.
    + intros [= <-]. exists [parent]. split; [reflexivity | now left].
    + destruct (ancestorsOf x (removeNode b c)) as [path'|] eqn:Ec'.
      * intros [= <-]. destruct (Hc path' Hndc eq_refl) as [path [Hpath ->]].
        rewrite Hpath. exists (path ++ [parent]). split; [reflexivity|].
        right. now exists path.
      * intros H. destruct (Hskip H) as [_ ->]. now apply IHkids.
Qed.

Lemma ancestorsOf_pruned (b x : nat) (n : Node) (anc' : list Node) :
  List.NoDup (nodeIds n) ->
  ancestorsOf x (removeNode b n) = Some anc' ->
  exists anc, ancestorsOf x n = Some anc /\ anc' = List.map (removeNode b) anc.
Proof.
  revert anc'. induction n as [p kids IH] using Node_induction. intros anc' Hnd H.
  cbn [nodeIds] in Hnd. apply List.NoDup_cons_iff in Hnd as [_ Hnd].
  pose proof (firstPath_pruned b x (MkNode p kids) (removeNode b (MkNode p kids))
                kids anc' IH Hnd H) as [anc [Hanc Hshape]].
  exists anc. split; [exact Hanc|].
  destruct Hshape as [[-> ->] | [path [-> ->]]]; [reflexivity|].
  now rewrite List.map_app.
Qed.

(** ** Removal never makes an ancestor look like a diagram *)

Lemma firstMatch_inv (sel : NodeProps -> bool) (search : Node -> option Node)
  (kids : list Node) :
  firstMatch sel search kids <> None ->
  exists c, In c kids /\ (sel (propsOf c) = true \/ search c <> None).
Proof.
  induction kids as [|c kids IH]; [intros H; now destruct H|].
  cbn [firstMatch]. fold (firstMatch sel search).
  destruct (sel (propsOf c)) eqn:E.
  - intros _. exists c. split; [now left | now left].
  - destruct (search c) eqn:Es.
    + intros _. exists c. split; [now left | right; congruence].
    + intros H. destruct (IH H) as [c' [Hin Hc']]. exists c'. split; [now right | exact Hc'].
Qed.

Lemma firstMatch_exists (sel : NodeProps -> bool) (search : Node -> option Node)
  (kids : list Node) (c : Node) :
  In c kids -> sel (propsOf c) = true \/ search c <> None ->
  firstMatch sel search kids <> None.
Proof.
  induction kids as [|k kids IH]; intros Hin Hc; [destruct Hin|].
  cbn [firstMatch]. fold (firstMatch sel search).
  destruct (sel (propsOf k)) eqn:Ek; [discriminate|].
  destruct (search k) eqn:Es; [discriminate|].
  destruct Hin as [-> | Hin]; [|now apply IH].
  destruct Hc as [Hc | Hc]; congruence.
Qed.

Lemma querySelector_pruned (sel : NodeProps -> bool) (b : nat) (n : Node) :
  querySelector sel (removeNode b n) <> None -> querySelector sel n <> None.
Proof.
  induction n as [p kids IH] using Node_induction.
  cbn [removeNode querySelector]. intros H.
  apply firstMatch_inv in H as [c' [Hin Hc']].
  apply in_pruned_kids in Hin as [c [Hin [-> _]]].
  apply firstMatch_exists with (c := c); [exact Hin|].
  rewrite propsOf_removeNode in Hc'. destruct Hc' as [Hc' | Hc']; [now left | right].
  rewrite List.Forall_forall in IH. now apply IH.
Qed.

Lemma hasMermaidSvg_pruned (under : bool) (b : nat) (n : Node) :
  hasMermaidSvg under (removeNode b n) = true -> hasMermaidSvg under n = true.
Proof.
  revert under. induction n as [p kids IH] using Node_induction. intros under.
  cbn [removeNode hasMermaidSvg]. rewrite !List.existsb_exists.
  intros [c' [Hin Hc']]. apply in_pruned_kids in Hin as [c [Hin [-> _]]].
  exists c. split; [exact Hin|].
  rewrite propsOf_removeNode in Hc'.
  apply orb_true_iff in Hc' as [Hc' | Hc']; apply orb_true_iff; [now left | right].
  rewrite List.Forall_forall in IH. now apply IH.
Qed.

Lemma looksLikeDiagram_pruned (under : bool) (b : nat) (n : Node) :
  looksLikeDiagram under (removeNode b n) = true -> looksLikeDiagram under n = true.
Proof.
  unfold looksLikeDiagram. rewrite propsOf_removeNode.
  rewrite !orb_true_iff. intros [[H | H] | H].
  - now left; left.
  - left; right.
    destruct (querySelector isMermaidCode n) eqn:E; [reflexivity|].
    exfalso. apply (querySelector_pruned isMermaidCode b n); [|exact E].
    destruct (querySelector isMermaidCode (removeNode b n)); [discriminate|discriminate].
  - right. now apply hasMermaidSvg_pruned in H.
Qed.

Lemma underMermaid_pruned (b : nat) (ancestors : list Node) :
  underMermaid (List.map (removeNode b) ancestors) = underMermaid ancestors.
Proof.
  unfold underMermaid. induction ancestors as [|a rest IH]; [reflexivity|].
  cbn [List.map existsb]. now rewrite propsOf_removeNode, IH.
Qed.

(** If the pruned chain has an associated element before its last
    node, the chain has one too, before its last node. *)
Lemma findAssociatedWithin_pruned (b : nat) (last : Node) (inner : list Node)
  (steps : nat) (element' : Node) :
  findAssociatedWithin steps (List.map (removeNode b) (inner ++ [last])) = Some element' ->
  idOf element' <> idOf last ->
  exists element,
    findAssociatedWithin steps (inner ++ [last]) = Some element /\ In element inner.
Proof.
  revert steps. induction inner as [|a inner IH]; intros [|k]; try discriminate.
  - cbn [app List.map findAssociatedWithin].
    assert (Hnil : findAssociatedWithin k [] = None) by (now destruct k).
    rewrite Hnil.
    destruct (looksLikeDiagram (underMermaid []) (removeNode b last));
      [|discriminate].
    intros H Hid. injection H as <-. now rewrite idOf_removeNode in Hid.
  - change ((a :: inner) ++ [last]) with (a :: (inner ++ [last])).
    cbn [List.map findAssociatedWithin]. rewrite underMermaid_pruned.
    destruct (looksLikeDiagram (underMermaid (inner ++ [last])) a) eqn:E.
    + intros _ _. exists a. split; [reflexivity | now left].
    + destruct (looksLikeDiagram (underMermaid (inner ++ [last])) (removeNode b a)) eqn:E'.
      * apply looksLikeDiagram_pruned in E'. congruence.
      * intros H Hid. destruct (IH k H Hid) as [element [Hfind Hin]].
        exists element. split; [exact Hfind | now right].
Qed.

(** ** The cleanup pass *)

Lemma documentRoot_removeFromBody (d : Document) (b : nat) :
  idOf (body d) <> b ->
  documentRoot (removeFromBody d b) = removeNode b (documentRoot d).
Proof.
  intros H. unfold documentRoot, removeFromBody. cbn [removeNode List.map List.filter body html].
  rewrite idOf_removeNode. apply Nat.eqb_neq in H. now rewrite H.
Qed.

Lemma wellFormed_body (d : Document) :
  wellFormed d -> List.NoDup (nodeIds (body d)) /\ ~ In (nodeId (html d)) (nodeIds (body d)).
Proof.
  unfold wellFormed, documentRoot. cbn [nodeIds flat_map]. rewrite app_nil_r.
  intros H. apply List.NoDup_cons_iff in H. tauto.
Qed.

Lemma wellFormed_removeFromBody (d : Document) (b : nat) :
  wellFormed d -> wellFormed (removeFromBody d b).
Proof.
  intros H. destruct (wellFormed_body d H) as [Hbody Hhtml].
  unfold wellFormed, documentRoot, removeFromBody. cbn [nodeIds flat_map body html].
  rewrite app_nil_r. apply List.NoDup_cons.
  - intros Hin. apply Hhtml. now apply nodeIds_removeNode in Hin.
  - now apply NoDup_removeNode.
Qed.

Lemma strictIds_documentRoot (d : Document) :
  strictIds (documentRoot d) = nodeIds (body d).
Proof. unfold strictIds, documentRoot. cbn [kidsOf flat_map]. apply app_nil_r. Qed.

(** A control with a live association after a removal had one before. *)
Lemma associationLive_removed (d : Document) (b x : nat) :
  wellFormed d ->
  idOf (body d) <> b ->
  associationLive (removeFromBody d b) x = true ->
  associationLive d x = true.
Proof.
  intros Hwf Hb. unfold associationLive.
  rewrite documentRoot_removeFromBody by exact Hb.
  destruct (ancestorsOf x (removeNode b (documentRoot d))) as [anc'|] eqn:Hanc';
    [|discriminate].
  apply ancestorsOf_pruned in Hanc' as [anc [Hanc ->]]; [|exact Hwf].
  rewrite Hanc.
  destruct (ancestorsOf_shape _ _ _ Hanc) as [inner [-> [_ Hinner]]].
  unfold findAssociatedMermaidElement.
  destruct (findAssociatedWithin 10 (List.map (removeNode b) (inner ++ [documentRoot d])))
    as [element'|] eqn:Hfind'; [|discriminate].
  intros Hlive.
  assert (Hid : idOf element' <> idOf (documentRoot d)).
  { intros E. unfold bodyContains in Hlive. apply contains_nodeIds in Hlive.
    apply nodeIds_removeNode in Hlive. rewrite E in Hlive.
    now apply (proj2 (wellFormed_body d Hwf)). }
  destruct (findAssociatedWithin_pruned _ _ _ _ _ Hfind' Hid) as [element [Hfind Hin]].
  rewrite Hfind. unfold bodyContains. apply contains_nodeIds.
  rewrite <- strictIds_documentRoot. now apply Hinner.
Qed.

Lemma prunedFrom_refl (d : Document) : wellFormed d -> prunedFrom d d.
Proof. intros H. repeat split; auto. Qed.

Lemma cleanupButton_cases (d : Document) (b : nat) :
  cleanupButton d b = d \/
  (cleanupButton d b = removeFromBody d b /\
   associationLive d b = false /\ In b (nodeIds (body d))).
Proof.
  unfold cleanupButton.
  destruct (ancestorsOf b (documentRoot d)) as [anc|] eqn:Hanc; [|now left].
  destruct (associationLive d b) eqn:Hlive; [now left | right].
  repeat split. apply ancestorsOf_shape in Hanc as [_ [_ [Hin _]]].
  now rewrite strictIds_documentRoot in Hin.
Qed.

Lemma cleanupButton_prunedFrom (pre cur : Document) (b : nat) :
  prunedFrom pre cur -> b <> idOf (body pre) ->
  prunedFrom pre (cleanupButton cur b).
Proof.
  intros [Hwf [Hid [Hlive Hin]]] Hb.
  destruct (cleanupButton_cases cur b) as [-> | [-> _]]; [repeat split; auto|].
  split; [now apply wellFormed_removeFromBody|].
  split; [cbn [removeFromBody body]; now rewrite idOf_removeNode|].
  split.
  - intros x Hx. apply Hlive. apply associationLive_removed with (b := b); auto.
    congruence.
  - intros x Hx. apply Hin. unfold bodyContains, removeFromBody in *. cbn [body] in Hx.
    now apply contains_removeNode in Hx.
Qed.

Lemma bodyContains_cleanupButton (d : Document) (b x : nat) :
  bodyContains (cleanupButton d b) x = true -> bodyContains d x = true.
Proof.
  destruct (cleanupButton_cases d b) as [-> | [-> _]]; [auto|].
  unfold bodyContains, removeFromBody. cbn [body]. apply contains_removeNode.
Qed.

Lemma bodyContains_cleanup_fold (buttons : list nat) (d : Document) (x : nat) :
  bodyContains (fold_left cleanupButton buttons d) x = true -> bodyContains d x = true.
Proof.
  revert d. induction buttons as [|b rest IH]; intros d; [auto|].
  cbn [fold_left]. intros H. apply IH in H. now apply bodyContains_cleanupButton in H.
Qed.

Lemma cleanup_fold_removes (pre : Document) (buttons : list nat) (cur : Document)
  (button : nat) :
  prunedFrom pre cur ->
  (forall b, In b buttons -> b <> idOf (body pre)) ->
  button <> idOf (body pre) ->
  associationLive pre button = false ->
  In button buttons \/ bodyContains cur button = false ->
  bodyContains (fold_left cleanupButton buttons cur) button = false.
Proof.
  revert cur. induction buttons as [|b rest IH]; intros cur Hinv Hbs Hbutton Hdead Hcase.
  - destruct Hcase as [[] | H]. exact H.
  - cbn [fold_left]. apply IH.
    + apply cleanupButton_prunedFrom; [exact Hinv | apply Hbs; now left].
    + intros b' Hb'. apply Hbs. now right.
    + exact Hbutton.
    + exact Hdead.
    + destruct (Nat.eq_dec b button) as [-> | Hne].
      * right. destruct Hinv as [Hwf [Hid [Hlive _]]].
        unfold cleanupButton.
        destruct (ancestorsOf button (documentRoot cur)) as [anc|] eqn:Hanc.
        -- destruct (associationLive cur button) eqn:Hl.
           ++ apply Hlive in Hl. congruence.
           ++ unfold bodyContains, removeFromBody. cbn [body].
              apply not_true_iff_false. rewrite contains_nodeIds.
              apply removeNode_gone. congruence.
        -- apply not_true_iff_false. intros Hin.
           unfold bodyContains in Hin. apply contains_nodeIds in Hin.
           rewrite <- strictIds_documentRoot in Hin.
           now apply ancestorsOf_found in Hin.
      * destruct Hcase as [[Heq | Hin] | Hgone]; [congruence | now left | right].
        apply not_true_iff_false. intros H.
        apply bodyContains_cleanupButton in H. congruence.
Qed.

(** The export controls are below the body. *)
Lemma allMatches_ids (sel : NodeProps -> bool) (kids : list Node) (m : Node) :
  List.Forall (fun c => forall m, In m (querySelectorAll sel c) -> In (idOf m) (strictIds c))
    kids ->
  In m (allMatches sel (querySelectorAll sel) kids) ->
  In (idOf m) (flat_map nodeIds kids).
Proof.
  induction 1 as [|c kids Hc _ IH]; [intros []|].
  cbn [allMatches flat_map]. fold (allMatches sel (querySelectorAll sel)).
  intros H. apply in_or_app. rewrite nodeIds_strict.
  apply in_app_or in H as [H | H].
  - left. destruct (sel (propsOf c)); [|destruct H].
    destruct H as [<- | []]. now left.
  - apply in_app_or in H as [H | H]; [left; right; now apply Hc | right; now apply IH].
Qed.

Lemma querySelectorAll_ids (sel : NodeProps -> bool) (n m : Node) :
  In m (querySelectorAll sel n) -> In (idOf m) (strictIds n).
Proof.
  revert m. induction n as [p kids IH] using Node_induction. intros m.
  cbn [querySelectorAll]. unfold strictIds. cbn [kidsOf]. now apply allMatches_ids.
Qed.

(** ** The registry *)

Lemma registry_fold (toRemove : list nat) (registry : gset nat) (x : nat) :
  x ∈ fold_left (fun registry element => registry ∖ {[element]}) toRemove registry
  <-> x ∈ registry /\ ~ In x toRemove.
Proof.
  revert registry. induction toRemove as [|e rest IH]; intros registry; cbn [fold_left In].
  - tauto.
  - rewrite IH. set_solver.
Qed.

(** A node outside the removed subtrees stays. *)
Lemma contains_removeNode_outside (b : nat) (n : Node) (x : nat) :
  contains n x = true -> insideOf b n x = false ->
  contains (removeNode b n) x = true.
Proof.
  induction n as [p kids IH] using Node_induction.
  cbn [contains insideOf removeNode]. intros Hin Hout.
  apply orb_true_iff in Hin as [Hroot | Hin]; [now rewrite Hroot|].
  apply orb_true_iff. right.
  apply List.existsb_exists in Hin as [c [Hc Hx]].
  assert (Hc' : ((idOf c =? b)%nat && contains c x) || insideOf b c x = false).
  { apply not_true_iff_false. intros E. apply not_true_iff_false in Hout. apply Hout.
    apply List.existsb_exists. now exists c. }
  apply orb_false_iff in Hc' as [Hid Hbelow].
  rewrite Hx, andb_true_r in Hid.
  apply List.existsb_exists. exists (removeNode b c). split.
  - apply filter_In. split; [now apply in_map|].
    now rewrite idOf_removeNode, Hid.
  - rewrite List.Forall_forall in IH. now apply IH.
Qed.

Lemma insideOf_removeNode (b b' : nat) (n : Node) (x : nat) :
  insideOf b (removeNode b' n) x = true -> insideOf b n x = true.
Proof.
  induction n as [p kids IH] using Node_induction.
  cbn [insideOf removeNode]. intros H.
  apply List.existsb_exists in H as [c' [Hc' H]].
  apply in_pruned_kids in Hc' as [c [Hc [-> _]]].
  apply List.existsb_exists. exists c. split; [exact Hc|].
  apply orb_true_iff in H as [H | H]; apply orb_true_iff.
  - left. apply andb_true_iff in H as [Hid Hx]. rewrite idOf_removeNode in Hid.
    rewrite Hid. now apply contains_removeNode in Hx.
  - right. rewrite List.Forall_forall in IH. now apply IH.
Qed.

Lemma cleanup_fold_keeps (buttons : list nat) (cur : Document) (x : nat) :
  bodyContains cur x = true ->
  (forall b, In b buttons -> insideOf b (body cur) x = false) ->
  bodyContains (fold_left cleanupButton buttons cur) x = true.
Proof.
  revert cur. induction buttons as [|b rest IH]; intros cur Hin Hout; [exact Hin|].
  cbn [fold_left].
  destruct (cleanupButton_cases cur b) as [-> | [-> _]].
  - apply IH; [exact Hin | intros b' Hb'; apply Hout; now right].
  - apply IH.
    + unfold bodyContains, removeFromBody. cbn [body].
      apply contains_removeNode_outside; [exact Hin | apply Hout; now left].
    + intros b' Hb'. cbn [removeFromBody body].
      apply not_true_iff_false. intros E. apply insideOf_removeNode in E.
      rewrite Hout in E by now right. discriminate.
Qed.

(** The registry after a pass: the registered nodes the body held. *)
Lemma cleanupRemovedDiagrams_registry (st : PluginState) (element : nat) :
  element ∈ processedDiagrams (cleanupRemovedDiagrams st) <->
  element ∈ processedDiagrams st /\ bodyContains (document st) element = true.
Proof.
  unfold cleanupRemovedDiagrams. cbn [processedDiagrams].
  rewrite registry_fold, filter_In, <- list_elem_of_In, elem_of_elements.
  destruct (bodyContains (document st) element); simpl; intuition congruence.
Qed.

Lemma sampleWellFormed : wellFormed (document sampleState).
Proof.
  unfold wellFormed. cbn.
  repeat (apply List.NoDup_cons; [cbn; intuition lia|]). apply List.NoDup_nil.
Qed.

(** C8, as stated, fails: the registry is pruned before the orphaned
    controls are removed, so a registered node that is an orphaned
    export control (or lies inside one) is still registered after the
    pass that detached it. *)
Lemma registered_control_outlives_cleanup :
  wellFormed (document sampleControlRegistered)
  /\ 6%nat ∈ processedDiagrams (cleanupRemovedDiagrams sampleControlRegistered)
  /\ contains (documentRoot (document (cleanupRemovedDiagrams sampleControlRegistered))) 6
     = false.
Proof.
  split; [exact sampleWellFormed|]. split.
  - apply cleanupRemovedDiagrams_registry. split; [set_solver | reflexivity].
  - reflexivity.
Qed.

(** C8, amended.  A cleanup pass leaves in the registry exactly the
    registered nodes that the document body contains when the pass
    starts; every export control of a well-formed document whose
    associated element (as [findAssociatedMermaidElement] finds it) is
    missing or outside the body is gone from the document afterwards.
    After the pass the registry holds only nodes of the body as the pass
    leaves it, except for registered nodes that are an export control
    or lie inside one: every registered node outside the export
    controls is in the body after the pass.  The pass adds no node. *)
Theorem cleanup_prunes_registry_and_controls (st : PluginState) :
  let st' := cleanupRemovedDiagrams st in
  (forall element,
     element ∈ processedDiagrams st' <->
     element ∈ processedDiagrams st /\ bodyContains (document st) element = true)
  /\ (wellFormed (document st) ->
      forall button,
        In button (querySelectorAll isExportButton (body (document st))) ->
        associationLive (document st) (idOf button) = false ->
        bodyContains (document st') (idOf button) = false)
  /\ (forall element,
        element ∈ processedDiagrams st' ->
        insideControl (document st) element = false ->
        bodyContains (document st') element = true)
  /\ (forall node,
        bodyContains (document st') node = true -> bodyContains (document st) node = true).
Proof.
  intros st'. subst st'.
  split; [intros element; apply cleanupRemovedDiagrams_registry|].
  split; [|split].
  - unfold cleanupRemovedDiagrams. cbn [document].
    intros Hwf button Hin Hdead.
    assert (Hbelow : forall m,
      In m (querySelectorAll isExportButton (body (document st))) ->
      idOf m <> idOf (body (document st))).
    { intros m Hm E. apply querySelectorAll_ids in Hm.
      destruct (wellFormed_body _ Hwf) as [Hnd _].
      rewrite nodeIds_strict in Hnd. apply List.NoDup_cons_iff in Hnd as [Hnd _].
      apply Hnd. now rewrite <- E. }
    apply cleanup_fold_removes with (pre := document st).
    + now apply prunedFrom_refl.
    + intros b Hb. apply in_map_iff in Hb as [m [<- Hm]]. now apply Hbelow.
    + now apply Hbelow.
    + exact Hdead.
    + left. now apply in_map.
  - intros element Hreg Houtside.
    apply cleanupRemovedDiagrams_registry in Hreg as [_ Hbody].
    unfold cleanupRemovedDiagrams. cbn [document].
    apply cleanup_fold_keeps; [exact Hbody|].
    intros b Hb. apply in_map_iff in Hb as [button [<- Hbutton]].
    unfold insideControl in Houtside.
    apply not_true_iff_false. intros E. apply not_true_iff_false in Houtside.
    apply Houtside. apply List.existsb_exists. now exists button.
  - intros node. unfold cleanupRemovedDiagrams. cbn [document].
    apply bodyContains_cleanup_fold.
Qed.

Lemma cleanup_prunes_registry_and_controls_witness :
  bodyContains (document (cleanupRemovedDiagrams sampleState)) 6 = false
  /\ bodyContains (document (cleanupRemovedDiagrams sampleState)) 5 = true
  /\ (5%nat ∈ processedDiagrams (cleanupRemovedDiagrams sampleState))
  /\ (3%nat ∉ processedDiagrams (cleanupRemovedDiagrams sampleState)).
Proof.
  pose proof (cleanup_prunes_registry_and_controls sampleState)
    as [Hreg [Hbtn [Hkept _]]].
  assert (H5 : 5%nat ∈ processedDiagrams (cleanupRemovedDiagrams sampleState)).
  { apply Hreg. split; [set_solver | reflexivity]. }
  split; [|split; [|split]].
  - apply (Hbtn sampleWellFormed sampleOrphan); [now left | reflexivity].
  - apply Hkept; [exact H5 | reflexivity].
  - exact H5.
  - intros H. apply Hreg in H as [_ H]. discriminate.
Defined.

(** ** More on the extractor *)

(** X1.  Whatever strategy recovers it, the text the extractor returns
    is not empty and is already trimmed. *)
Theorem extracted_text_is_trimmed (ctx : ExtractContext) (trace : Trace) (code : string) :
  fst (extractMermaidCode ctx trace) = Returned (Some code) ->
  code <> EmptyString /\ trim code = code.
Proof.
  intros H. apply extractMermaidCode_value in H. split.
  - apply truthy_true_iff. now apply extractedCode_truthy in H.
  - apply extractedCode_source in H as [[_ [raw ->]] | [_ H]];
      [apply trim_idempotent|].
    unfold unvalidatedSource in H.
    destruct H as [[el [_ ->]] | [[_ [d [_ ->]]] | [[_ ->] | [c [el [_ [_ ->]]]]]]];
      apply trim_idempotent.
Qed.

Lemma extracted_text_is_trimmed_witness :
  "graph TD" <> EmptyString /\ trim "graph TD" = "graph TD".
Proof.
  apply (extracted_text_is_trimmed (taggedContext "  graph TD ") []). reflexivity.
Defined.

(** X2.  A tagged code element inside the diagram node wins over every
    other source: when its text is not blank, the extractor returns it
    trimmed, validated or not, and logs nothing. *)
Theorem tagged_code_element_wins (ctx : ExtractContext) (el : ElementText)
  (trace : Trace) :
  nestedCode ctx = Some el ->
  trim (codeOf el) <> EmptyString ->
  extractMermaidCode ctx trace = (Returned (Some (trim (codeOf el))), trace).
Proof.
  intros Hel Hne.
  assert (Hnb : nonBlank (codeOf el) = Some (trim (codeOf el))).
  { unfold nonBlank. destruct (codeOf el) as [|c r] eqn:E; [now destruct Hne|].
    rewrite <- E in *. destruct (trim (codeOf el)); [now destruct Hne|].
    rewrite E. reflexivity. }
  assert (Hdirect : strategies1to5 ctx = Some (trim (codeOf el))).
  { unfold strategies1to5, strategy1, strategy2. rewrite Hel, Hnb.
    now destruct (isPreviewBlock ctx). }
  unfold extractMermaidCode. now rewrite Hdirect.
Qed.

Lemma tagged_code_element_wins_witness :
  extractMermaidCode (taggedContext " not a diagram ") []
  = (Returned (Some "not a diagram"), []).
Proof.
  apply (tagged_code_element_wins (taggedContext " not a diagram ")
           {| textContent := " not a diagram "; innerText := " not a diagram " |});
    [reflexivity | discriminate].
Defined.

(** X3.  A text the validator rejects can only have been read from the
    node's own tagged code element, from a data attribute of a preview
    block, from the node's own text or from the code element of the
    rendered vector's container; the editor-wide and document-wide
    searches, the raw-block strategy and the editor API only return
    validated text. *)
Theorem rejected_text_comes_from_direct_sources (ctx : ExtractContext) (trace : Trace)
  (code : string) :
  fst (extractMermaidCode ctx trace) = Returned (Some code) ->
  validateMermaidCode code = false ->
  unvalidatedSource ctx code.
Proof.
  intros H Hinvalid. apply extractMermaidCode_value in H.
  apply extractedCode_source in H as [[Hvalid _] | [_ H]];
    [congruence | exact H].
Qed.

Lemma rejected_text_comes_from_direct_sources_witness :
  unvalidatedSource (taggedContext "not a diagram") "not a diagram".
Proof.
  apply (rejected_text_comes_from_direct_sources (taggedContext "not a diagram") []);
    reflexivity.
Defined.

(** ** More on the pipeline *)

(** The runs of the render orchestrator, by what the engine does. *)
Lemma renderMermaidToSvg_cases (host : Host) (code : string) (trace : Trace) :
  let engine := mermaidRender host (trace ++ [StagingAttached; RenderInvoked code]) code in
  renderMermaidToSvg host code trace
  = match engine with
    | Returned (Some svg) =>
        if isBlankMarkup svg
        then (Returned None,
              renderErrorLogged (renderFailure engine) (renderTrace code trace))
        else (Returned (Some svg), renderTrace code trace)
    | _ => (Returned None,
            renderErrorLogged (renderFailure engine) (renderTrace code trace))
    end.
Proof.
  intros engine. subst engine.
  unfold renderMermaidToSvg, renderErrorLogged, renderFailure, renderTrace.
  cbv beta iota delta [tryCatch bind emit call ret throw].
  rewrite <- !app_assoc. cbn [app].
  destruct (mermaidRender host (trace ++ [StagingAttached; RenderInvoked code]) code)
    as [[svg|]|error]; rewrite <- ?app_assoc; cbn [app]; try reflexivity.
  - destruct (isBlankMarkup svg); rewrite <- ?app_assoc; reflexivity.
  - destruct error; rewrite <- ?app_assoc; reflexivity.
Qed.

(** X4.  The render orchestrator never throws and always takes its
    staging container down again: whatever the engine does, the trace
    grows by attach, render call, remove.  Markup is returned exactly
    when the engine returned that markup and it is not blank; exactly
    when null is returned, the console error follows, and after it the
    error details when the caught value is an [Error]: the engine's, or
    the orchestrator's own [Rendered SVG is empty]. *)
Theorem render_always_removes_staging (host : Host) (code : string) (trace : Trace) :
  let engine := mermaidRender host (trace ++ [StagingAttached; RenderInvoked code]) code in
  let result := renderMermaidToSvg host code trace in
  (exists svg, fst result = Returned svg)
  /\ (forall svg,
        fst result = Returned (Some svg) <->
        engine = Returned (Some svg) /\ isBlankMarkup svg = false)
  /\ (fst result <> Returned None -> snd result = renderTrace code trace)
  /\ (fst result = Returned None ->
      snd result
      = renderTrace code trace ++
        ConsoleError "Mermaid Exporter: Rendering error:"
        :: match engine with
           | Threw OtherValue => []
           | _ => [ConsoleError "Error details:"]
           end).
Proof.
  intros engine result. subst result. rewrite renderMermaidToSvg_cases.
  fold engine. unfold renderErrorLogged, renderFailure.
  destruct engine as [[svg|]|error].
  - destruct (isBlankMarkup svg) eqn:Hblank; cbn [fst snd].
    + split; [now eexists|]. split; [|split; [congruence | reflexivity]].
      intros svg'. split; [discriminate|]. intros [[= <-] H]. congruence.
    + split; [now eexists|]. split; [|split; [reflexivity | discriminate]].
      intros svg'. split; [intros [= <-]; now split | now intros [[= <-] _]].
  - cbn [fst snd]. split; [now eexists|]. split; [|split; [congruence | reflexivity]].
    intros svg'. split; [discriminate | now intros [H _]].
  - cbn [fst snd]. split; [now eexists|].
    split; [|split; [congruence | now destruct error]].
    intros svg'. split; [discriminate | now intros [H _]].
Qed.

Lemma render_always_removes_staging_witness :
  snd (renderMermaidToSvg (sampleHost true true) "graph TD" [])
  = renderTrace "graph TD" [].
Proof.
  apply (render_always_removes_staging (sampleHost true true) "graph TD" []).
  vm_compute. discriminate.
Defined.

Ltac not_outcome :=
  let H := fresh in
  intros H; unfold outcomeNotice, extractionNotice, validationNotice, renderNotice,
    successNotice, failureNotice, vaultWarning in H;
  solve [ repeat (destruct H as [H | H]; [try discriminate H|]);
          repeat match goal with
                 | H : exists _, _ |- _ => destruct H as [? H]
                 end;
          discriminate ].

Lemma persistEvent_not_outcome (filename : string) (blob : Blob) (e : Event) :
  persistEvent filename blob e -> ~ outcomeNotice e.
Proof.
  destruct e; cbn [persistEvent]; intros He; try contradiction;
    try rewrite He; not_outcome.
Qed.

Lemma deliver_not_outcome (host : Host) (settings : MermaidExporterSettings)
  (svg : Markup) (filename : string) :
  emitsOnly (fun e => ~ outcomeNotice e) (deliver host settings svg filename).
Proof.
  assert (Hdownload : forall content filename mimeType,
    emitsOnly (fun e => ~ outcomeNotice e)
      (downloadFile host settings content filename mimeType)).
  { intros. eapply emitsOnly_weaken; [|apply downloadFile_emits].
    apply persistEvent_not_outcome. }
  unfold deliver. repeat emits_step; try apply Hdownload.
  unfold convertSvgToRaster. destruct (rasterSize settings svg) as [width height].
  repeat emits_step; try apply Hdownload; not_outcome.
Qed.

Lemma extractMermaidCode_not_outcome (ctx : ExtractContext) :
  emitsOnly (fun e => ~ outcomeNotice e) (extractMermaidCode ctx).
Proof.
  unfold extractMermaidCode, strategy6. repeat emits_step; try not_outcome.
  destruct (editorApi ctx); repeat emits_step.
Qed.

Lemma renderMermaidToSvg_not_outcome (host : Host) (code : string) :
  emitsOnly (fun e => ~ outcomeNotice e) (renderMermaidToSvg host code).
Proof. unfold renderMermaidToSvg. repeat emits_step; not_outcome. Qed.

Lemma generateHighQualitySvg_not_outcome (settings : MermaidExporterSettings)
  (svg : Markup) :
  emitsOnly (fun e => ~ outcomeNotice e) (generateHighQualitySvg settings svg).
Proof. unfold generateHighQualitySvg. repeat emits_step. not_outcome. Qed.

(** ** One outcome per export *)

Lemma oneOutcome_bind {A : Type} (m : M A) (k : A -> M unit) :
  emitsOnly (fun e => ~ outcomeNotice e) m ->
  (forall a, oneOutcome (k a)) ->
  oneOutcome (bind m k).
Proof.
  intros Hm Hk trace. unfold bind.
  destruct (Hm trace) as [added [Heq Hall]].
  destruct (m trace) as [[a|error] middle]; cbn [snd] in Heq; subst middle.
  - destruct (Hk a (trace ++ added)) as [before [Hbefore Hrun]].
    exists (added ++ before). split; [now apply Forall_app|].
    destruct (k a (trace ++ added)) as [[[]|error] final].
    + destruct Hrun as [outcome [after [-> [Hout Hafter]]]].
      exists outcome, after. now rewrite <- !app_assoc.
    + subst final. now rewrite <- app_assoc.
  - exists added. split; [exact Hall | reflexivity].
Qed.

Lemma oneOutcome_report (notice : Event) (message : string) :
  outcomeNotice notice ->
  oneOutcome (emit NoticeHidden ;; emit notice ;; emit (ConsoleError message)).
Proof.
  intros Hnotice trace. exists [NoticeHidden].
  split; [repeat constructor; not_outcome|].
  cbv beta iota delta [bind emit].
  exists notice, [ConsoleError message]. rewrite <- !app_assoc.
  split; [reflexivity|]. split; [exact Hnotice|]. repeat constructor. not_outcome.
Qed.

Lemma oneOutcome_success (filename : string) : oneOutcome (reportSuccess filename).
Proof.
  intros trace. exists [NoticeHidden].
  split; [repeat constructor; not_outcome|].
  unfold reportSuccess. cbv beta iota delta [bind emit].
  exists (successNotice filename),
    [ConsoleLog "Mermaid Exporter: Successfully exported diagram:"].
  rewrite <- !app_assoc. split; [reflexivity|].
  split; [unfold outcomeNotice; right; right; right; left; eauto|].
  repeat constructor. not_outcome.
Qed.

(** X5.  An export never throws, and it reports its end exactly once:
    among the events it appends there is one outcome notice (extraction,
    validation or render failure, success, or export failure) and no
    other. *)
Theorem export_reports_one_outcome (host : Host) (settings : MermaidExporterSettings)
  (ctx : ExtractContext) (activeFile : option string) (now : Clock) (trace : Trace) :
  fst (handleExportClick host settings ctx activeFile now trace) = Returned tt
  /\ exists before outcome after,
       snd (handleExportClick host settings ctx activeFile now trace)
       = trace ++ before ++ outcome :: after
       /\ outcomeNotice outcome
       /\ Forall (fun e => ~ outcomeNotice e) before
       /\ Forall (fun e => ~ outcomeNotice e) after.
Proof.
  split.
  { unfold handleExportClick, tryCatch.
    match goal with |- fst (match ?m with _ => _ end) = _ =>
      destruct m as [[[]|error] t] end; reflexivity. }
  assert (Hextraction : oneOutcome reportExtractionFailure).
  { apply oneOutcome_report. unfold outcomeNotice. tauto. }
  assert (Hrender : oneOutcome reportRenderFailure).
  { apply oneOutcome_report. unfold outcomeNotice. tauto. }
  assert (Hbody : oneOutcome
    (emit (NoticeShown "Exporting Mermaid diagram..." 0) ;;
     let* extracted := extractMermaidCode ctx in
     match extracted with
     | Some mermaidCode =>
         if negb (truthy mermaidCode) then reportExtractionFailure
         else if negb (validateMermaidCode mermaidCode) then reportValidationFailure
         else renderAndDeliver host settings mermaidCode activeFile now
     | None => reportExtractionFailure
     end)).
  { apply oneOutcome_bind; [apply emitsOnly_emit; not_outcome | intros _].
    apply oneOutcome_bind; [apply extractMermaidCode_not_outcome|].
    intros [code|]; [|exact Hextraction].
    destruct (negb (truthy code)); [exact Hextraction|].
    destruct (negb (validateMermaidCode code));
      [apply oneOutcome_report; unfold outcomeNotice; tauto|].
    unfold renderAndDeliver.
    apply oneOutcome_bind; [apply renderMermaidToSvg_not_outcome|].
    intros [svg|]; [|exact Hrender].
    destruct (markupTruthy svg); [|exact Hrender].
    apply oneOutcome_bind; [apply generateHighQualitySvg_not_outcome|].
    intros highQualitySvg.
    apply oneOutcome_bind; [apply deliver_not_outcome | intros _].
    apply oneOutcome_success. }
  unfold handleExportClick, tryCatch.
  destruct (Hbody trace) as [before [Hbefore Hrun]].
  match type of Hrun with match ?m with _ => _ end =>
    destruct m as [[[]|error] final] end.
  - destruct Hrun as [outcome [after [-> [Hout Hafter]]]].
    exists before, outcome, after. cbn [snd]. auto.
  - subst final. exists before, (failureNotice error),
      [ConsoleError "Mermaid Exporter: Export error:"].
    cbv beta iota delta [bind emit]. cbn [snd]. rewrite <- !app_assoc.
    split; [reflexivity|].
    split; [unfold outcomeNotice; right; right; right; right; eauto|].
    split; [exact Hbefore|]. repeat constructor. not_outcome.
Qed.

(** X6.  Without a destination folder (empty or blank setting) the
    persister does not touch the vault: it goes straight to the browser
    download, and fails only if that download fails. *)
Theorem no_folder_downloads_directly (host : Host) (settings : MermaidExporterSettings)
  (content : Markup + Blob) (filename : string) (mimeType : option string)
  (trace : Trace) :
  truthy (trim (defaultExportLocation settings)) = false ->
  downloadFile host settings content filename mimeType trace
  = match browserDownload host trace filename (blobOf content mimeType) with
    | Returned _ =>
        (Returned tt, trace ++ [DownloadTriggered filename (blobOf content mimeType)])
    | Threw e =>
        (Threw (ErrorValue ("Failed to download file: " ++ messageOf e)),
         trace ++ [ConsoleError "Mermaid Exporter: Download error:"])
    end.
Proof.
  intros Hblank. unfold downloadFile. fold (blobOf content mimeType).
  rewrite Hblank, andb_false_r.
  cbv beta iota delta [tryCatch bind emit call ret throw triggerDownload].
  destruct (browserDownload host trace filename (blobOf content mimeType)) as [[]|e];
    reflexivity.
Qed.

Lemma no_folder_downloads_directly_witness :
  downloadFile (sampleHost true true) (sampleSettings "   " "svg")
    (inl (Serialized sampleSvg)) "a.svg" (Some svgMime) []
  = (Returned tt, [DownloadTriggered "a.svg" (svgBlob (Serialized sampleSvg))]).
Proof.
  apply (no_folder_downloads_directly (sampleHost true true) (sampleSettings "   " "svg")).
  reflexivity.
Defined.

(** ** The vault writer *)

Lemma createParents_folderEvent (host : Host) (parts : list string) (currentPath : string) :
  emitsOnly folderEvent (createParents host currentPath parts).
Proof.
  revert currentPath. induction parts as [|part rest IH]; intros currentPath;
    cbn [createParents].
  - apply emitsOnly_ret.
  - repeat emits_step; try exact I. apply IH.
Qed.

Lemma bind_outcome {A B : Type} (m : M A) (k : A -> M B) (trace final : Trace) (b : B) :
  bind m k trace = (Returned b, final) ->
  exists a middle, m trace = (Returned a, middle) /\ k a middle = (Returned b, final).
Proof.
  unfold bind. destruct (m trace) as [[a|e] middle]; [|discriminate].
  intros H. now exists a, middle.
Qed.

(** X7.  When the vault save succeeds the persister stops there: the
    file is written under the normalized folder path, it is the last
    event and the only write, preceded by folder creations only, and
    neither a warning nor a browser download follows. *)
Theorem vault_success_skips_download (host : Host) (settings : MermaidExporterSettings)
  (content : Markup + Blob) (filename : string) (mimeType : option string)
  (trace saved : Trace) :
  truthy (trim (defaultExportLocation settings)) = true ->
  saveToVault host settings (blobOf content mimeType) filename trace
  = (Returned tt, saved) ->
  downloadFile host settings content filename mimeType trace = (Returned tt, saved)
  /\ exists folders,
       saved
       = trace ++ folders ++
         [FileWritten
            (normalizePath (trim (defaultExportLocation settings)) ++ filename)
            (blobOf content mimeType)]
       /\ Forall folderEvent folders.
Proof.
  intros Hfolder Hsave. split; [now apply downloadFile_vault_saved|].
  unfold saveToVault in Hsave.
  apply bind_outcome in Hsave as [[] [t1 [H1 Hsave]]].
  apply bind_outcome in Hsave as [[] [t2 [H2 Hsave]]].
  apply bind_outcome in Hsave as [[] [t3 [H3 Hsave]]].
  unfold emit in Hsave. injection Hsave as <-.
  unfold call in H1, H3.
  assert (Ht1 : t1 = trace) by (destruct (blobArrayBuffer _ _ _); congruence).
  assert (Ht3 : t3 = t2) by (destruct (createBinary _ _ _ _); congruence).
  subst t1 t3.
  assert (Hmid : exists folders, t2 = trace ++ folders /\ Forall folderEvent folders).
  { match type of H2 with ?m trace = _ =>
      assert (Hm : emitsOnly folderEvent m) end.
    { repeat emits_step; try exact I. apply createParents_folderEvent. }
    destruct (Hm trace) as [folders [Heq Hall]]. rewrite H2 in Heq. now exists folders. }
  destruct Hmid as [folders [-> Hall]].
  exists folders. split; [now rewrite <- app_assoc | exact Hall].
Qed.

Lemma vault_success_skips_download_witness :
  downloadFile (sampleHost true true) (sampleSettings "/Exports/" "svg")
    (inl (Serialized sampleSvg)) "a.svg" (Some svgMime) []
  = (Returned tt, [FileWritten "Exports/a.svg" (svgBlob (Serialized sampleSvg))]).
Proof.
  apply (vault_success_skips_download (sampleHost true true)
           (sampleSettings "/Exports/" "svg")); reflexivity.
Defined.

(** The loop over the segments, from the path [done] has led to. *)
Lemma createParents_levelwise (host : Host) (present : string -> bool) (trace : Trace)
  (parts : list string) (currentPath : string) (done : list string) :
  (forall k path,
     nth_error (cumulativePaths currentPath parts) k = Some path ->
     let reached :=
       trace ++ List.map FolderCreated
                  (missingFolders present
                     (done ++ firstn k (cumulativePaths currentPath parts))) in
     adapterExists host reached path = Returned (present path) /\
     (present path = false -> createFolder host reached path = Returned tt)) ->
  createParents host currentPath parts
    (trace ++ List.map FolderCreated (missingFolders present done))
  = (Returned tt,
     trace ++ List.map FolderCreated
                (missingFolders present (done ++ cumulativePaths currentPath parts))).
Proof.
  revert currentPath done. induction parts as [|part rest IH]; intros currentPath done Hvault.
  - cbn [createParents cumulativePaths]. now rewrite app_nil_r.
  - cbn [createParents cumulativePaths] in *.
    set (currentPath' :=
           if truthy currentPath then (currentPath ++ "/" ++ part)%string else part) in *.
    destruct (Hvault 0%nat currentPath' eq_refl) as [Hexists Hcreate].
    cbn [firstn] in Hexists, Hcreate. rewrite app_nil_r in Hexists, Hcreate.
    assert (Hnext : forall k path,
      nth_error (cumulativePaths currentPath' rest) k = Some path ->
      let reached :=
        trace ++ List.map FolderCreated
                   (missingFolders present
                      ((done ++ [currentPath'])
                       ++ firstn k (cumulativePaths currentPath' rest))) in
      adapterExists host reached path = Returned (present path) /\
      (present path = false -> createFolder host reached path = Returned tt)).
    { intros k path Hk. specialize (Hvault (S k) path Hk).
      cbn [firstn] in Hvault. now rewrite <- app_assoc. }
    specialize (IH currentPath' (done ++ [currentPath']) Hnext).
    rewrite <- app_assoc in IH. cbn [app] in IH.
    unfold bind at 1. unfold call at 1. rewrite Hexists.
    unfold missingFolders in *. rewrite (List.filter_app _ done [currentPath']) in IH. cbn [List.filter] in IH.
    destruct (present currentPath') eqn:Hp; cbn [negb] in IH.
    + rewrite app_nil_r in IH. unfold bind at 1. unfold ret at 1. exact IH.
    + unfold bind at 1. unfold bind at 1. unfold call at 1.
      rewrite (Hcreate eq_refl). unfold emit at 1.
      rewrite map_app, app_assoc in IH. exact IH.
Qed.

(** X8.  When [createFolder] fails on the whole folder path, the
    folders are made one segment at a time, top-down: on a vault that
    tells which of these paths it has and creates each one when its
    turn comes, exactly the missing cumulative paths are created, in
    order, and the file is written under the folder path. *)
Theorem saveToVault_creates_missing_prefixes (host : Host)
  (settings : MermaidExporterSettings) (present : string -> bool)
  (blob : Blob) (filename : string) (trace : Trace) :
  let dirPath := normalizePath (trim (defaultExportLocation settings)) in
  let segments :=
    cumulativePaths EmptyString (List.filter truthy (splitOn "/" dirPath)) in
  truthy dirPath = true ->
  levelwiseVault host present dirPath segments trace ->
  blobArrayBuffer host trace blob = Returned tt ->
  (forall written : Trace,
     createBinary host written (dirPath ++ filename) blob = Returned tt) ->
  saveToVault host settings blob filename trace
  = (Returned tt,
     trace ++ List.map FolderCreated (missingFolders present segments)
     ++ [FileWritten (dirPath ++ filename) blob]).
Proof.
  intros dirPath segments Hdir [Hexists [[error Hfails] Hlevels]] Hbuffer Hwrite.
  unfold saveToVault. fold dirPath. rewrite Hdir.
  unfold bind at 1. unfold call at 1. rewrite Hbuffer.
  unfold bind at 1. unfold bind at 1. unfold call at 1. rewrite Hexists.
  unfold tryCatch. unfold bind at 1. unfold call at 1. rewrite Hfails.
  pose proof (createParents_levelwise host present trace
                (List.filter truthy (splitOn "/" dirPath)) EmptyString []) as Hloop.
  cbn [app List.map missingFolders List.filter] in Hloop.
  rewrite app_nil_r in Hloop. fold segments in Hloop.
  rewrite (Hloop Hlevels).
  unfold bind at 1. unfold call at 1. rewrite Hwrite.
  unfold emit. now rewrite <- app_assoc.
Qed.

Lemma saveToVault_creates_missing_prefixes_witness :
  saveToVault levelwiseHost (sampleSettings "Exports/Mermaid" "svg")
    (svgBlob (Serialized sampleSvg)) "a.svg" []
  = (Returned tt,
     [ FolderCreated "Exports"; FolderCreated "Exports/Mermaid";
       FileWritten "Exports/Mermaid/a.svg" (svgBlob (Serialized sampleSvg)) ]).
Proof.
  apply (saveToVault_creates_missing_prefixes levelwiseHost
           (sampleSettings "Exports/Mermaid" "svg") (fun _ => false)
           (svgBlob (Serialized sampleSvg)) "a.svg" []); try reflexivity.
  split; [reflexivity|]. split; [eexists; reflexivity|].
  intros [|[|k]] path Hk; try (injection Hk as <-; split; reflexivity).
  destruct k; discriminate Hk.
Defined.

(** ** More on the validator *)

Lemma lowerChar_idempotent (c : ascii) : lowerChar (lowerChar c) = lowerChar c.
Proof. destruct c as [[] [] [] [] [] [] [] []]; vm_compute; reflexivity. Qed.

Lemma toLowerCase_idempotent (s : string) : toLowerCase (toLowerCase s) = toLowerCase s.
Proof.
  induction s as [|c s IH]; [reflexivity|].
  cbn [toLowerCase]. now rewrite lowerChar_idempotent, IH.
Qed.

Lemma mermaidKeywords_firm : List.Forall (firmEnds isWhiteSpace) mermaidKeywords.
Proof. unfold mermaidKeywords. repeat (constructor; [split; vm_compute; reflexivity|]). constructor. Qed.

Lemma includes_app (k a s b : string) :
  includes k s = true -> includes k (a ++ s ++ b) = true.
Proof.
  rewrite !includes_split. intros [before [after ->]].
  exists (a ++ before)%string, (after ++ b)%string. now rewrite !append_assoc.
Qed.

(** X9.  The validator ignores letter case and surrounding white
    space, and it only sniffs: a text that contains an accepted text is
    accepted too, so prose that mentions a keyword passes. *)
Theorem validator_ignores_case_and_context (code : string) :
  validateMermaidCode (toLowerCase code) = validateMermaidCode code
  /\ validateMermaidCode (trim code) = validateMermaidCode code
  /\ (validateMermaidCode code = true ->
      forall before after, validateMermaidCode (before ++ code ++ after) = true).
Proof.
  split; [|split].
  - apply eq_true_iff_eq. rewrite !validateMermaidCode_iff.
    now rewrite <- trim_toLowerCase, toLowerCase_idempotent.
  - apply validateMermaidCode_trim.
  - intros H before after. apply validateMermaidCode_iff in H as [keyword [Hin Hinc]].
    apply validateMermaidCode_iff. exists keyword. split; [exact Hin|].
    apply includes_trim_lower in Hinc.
    rewrite trim_toLowerCase. unfold trim, trimEnd, trimStart.
    apply includes_strip.
    + pose proof mermaidKeywords_firm as Hfirm. rewrite List.Forall_forall in Hfirm.
      now apply Hfirm.
    + rewrite !toLowerCase_app. now apply includes_app.
Qed.

Lemma validator_ignores_case_and_context_witness :
  validateMermaidCode ("I ate a " ++ "pie" ++ " today") = true.
Proof.
  apply (validator_ignores_case_and_context "pie"). reflexivity.
Defined.

(** ** Folder paths *)

Section Strip.

Variable P : ascii -> bool.

Lemma dropStart_app_kept (a b : string) :
  dropStart P a <> EmptyString -> dropStart P (a ++ b) = (dropStart P a ++ b)%string.
Proof.
  induction a as [|c a IH]; [intros H; now destruct H|].
  rewrite append_cons. cbn [dropStart]. destruct (P c); [exact IH|].
  intros _. now rewrite append_cons.
Qed.

Lemma dropStart_app_dropped (a b : string) :
  dropStart P a = EmptyString -> dropStart P (a ++ b) = dropStart P b.
Proof.
  induction a as [|c a IH]; [reflexivity|].
  rewrite append_cons. cbn [dropStart]. destruct (P c); [exact IH | discriminate].
Qed.

Lemma dropEnd_snoc (s : string) (c : ascii) :
  P c = true -> dropEnd P (s ++ String c EmptyString) = dropEnd P s.
Proof.
  intros Hc. induction s as [|d s IH].
  - rewrite append_empty_l. cbn [dropEnd]. now rewrite Hc.
  - rewrite append_cons. cbn [dropEnd]. now rewrite IH.
Qed.

Lemma dropEnd_lastOutside (s : string) :
  dropEnd P s <> EmptyString -> lastOutside P (dropEnd P s).
Proof.
  induction s as [|c s IH]; [intros H; now destruct H|].
  cbn [dropEnd]. destruct (dropEnd P s) as [|d r] eqn:E.
  - destruct (P c) eqn:Ec; [intros H; now destruct H | intros _; exact Ec].
  - intros _. cbn [lastOutside]. apply IH. discriminate.
Qed.

Lemma endsWith_last (c : ascii) (s : string) :
  endsWith (String c EmptyString) s = true -> lastOutside P s -> P c = false.
Proof.
  induction s as [|d s IH]; [intros _ []|].
  cbn [endsWith]. intros H Hlast. apply orb_true_iff in H as [H | H].
  - apply String.eqb_eq in H. injection H as -> <-. exact Hlast.
  - destruct s as [|e s]; [cbn in H; discriminate|]. apply IH; [exact H | exact Hlast].
Qed.

End Strip.

Lemma endsWith_refl (p : string) : endsWith p p = true.
Proof. destruct p; cbn [endsWith]; rewrite String.eqb_refl; reflexivity. Qed.

Lemma endsWith_app (p s : string) : endsWith p (s ++ p) = true.
Proof.
  induction s as [|c s IH]; [rewrite append_empty_l; apply endsWith_refl|].
  rewrite append_cons. cbn [endsWith]. rewrite IH. apply orb_true_r.
Qed.

Lemma normalizePath_strip (path : string) :
  normalizePath path
  = if truthy (stripSlashes path) then (stripSlashes path ++ "/")%string
    else EmptyString.
Proof.
  unfold normalizePath. destruct (stripSlashes path) as [|c r] eqn:E; [reflexivity|].
  cbn [truthy andb].
  destruct (endsWith "/" (String c r)) eqn:Hends; [|reflexivity].
  exfalso. apply (endsWith_last isSlash) in Hends; [discriminate|].
  rewrite <- E. unfold stripSlashes. apply dropEnd_lastOutside.
  unfold stripSlashes in E. rewrite E. discriminate.
Qed.

(** X10.  The folder setting is read up to its leading and trailing
    separators: adding a separator in front or behind changes nothing;
    the normalized folder is empty (the setting was only separators) or
    is the stripped setting followed by one separator, and it never
    starts with a separator. *)
Theorem normalizePath_ignores_outer_separators (path : string) :
  normalizePath ("/" ++ path) = normalizePath path
  /\ normalizePath (path ++ "/") = normalizePath path
  /\ normalizePath path
     = (if truthy (stripSlashes path) then (stripSlashes path ++ "/")%string
        else EmptyString)
  /\ startsWith "/" (normalizePath path) = false
  /\ (truthy (normalizePath path) = true -> endsWith "/" (normalizePath path) = true).
Proof.
  split; [reflexivity|]. split; [|split; [apply normalizePath_strip|split]].
  - rewrite !normalizePath_strip.
    assert (H : stripSlashes (path ++ "/") = stripSlashes path).
    { unfold stripSlashes.
      destruct (dropStart isSlash path) as [|c r] eqn:E.
      - rewrite dropStart_app_dropped by exact E. reflexivity.
      - rewrite dropStart_app_kept by (rewrite E; discriminate).
        rewrite E. now apply dropEnd_snoc. }
    now rewrite H.
  - rewrite normalizePath_strip. unfold stripSlashes.
    pose proof (dropEnd_headOutside isSlash (dropStart isSlash path)
                  (dropStart_headOutside isSlash path)) as Hhead.
    destruct (dropEnd isSlash (dropStart isSlash path)) as [|c r]; [reflexivity|].
    cbn [truthy]. rewrite append_cons. cbn [startsWith]. cbn [headOutside] in Hhead.
    unfold isSlash in Hhead. rewrite Ascii.eqb_sym, Hhead. reflexivity.
  - rewrite normalizePath_strip. destruct (truthy (stripSlashes path)); [|discriminate].
    intros _. apply endsWith_app.
Qed.

Lemma normalizePath_ignores_outer_separators_witness :
  endsWith "/" (normalizePath "//Exports/Mermaid//") = true.
Proof.
  apply (normalizePath_ignores_outer_separators "//Exports/Mermaid//"). reflexivity.
Defined.

(** ** File names, continued *)

(** X11.  The generated file name always ends with a dot and the
    selected format ([svg] when none is set), whatever the template,
    the note and the clock; a template that already ends so is not
    extended. *)
Theorem generateFilename_has_extension (settings : MermaidExporterSettings)
  (activeFile : option string) (now : Clock) :
  let extension := orElse (exportFormat settings) "svg" in
  let noteName :=
    match activeFile with Some basename => basename | None => "mermaid-diagram" end in
  let template := orElse (filenameFormat settings) "{noteName}-{timestamp}" in
  endsWith ("." ++ extension) (generateFilename settings activeFile now) = true
  /\ (endsWith ("." ++ extension) (substitutePlaceholders template noteName now) = true ->
      generateFilename settings activeFile now
      = substitutePlaceholders template noteName now)
  /\ (endsWith ("." ++ extension) (substitutePlaceholders template noteName now) = false ->
      generateFilename settings activeFile now
      = (substitutePlaceholders template noteName now ++ "." ++ extension)%string).
Proof.
  intros extension noteName template. unfold generateFilename.
  fold noteName. change (filenameFormat DEFAULT_SETTINGS) with "{noteName}-{timestamp}".
  fold template extension.
  destruct (endsWith ("." ++ extension) (substitutePlaceholders template noteName now))
    eqn:E.
  - repeat split; try discriminate; auto.
  - repeat split; try discriminate; auto. apply endsWith_app.
Qed.

Lemma generateFilename_has_extension_witness :
  generateFilename (templateSettings "chart.svg" "svg") None sampleClock = "chart.svg".
Proof.
  apply (generateFilename_has_extension (templateSettings "chart.svg" "svg") None
           sampleClock). reflexivity.
Defined.

(** ** More on the normalizer *)



Lemma ensureViewBox_keeps (current w h : option string) (el : SvgElement) :
  current = getAttribute "viewBox" el ->
  attrTruthy current = true \/
  getAttribute "viewBox" (ensureViewBox current w h el) = getAttribute "viewBox" el \/
  attrTruthy (getAttribute "viewBox" (ensureViewBox current w h el)) = true.
Proof.
  intros ->. unfold ensureViewBox. destruct w as [w|], h as [h|]; try tauto.
  destruct (negb (attrTruthy (getAttribute "viewBox" el)) && truthy w && truthy h);
    [|tauto].
  right. right. rewrite getAttribute_set_same. apply viewBoxFrom_truthy.
Qed.








(** ** More on the document tree *)

Lemma findAssociatedWithin_some (steps : nat) (ancestors : list Node) (el : Node) :
  findAssociatedWithin steps ancestors = Some el ->
  exists level,
    (level < steps)%nat /\
    nth_error ancestors level = Some el /\
    looksLikeDiagram (underMermaid (skipn (S level) ancestors)) el = true /\
    forall nearer a,
      (nearer < level)%nat -> nth_error ancestors nearer = Some a ->
      looksLikeDiagram (underMermaid (skipn (S nearer) ancestors)) a = false.
Proof.
  revert ancestors. induction steps as [|k IH]; intros [|current rest]; try discriminate.
  cbn [findAssociatedWithin].
  destruct (looksLikeDiagram (underMermaid rest) current) eqn:E.
  - intros [= <-]. exists 0%nat. repeat split; [lia | exact E | intros; lia].
  - intros H. destruct (IH rest H) as [level [Hlt [Hnth [Hlooks Hnearer]]]].
    exists (S level). repeat split; [lia | exact Hnth | exact Hlooks|].
    intros [|nearer] a Hn Ha.
    + injection Ha as <-. exact E.
    + apply (Hnearer nearer a); [lia | exact Ha].
Qed.

Lemma findAssociatedWithin_none (steps : nat) (ancestors : list Node) :
  findAssociatedWithin steps ancestors = None <->
  forall level a,
    (level < steps)%nat -> nth_error ancestors level = Some a ->
    looksLikeDiagram (underMermaid (skipn (S level) ancestors)) a = false.
Proof.
  revert ancestors. induction steps as [|k IH]; intros ancestors.
  - split; [intros _ level a H; lia | reflexivity].
  - destruct ancestors as [|current rest].
    + split; [intros _ [|level] a _ H; discriminate | reflexivity].
    + cbn [findAssociatedWithin].
      destruct (looksLikeDiagram (underMermaid rest) current) eqn:E.
      * split; [discriminate|]. intros H.
        pose proof (H 0%nat current ltac:(lia) eq_refl) as H0. change (looksLikeDiagram (underMermaid rest) current = false) in H0. congruence.
      * rewrite IH. split.
        -- intros H [|level] a Hlt Ha.
           ++ injection Ha as <-. exact E.
           ++ apply (H level a); [lia | exact Ha].
        -- intros H level a Hlt Ha. apply (H (S level) a); [lia | exact Ha].
Qed.

(** X13.  The element associated with a control is the nearest of its
    first ten ancestors that looks like a diagram; an ancestor further
    up is never found, and with none among the first ten the control
    counts as orphaned. *)
Theorem association_is_nearest_within_ten (ancestors : list Node) :
  (forall el,
     findAssociatedMermaidElement ancestors = Some el ->
     exists level,
       (level < 10)%nat /\
       nth_error ancestors level = Some el /\
       looksLikeDiagram (underMermaid (skipn (S level) ancestors)) el = true /\
       forall nearer a,
         (nearer < level)%nat -> nth_error ancestors nearer = Some a ->
         looksLikeDiagram (underMermaid (skipn (S nearer) ancestors)) a = false)
  /\ (findAssociatedMermaidElement ancestors = None <->
      forall level a,
        (level < 10)%nat -> nth_error ancestors level = Some a ->
        looksLikeDiagram (underMermaid (skipn (S level) ancestors)) a = false).
Proof.
  split; [intros el; apply findAssociatedWithin_some | apply findAssociatedWithin_none].
Qed.

Lemma association_is_nearest_within_ten_witness :
  findAssociatedMermaidElement
    (List.repeat (MkNode (plainProps 1 "div") []) 10
     ++ [MkNode {| nodeId := 2; tagName := "div"; classList := ["mermaid"];
                   nodeAttributes := ∅ |} []])
  = None.
Proof.
  apply (association_is_nearest_within_ten _).
  intros level a Hlt Ha.
  do 10 (destruct level as [|level]; [injection Ha as <-; reflexivity|]). lia.
Defined.

Lemma cleanupButton_live (d : Document) (b : nat) :
  associationLive d b = true -> cleanupButton d b = d.
Proof.
  intros H. unfold cleanupButton. rewrite H.
  now destruct (ancestorsOf b (documentRoot d)).
Qed.

(** X14.  A cleanup pass leaves the document as it is when every export
    control has its associated element in the body. *)
Theorem cleanup_keeps_live_controls (st : PluginState) :
  (forall button,
     In button (querySelectorAll isExportButton (body (document st))) ->
     associationLive (document st) (idOf button) = true) ->
  document (cleanupRemovedDiagrams st) = document st.
Proof.
  intros Hlive. unfold cleanupRemovedDiagrams. cbn [document].
  assert (H : forall buttons,
    (forall b, In b buttons -> associationLive (document st) b = true) ->
    fold_left cleanupButton buttons (document st) = document st).
  { induction buttons as [|b rest IH]; intros Hall; [reflexivity|].
    cbn [fold_left]. rewrite cleanupButton_live by (apply Hall; now left).
    apply IH. intros b' Hb'. apply Hall. now right. }
  apply H. intros b Hb. apply in_map_iff in Hb as [button [<- Hin]]. now apply Hlive.
Qed.

Lemma cleanup_keeps_live_controls_witness :
  document (cleanupRemovedDiagrams sampleLiveState) = document sampleLiveState.
Proof.
  apply cleanup_keeps_live_controls.
  intros button [<- | []]. reflexivity.
Defined.

(** ** Unloading *)

Lemma allMatches_inv (sel : NodeProps -> bool) (search : Node -> list Node)
  (kids : list Node) (m : Node) :
  In m (allMatches sel search kids) ->
  exists c, In c kids /\ ((sel (propsOf c) = true /\ m = c) \/ In m (search c)).
Proof.
  induction kids as [|c kids IH]; [intros []|].
  cbn [allMatches]. fold (allMatches sel search). intros H.
  apply in_app_or in H as [H | H].
  - destruct (sel (propsOf c)) eqn:E; [|destruct H].
    destruct H as [<- | []]. exists c. split; [now left | now left].
  - apply in_app_or in H as [H | H].
    + exists c. split; [now left | now right].
    + destruct (IH H) as [c' [Hin Hc']]. exists c'. split; [now right | exact Hc'].
Qed.

Lemma allMatches_intro (sel : NodeProps -> bool) (search : Node -> list Node)
  (kids : list Node) (c m : Node) :
  In c kids -> (sel (propsOf c) = true /\ m = c) \/ In m (search c) ->
  In m (allMatches sel search kids).
Proof.
  induction kids as [|k kids IH]; intros Hin Hm; [destruct Hin|].
  cbn [allMatches]. fold (allMatches sel search).
  destruct Hin as [-> | Hin].
  - destruct Hm as [[Hsel ->] | Hm].
    + rewrite Hsel. now left.
    + apply in_or_app. right. apply in_or_app. now left.
  - apply in_or_app. right. apply in_or_app. right. now apply IH.
Qed.

(** A match in the pruned tree comes from a match of the same identity
    in the tree. *)
Lemma querySelectorAll_pruned (sel : NodeProps -> bool) (b : nat) (n m' : Node) :
  In m' (querySelectorAll sel (removeNode b n)) ->
  exists m, In m (querySelectorAll sel n) /\ idOf m = idOf m'.
Proof.
  revert m'. induction n as [p kids IH] using Node_induction. intros m'.
  cbn [removeNode querySelectorAll]. intros H.
  apply allMatches_inv in H as [c' [Hin Hc']].
  apply in_pruned_kids in Hin as [c [Hin [-> _]]].
  destruct Hc' as [[Hsel ->] | Hbelow].
  - exists c. split; [|now rewrite idOf_removeNode].
    apply allMatches_intro with (c := c); [exact Hin | left].
    split; [now rewrite propsOf_removeNode in Hsel | reflexivity].
  - rewrite List.Forall_forall in IH. destruct (IH c Hin m' Hbelow) as [m [Hm Hid]].
    exists m. split; [|exact Hid].
    apply allMatches_intro with (c := c); [exact Hin | now right].
Qed.

Lemma unload_fold (buttons : list nat) (d : Document) :
  idOf (body (fold_left removeFromBody buttons d)) = idOf (body d)
  /\ (forall x,
        In x (nodeIds (body (fold_left removeFromBody buttons d))) ->
        In x (nodeIds (body d)) /\ (x <> idOf (body d) -> ~ In x buttons))
  /\ (forall m',
        In m' (querySelectorAll isExportButton (body (fold_left removeFromBody buttons d))) ->
        exists m, In m (querySelectorAll isExportButton (body d)) /\ idOf m = idOf m').
Proof.
  revert d. induction buttons as [|b rest IH]; intros d.
  - cbn [fold_left]. split; [reflexivity|]. split.
    + intros x Hx. split; [exact Hx | intros _ []].
    + intros m' Hm'. now exists m'.
  - cbn [fold_left]. destruct (IH (removeFromBody d b)) as [Hid [Hids Hmatch]].
    cbn [removeFromBody body] in *. rewrite idOf_removeNode in *.
    split; [exact Hid|]. split.
    + intros x Hx. destruct (Hids x Hx) as [Hin Hrest]. split.
      * now apply nodeIds_removeNode in Hin.
      * intros Hne [<- | Hb]; [|now apply Hrest].
        now apply (removeNode_gone b (body d)).
    + intros m' Hm'. destruct (Hmatch m' Hm') as [m1 [Hm1 Hid1]].
      apply querySelectorAll_pruned in Hm1 as [m [Hm Hidm]].
      exists m. split; [exact Hm | congruence].
Qed.

(** X15.  Unloading leaves no export control below the body of a
    well-formed document and an empty registry; it adds no node. *)
Theorem onunload_removes_every_control (st : PluginState) :
  wellFormed (document st) ->
  querySelectorAll isExportButton (body (document (onunload st))) = []
  /\ processedDiagrams (onunload st) = ∅
  /\ (forall node,
        bodyContains (document (onunload st)) node = true ->
        bodyContains (document st) node = true).
Proof.
  intros Hwf. unfold onunload. cbn [document processedDiagrams].
  set (buttons := List.map idOf (querySelectorAll isExportButton (body (document st)))).
  destruct (unload_fold buttons (document st)) as [Hid [Hids Hmatch]].
  split; [|split; [reflexivity|]].
  - destruct (querySelectorAll isExportButton
                (body (fold_left removeFromBody buttons (document st))))
      as [|m' rest] eqn:E; [reflexivity|].
    exfalso.
    assert (Hm' : In m' (querySelectorAll isExportButton
                           (body (fold_left removeFromBody buttons (document st)))))
      by (rewrite E; now left).
    rewrite <- E in Hmatch.
    destruct (Hmatch m' Hm') as [m [Hm Hidm]].
    apply querySelectorAll_ids in Hm'.
    assert (Hin : In (idOf m') (nodeIds (body (fold_left removeFromBody buttons (document st))))).
    { rewrite nodeIds_strict. now right. }
    destruct (Hids _ Hin) as [_ Hnot]. apply Hnot.
    + intros Heq. apply querySelectorAll_ids in Hm.
      destruct (wellFormed_body _ Hwf) as [Hnd _].
      rewrite nodeIds_strict in Hnd. apply List.NoDup_cons_iff in Hnd as [Hnd _].
      apply Hnd. now rewrite <- Heq, <- Hidm.
    + subst buttons. rewrite <- Hidm. now apply in_map.
  - intros node. unfold bodyContains. rewrite !contains_nodeIds. intros H.
    now apply Hids in H.
Qed.

Lemma onunload_removes_every_control_witness :
  querySelectorAll isExportButton (body (document (onunload sampleState))) = []
  /\ processedDiagrams (onunload sampleState) = ∅
  /\ (forall node,
        bodyContains (document (onunload sampleState)) node = true ->
        bodyContains (document sampleState) node = true).
Proof. apply onunload_removes_every_control. apply sampleWellFormed. Defined.

(** ** Placeholders in plain templates *)

Lemma append_empty_r (s : string) : (s ++ EmptyString)%string = s.
Proof. induction s as [|c s IH]; [reflexivity|]. now rewrite append_cons, IH. Qed.

Lemma freeOf_app (c : ascii) (a b : string) :
  freeOf c (a ++ b) = freeOf c a && freeOf c b.
Proof.
  induction a as [|d a IH]; [now rewrite append_empty_l|].
  rewrite append_cons. cbn [freeOf]. now rewrite IH, andb_assoc.
Qed.

Lemma getSubstitution_plain (matched before after replacement : string) :
  freeOf "$" replacement = true ->
  getSubstitution matched before after replacement = replacement.
Proof.
  induction replacement as [|c r IH]; [reflexivity|].
  cbn [freeOf getSubstitution]. intros H. apply andb_true_iff in H as [Hc Hr].
  apply negb_true_iff in Hc. rewrite Hc. now rewrite IH.
Qed.

Section Placeholder.

Variables (token replacement : string).
Let pat : string := String "{" token.

(** Text without a brace is copied. *)
Lemma replaceAllFrom_copy (s t before : string) :
  freeOf "{" s = true ->
  replaceAllFrom pat replacement before 0 (s ++ t)
  = (s ++ replaceAllFrom pat replacement (before ++ s) 0 t)%string.
Proof.
  revert before. induction s as [|c s IH]; intros before H.
  - now rewrite append_empty_l, append_empty_r, append_empty_l.
  - cbn [freeOf] in H. apply andb_true_iff in H as [Hc Hs].
    apply negb_true_iff in Hc.
    rewrite !append_cons. cbn [replaceAllFrom]. unfold pat at 1. cbn [startsWith].
    rewrite Ascii.eqb_sym, Hc. cbn [andb].
    rewrite IH by exact Hs. f_equal. f_equal. f_equal.
    now rewrite append_assoc, append_cons, append_empty_l.
Qed.

(** The characters of a match are passed over. *)
Lemma replaceAllFrom_pass (u t before : string) :
  replaceAllFrom pat replacement before (String.length u) (u ++ t)
  = replaceAllFrom pat replacement (before ++ u) 0 t.
Proof.
  revert before. induction u as [|c u IH]; intros before.
  - now rewrite append_empty_l, append_empty_r.
  - rewrite append_cons. cbn [String.length replaceAllFrom].
    rewrite IH. f_equal. now rewrite append_assoc, append_cons, append_empty_l.
Qed.

Lemma drop_app (u t : string) : drop (String.length u) (u ++ t) = t.
Proof.
  induction u as [|c u IH]; [now rewrite append_empty_l|].
  rewrite append_cons. exact IH.
Qed.

(** A placeholder is replaced by the substitution for its place. *)
Lemma replaceAllFrom_match (t before : string) :
  replaceAllFrom pat replacement before 0 (pat ++ t)
  = (getSubstitution pat before t replacement
     ++ replaceAllFrom pat replacement (before ++ pat) 0 t)%string.
Proof.
  pose proof (startsWith_app pat t) as Hs. pose proof (drop_app pat t) as Hd.
  unfold pat in *. rewrite append_cons in *.
  cbn [replaceAllFrom]. rewrite Hs, Hd. f_equal.
  cbn [String.length].
  replace (S (String.length token) - 1)%nat with (String.length token) by lia.
  rewrite replaceAllFrom_pass. f_equal.
  now rewrite append_assoc, !append_cons, append_empty_l.
Qed.

(** Text without a brace has no placeholder. *)
Lemma replaceAll_absent (s : string) :
  freeOf "{" s = true -> replaceAll pat replacement s = s.
Proof.
  intros H. unfold replaceAll.
  rewrite <- (append_empty_r s) at 1. rewrite replaceAllFrom_copy by exact H.
  cbn [replaceAllFrom]. apply append_empty_r.
Qed.

(** Another placeholder is copied. *)
Lemma replaceAllFrom_other (other t before : string) :
  (forall rest, startsWith token (other ++ rest) = false) ->
  freeOf "{" other = true ->
  replaceAllFrom pat replacement before 0 (String "{" other ++ t)
  = (String "{" other
     ++ replaceAllFrom pat replacement (before ++ String "{" other) 0 t)%string.
Proof.
  intros Hother Hfree. rewrite !append_cons.
  cbn [replaceAllFrom]. unfold pat at 1. cbn [startsWith].
  rewrite Hother. rewrite andb_false_r.
  rewrite replaceAllFrom_copy by exact Hfree. f_equal. f_equal. f_equal.
  now rewrite append_assoc, append_cons, append_empty_l.
Qed.

End Placeholder.

Lemma truthy_app_token (pre token rest : string) :
  truthy (pre ++ String "{" token ++ rest) = true.
Proof. destruct pre; [now rewrite append_empty_l, append_cons | now rewrite append_cons]. Qed.

Lemma substitutePlaceholders_plain (pre mid post noteName : string) (now : Clock) :
  freeOf "{" pre = true -> freeOf "{" mid = true -> freeOf "{" post = true ->
  plainText noteName -> plainText (timestampOf now) ->
  substitutePlaceholders (pre ++ "{noteName}" ++ mid ++ "{timestamp}" ++ post) noteName now
  = (pre ++ noteName ++ mid ++ timestampOf now ++ post)%string.
Proof.
  intros Hpre Hmid Hpost [Hn1 Hn2] [Ht1 Ht2]. unfold substitutePlaceholders.
  assert (H1 : replaceAll "{noteName}" noteName
                 (pre ++ "{noteName}" ++ mid ++ "{timestamp}" ++ post)
               = (pre ++ noteName ++ mid ++ "{timestamp}" ++ post)%string).
  { unfold replaceAll. rewrite replaceAllFrom_copy by exact Hpre. f_equal.
    rewrite replaceAllFrom_match, getSubstitution_plain by exact Hn1. f_equal.
    rewrite replaceAllFrom_copy by exact Hmid. f_equal.
    rewrite replaceAllFrom_other; [|intros rest; now rewrite !append_cons | reflexivity].
    f_equal. rewrite <- (append_empty_r post) at 1.
    rewrite replaceAllFrom_copy by exact Hpost. cbn [replaceAllFrom].
    apply append_empty_r. }
  rewrite H1.
  assert (H2 : replaceAll "{timestamp}" (timestampOf now)
                 (pre ++ noteName ++ mid ++ "{timestamp}" ++ post)
               = (pre ++ noteName ++ mid ++ timestampOf now ++ post)%string).
  { unfold replaceAll. rewrite replaceAllFrom_copy by exact Hpre. f_equal.
    rewrite replaceAllFrom_copy by exact Hn2. f_equal.
    rewrite replaceAllFrom_copy by exact Hmid. f_equal.
    rewrite replaceAllFrom_match, getSubstitution_plain by exact Ht1. f_equal.
    rewrite <- (append_empty_r post) at 1.
    rewrite replaceAllFrom_copy by exact Hpost. cbn [replaceAllFrom].
    apply append_empty_r. }
  rewrite H2.
  assert (Hfree : freeOf "{" (pre ++ noteName ++ mid ++ timestampOf now ++ post) = true).
  { rewrite !freeOf_app, Hpre, Hn2, Hmid, Ht2, Hpost. reflexivity. }
  pose proof (replaceAll_absent "date}" (dateOf now) _ Hfree) as H3.
  pose proof (replaceAll_absent "time}" (timeOf now) _ Hfree) as H4.
  cbv beta zeta in H3, H4 |- *. now rewrite H3, H4.
Qed.

(** X16.  With a template made of plain text around [{noteName}] and
    [{timestamp}], a note name without a dollar sign or a brace is put
    into the file name as it is, next to the time stamp; the extension
    is added unless the name ends with it. *)
Theorem generateFilename_plain_note_name (settings : MermaidExporterSettings)
  (pre mid post noteName : string) (now : Clock) :
  filenameFormat settings = (pre ++ "{noteName}" ++ mid ++ "{timestamp}" ++ post)%string ->
  freeOf "{" pre = true -> freeOf "{" mid = true -> freeOf "{" post = true ->
  plainText noteName -> plainText (timestampOf now) ->
  let stem := (pre ++ noteName ++ mid ++ timestampOf now ++ post)%string in
  let extension := ("." ++ orElse (exportFormat settings) "svg")%string in
  generateFilename settings (Some noteName) now
  = if endsWith extension stem then stem else (stem ++ extension)%string.
Proof.
  intros Htemplate Hpre Hmid Hpost Hname Hclock stem extension.
  assert (Hor : orElse (filenameFormat settings) (filenameFormat DEFAULT_SETTINGS)
                = (pre ++ "{noteName}" ++ mid ++ "{timestamp}" ++ post)%string).
  { rewrite Htemplate. unfold orElse.
    now rewrite (truthy_app_token pre "noteName}" (mid ++ "{timestamp}" ++ post)). }
  unfold generateFilename. rewrite Hor.
  rewrite substitutePlaceholders_plain by assumption.
  reflexivity.
Qed.

Lemma generateFilename_plain_note_name_witness :
  generateFilename (templateSettings "{noteName}-{timestamp}" "png") (Some "Design") sampleClock
  = "Design-2024-03-01T12-34-56.png".
Proof.
  apply (generateFilename_plain_note_name
           (templateSettings "{noteName}-{timestamp}" "png")
           EmptyString "-" EmptyString "Design" sampleClock);
    try split; vm_compute; reflexivity.
Defined.

(** ** The raster converter stopped short *)

(** X17.  When the image does not load, the canvas has no context or
    the canvas does not encode, the raster converter throws an error
    and hands nothing to the vault or to the browser: it appends events
    of the canvas only. *)
Theorem raster_stops_without_delivery (host : Host) (settings : MermaidExporterSettings)
  (svg : Markup) (filename format : string) (trace : Trace) :
  (forall bytes, ~ rasterPasses host settings svg format bytes trace) ->
  (exists message,
     fst (convertSvgToRaster host settings svg filename format trace)
     = Threw (ErrorValue message))
  /\ exists added,
       snd (convertSvgToRaster host settings svg filename format trace) = trace ++ added
       /\ List.Forall (fun e => isRasterEvent e = true) added.
Proof.
  unfold rasterPasses, rasterEncoded, convertSvgToRaster.
  destruct (rasterSize settings svg) as [width height]. cbn [fst snd].
  intros Hstops. cbv beta iota delta [bind emit ask throw].
  destruct (imageLoads host (trace ++ [ImageRequested svg]) svg) eqn:Hload.
  - rewrite <- !app_assoc. cbn [app].
    destruct (canvasContext host (trace ++ [ImageRequested svg; CanvasSized width height]))
      eqn:Hcontext.
    + rewrite <- !app_assoc. cbn [app].
      destruct (canvasToBlob host
                  (trace ++ [ImageRequested svg; CanvasSized width height;
                             ImageDrawn width height;
                             CanvasEncoded (rasterMime format) (rasterQuality format)])
                  width height (rasterMime format)) as [bytes|] eqn:Hblob.
      * exfalso. apply (Hstops bytes). repeat split; assumption.
      * cbn [fst snd]. split; [eexists; reflexivity|].
        eexists. split; [reflexivity|]. repeat constructor.
    + cbn [fst snd]. split; [eexists; reflexivity|].
      eexists. split; [reflexivity|]. repeat constructor.
  - cbn [fst snd]. split; [eexists; reflexivity|].
    eexists. split; [reflexivity|]. repeat constructor.
Qed.

Lemma raster_stops_without_delivery_witness :
  (exists message,
     fst (convertSvgToRaster imagelessHost (sampleSettings "Exports" "png")
            (Serialized sampleSvg) "Design.png" "png" [])
     = Threw (ErrorValue message))
  /\ exists added,
       snd (convertSvgToRaster imagelessHost (sampleSettings "Exports" "png")
              (Serialized sampleSvg) "Design.png" "png" []) = [] ++ added
       /\ List.Forall (fun e => isRasterEvent e = true) added.
Proof.
  apply raster_stops_without_delivery.
  intros bytes [Hload _]. discriminate Hload.
Defined.
